(** * Column detailer: a shallow embedding of the calculation core

    The Python sources embedded here are
    - [src/column_detailer/excel_reader.py]      (the typed input records),
    - [src/column_detailer/column_calculator.py] (geometry and rebar layout),
    - [src/column_detailer/entities/column.py], [entities/stirrup.py],
      [entities/rebar.py]                        (the entity model),
    - [src/utils/validation.py]                  (the data validator),
    - [src/utils/geometry.py]                    (plane geometry helpers).

    Conventions of the embedding.
    - A Python [float] is a rational number ([Q]): arithmetic is exact, a
      comparison is the comparison of the rationals.  Where the source needs
      [math.pi] and a square root (the weight of a bar) the carrier is [R].
    - The section layouts take the [math] module they read ([math.pi],
      [math.cos], [math.sin]) as a [MathModule] of float values.
    - A Python [int] is a [Z].
    - A Python exception is a value of [exn]; a function that can raise or
      loop returns an [outcome].
    - A [while] loop is run with fuel: [OutOfFuel] is the answer of a run that
      did not leave the loop within the given number of iterations.
    - A name read at run time is looked up in the names its module has bound:
      [math] in [entities/rebar.py], and the names of the annotations in
      [utils/validation.py], which an interpreter that evaluates annotations
      with the [def] statement reads when the module is imported. *)

From Stdlib Require Import QArith Qround Qminmax Qabs ZArith List String Lia Lqa.
From Stdlib Require Import Sorted.
From Stdlib Require Import Reals Lra.
From stdpp Require Import gmap strings.
Import ListNotations.

(** ** Outcomes of a Python computation *)

Inductive exn : Type :=
| NameError (name : string)
| TypeError
| ZeroDivisionError
| IndexError.

Inductive outcome (A : Type) : Type :=
| Ret (a : A)
| Raise (e : exn)
| OutOfFuel.

Arguments Ret {A} a.
Arguments Raise {A} e.
Arguments OutOfFuel {A}.

Definition bind {A B : Type} (m : outcome A) (k : A -> outcome B) : outcome B :=
  match m with
  | Ret a => k a
  | Raise e => Raise e
  | OutOfFuel => OutOfFuel
  end.

Notation "'let*' x := m 'in' k" := (bind m (fun x => k))
  (at level 10, x name, m at level 100, k at level 200,
   format "'[v' 'let*'  x  :=  m  'in' '/' k ']'").

(** [for x in xs: ...] over a body that can fail, threading the loop's state. *)
Fixpoint for_each {A S : Type} (xs : list A) (body : S -> A -> outcome S) (s : S)
  : outcome S :=
  match xs with
  | [] => Ret s
  | x :: xs' => bind (body s x) (for_each xs' body)
  end.

(** [while cond: body], the state being the variables the loop assigns. *)
Fixpoint while_loop {S : Type} (fuel : nat) (cond : S -> bool) (body : S -> S) (s : S)
  : outcome S :=
  if cond s then
    match fuel with
    | O => OutOfFuel
    | Datatypes.S fuel' => while_loop fuel' cond body (body s)
    end
  else Ret s.

(** ** Numbers *)

(** [a < b] on floats. *)
Definition Qltb (a b : Q) : bool := negb (Qle_bool b a).

(** Python's [max(a, b)]: the first argument unless the second is greater. *)
Definition py_max (a b : Q) : Q := if Qltb a b then b else a.

(** [range(n)] and [range(a, b)] over Python integers. *)
Definition range (n : Z) : list Z := map Z.of_nat (seq 0 (Z.to_nat n)).
Definition range2 (a b : Z) : list Z :=
  map (fun k => (a + Z.of_nat k)%Z) (seq 0 (Z.to_nat (b - a))).

(** [a / b] with an integer divisor: Python raises on a zero divisor. *)
Definition py_div (a : Q) (b : Z) : outcome Q :=
  if Z.eqb b 0 then Raise ZeroDivisionError else Ret (a / inject_Z b)%Q.

(** ** excel_reader.py: the input records *)

Module ExcelReader.

Record ColumnSettings : Type := {
  beam_depth : Q;
  beam_extension : Q;
  concrete_cover : Q;
  scale : Q;
  spacing_between_columns : Q;
  foundation_depth : Q;
  foundation_cover : Q;
  section_scale : Q;
  is_foundation_string : bool
}.

Record FloorData : Type := {
  total_height : Q;
  column_length : Q;
  column_width : Q;
  floor_name : string;
  rebar_amount : Z;
  rebar_amount_x : Z;
  rebar_amount_y : Z;
  rebar_diameter : Q;
  edge_stirrup_spacing : Q;
  mid_stirrup_spacing : Q;
  stirrup_diameter : Q;
  section_number : Z
}.

End ExcelReader.

(** ** entities/column.py: points *)

(** [Point3D], over the carrier of its coordinates. *)
Record Point3D (F : Type) : Type := mkPoint3D { px : F; py : F; pz : F }.
Arguments mkPoint3D {F} _ _ _.
Arguments px {F} _.
Arguments py {F} _.
Arguments pz {F} _.

(** The part of Python's [math] module the float code uses: [math.pi] is a
    float and [math.cos], [math.sin] map floats to floats. *)
Record MathModule : Type := {
  math_pi : Q;
  math_cos : Q -> Q;
  math_sin : Q -> Q
}.

(** [enumerate(xs)] *)
Definition enumerate {A : Type} (xs : list A) : list (nat * A) :=
  combine (seq 0 (length xs)) xs.

(** ** column_calculator.py *)

Module ColumnCalculator.
Import ExcelReader.
Local Open Scope Q_scope.

Inductive zone : Type := edge | mid.

Record ColumnGeometry : Type := {
  base_point : Q * Q * Q;
  geometry_total_height : Q;
  floor_heights : list Q;
  floor_levels : list Q;
  column_boundaries : list (Q * Q)
}.

Record RebarLayout : Type := {
  main_bars : list (Q * Q * Q * Q);
  stirrup_positions : list (Q * zone * Q);
  lap_lengths : list (Q * Q * Q)
}.

(** [sum(xs)]: Python starts from the integer 0. *)
Definition py_sum (xs : list Q) : Q := fold_left Qplus xs 0.

Definition calculate_column_geometry (floors : list FloorData) (settings : ColumnSettings)
    (base_point : Q * Q * Q) : ColumnGeometry :=
  let '(base_x, base_y, base_z) := base_point in
  let floor_heights := map total_height floors in
  let total_height := py_sum floor_heights in
  let '(floor_levels, current_height) :=
    fold_left (fun '(floor_levels, current_height) height =>
                 let current_height := current_height + height in
                 (floor_levels ++ [current_height], current_height))
              floor_heights ([base_y], base_y) in
  let column_boundaries :=
    fold_left (fun column_boundaries floor =>
                 let left_x := base_x - column_length floor / 2 in
                 let right_x := base_x + column_length floor / 2 in
                 column_boundaries ++ [(left_x, right_x)])
              floors [] in
  {| base_point := base_point;
     geometry_total_height := total_height;
     floor_heights := floor_heights;
     floor_levels := floor_levels;
     column_boundaries := column_boundaries |}.

Definition _calculate_main_bars (floor : FloorData) (boundaries : Q * Q)
    (base_y height cover : Q) : list (Q * Q * Q * Q) :=
  let bars := [] in
  let '(left_x, right_x) := boundaries in
  let column_length := right_x - left_x in
  let edge_x_left := left_x + cover in
  let edge_x_right := right_x - cover in
  let bars := bars ++ [(edge_x_left, base_y, base_y + height, rebar_diameter floor)] in
  let bars := bars ++ [(edge_x_right, base_y, base_y + height, rebar_diameter floor)] in
  if (rebar_amount_x floor >? 2)%Z then
    let spacing := (column_length - 2 * cover) / inject_Z (rebar_amount_x floor - 1) in
    fold_left (fun bars i =>
                 let x_pos := left_x + cover + inject_Z i * spacing in
                 bars ++ [(x_pos, base_y, base_y + height, rebar_diameter floor)])
              (range2 1 (rebar_amount_x floor - 1)) bars
  else bars.

(** The three loops of [_calculate_stirrups] share their shape: the state is
    the list being extended and [current_y]. *)
Definition stirrup_cond {A : Type} (limit : Q) (s : list A * Q) : bool :=
  Qltb (snd s) limit.

Definition stirrup_body {A : Type} (mk : Q -> A) (spacing : Q) (s : list A * Q)
  : list A * Q :=
  (fst s ++ [mk (snd s)], snd s + spacing).

Definition _calculate_stirrups (fuel : nat) (floor : FloorData)
    (base_y height beam_depth : Q) : outcome (list (Q * zone * Q)) :=
  let stirrups := [] in
  let net_height := height - beam_depth in
  let third_height := net_height / 3 in
  (* bottom third - edge spacing *)
  let current_y := base_y + edge_stirrup_spacing floor in
  bind (while_loop fuel (stirrup_cond (base_y + third_height))
          (stirrup_body (fun y => (y, edge, stirrup_diameter floor))
                        (edge_stirrup_spacing floor))
          (stirrups, current_y)) (fun '(stirrups, _) =>
  (* middle third - mid spacing *)
  let current_y := base_y + third_height + mid_stirrup_spacing floor in
  bind (while_loop fuel (stirrup_cond (base_y + 2 * third_height))
          (stirrup_body (fun y => (y, mid, stirrup_diameter floor))
                        (mid_stirrup_spacing floor))
          (stirrups, current_y)) (fun '(stirrups, _) =>
  (* top third - edge spacing (including beam zone) *)
  let current_y := base_y + 2 * third_height + edge_stirrup_spacing floor in
  bind (while_loop fuel (stirrup_cond (base_y + height))
          (stirrup_body (fun y => (y, edge, stirrup_diameter floor))
                        (edge_stirrup_spacing floor))
          (stirrups, current_y)) (fun '(stirrups, _) =>
  Ret stirrups))).

Definition _calculate_lap_length (bar_diameter : Q) : Q :=
  py_max (40 * bar_diameter) 300.

(** The state of the loop of [calculate_rebar_layout]: the three lists and
    [current_y]. *)
Record layout_state : Type := {
  st_main_bars : list (Q * Q * Q * Q);
  st_stirrup_positions : list (Q * zone * Q);
  st_lap_lengths : list (Q * Q * Q);
  st_current_y : Q
}.

Definition rebar_layout_step (fuel : nat) (floors : list FloorData)
    (geometry : ColumnGeometry) (settings : ColumnSettings)
    (st : layout_state) (item : nat * FloorData) : outcome layout_state :=
  let '(i, floor) := item in
  let current_y := st_current_y st in
  let floor_height := total_height floor in
  let concrete_cover := concrete_cover settings in
  let* boundaries := match nth_error (column_boundaries geometry) i with
               | Some b => Ret b
               | None => Raise IndexError
               end in
  let bars := _calculate_main_bars floor boundaries current_y floor_height
                concrete_cover in
  let main_bars := st_main_bars st ++ bars in
  let* stirrups := _calculate_stirrups fuel floor current_y floor_height (beam_depth settings) in
  let stirrup_positions := st_stirrup_positions st ++ stirrups in
  let lap_lengths :=
    if (Z.of_nat i <? Z.of_nat (length floors) - 1)%Z then
      let lap_length := _calculate_lap_length (rebar_diameter floor) in
      let lap_y := current_y + floor_height - beam_depth settings / 2 in
      st_lap_lengths st ++ [(lap_y, lap_length, rebar_diameter floor)]
    else st_lap_lengths st in
  Ret {| st_main_bars := main_bars;
         st_stirrup_positions := stirrup_positions;
         st_lap_lengths := lap_lengths;
         st_current_y := current_y + floor_height |}.

Definition calculate_rebar_layout (fuel : nat) (floors : list FloorData)
    (geometry : ColumnGeometry) (settings : ColumnSettings) : outcome RebarLayout :=
  let current_y := snd (fst (base_point geometry)) in
  let* st := for_each (enumerate floors) (rebar_layout_step fuel floors geometry settings)
         {| st_main_bars := []; st_stirrup_positions := []; st_lap_lengths := [];
            st_current_y := current_y |} in
  Ret {| main_bars := st_main_bars st;
         stirrup_positions := st_stirrup_positions st;
         lap_lengths := st_lap_lengths st |}.

Definition _calculate_section_rebar_positions (math : MathModule) (floor : FloorData)
  : outcome (list (Q * Q)) :=
  let positions := [] in
  let length := column_length floor in
  let width := if Qltb 0 (column_width floor) then column_width floor else length in
  let cover := 25 in
  if Qltb 0 (column_width floor) then
    let* x_spacing := py_div (length - 2 * cover) (rebar_amount_x floor - 1) in
    let* y_spacing := py_div (width - 2 * cover) (rebar_amount_y floor - 1) in
    Ret (fold_left (fun positions i =>
           fold_left (fun positions j =>
                        let x := cover + inject_Z i * x_spacing in
                        let y := cover + inject_Z j * y_spacing in
                        positions ++ [(x, y)])
                     (range (rebar_amount_y floor)) positions)
         (range (rebar_amount_x floor)) positions)
  else
    let radius := (length / 2) - cover in
    let* angle_step := py_div (2 * math_pi math) (rebar_amount_x floor) in
    Ret (fold_left (fun positions i =>
                      let angle := inject_Z i * angle_step in
                      let x := length / 2 + radius * math_cos math angle in
                      let y := length / 2 + radius * math_sin math angle in
                      positions ++ [(x, y)])
                   (range (rebar_amount_x floor)) positions).

(** The dictionary returned by [calculate_section_dimensions]. *)
Record section_dimensions : Type := {
  sd_length : Q;
  sd_width : Q;
  sd_scale : Q;
  sd_rebar_positions : list (Q * Q);
  sd_is_circular : bool
}.

Definition calculate_section_dimensions (math : MathModule) (floor : FloorData)
    (scale : Q) : outcome section_dimensions :=
  let length := column_length floor in
  let width := if Qltb 0 (column_width floor) then column_width floor else length in
  let* rebar_positions := _calculate_section_rebar_positions math floor in
  Ret {| sd_length := length;
         sd_width := width;
         sd_scale := scale;
         sd_rebar_positions := rebar_positions;
         sd_is_circular := Qeq_bool (column_width floor) 0 |}.

End ColumnCalculator.

(** ** entities/rebar.py *)

Module RebarEntities.

(** [Rebar] and [RebarLayout], over the carrier [F] of the floats. *)
Record Rebar (F : Type) : Type := {
  diameter : F;
  start_point : Point3D F;
  end_point : Point3D F;
  grade : string
}.
Arguments diameter {F} _.
Arguments start_point {F} _.
Arguments end_point {F} _.
Arguments grade {F} _.

Record RebarLayout (F : Type) : Type := {
  main_bars : list (Rebar F);
  links : list (Rebar F);
  main_bars_x : Z;
  main_bars_y : Z
}.
Arguments main_bars {F} _.
Arguments links {F} _.
Arguments main_bars_x {F} _.
Arguments main_bars_y {F} _.

Definition main_bars_count {F : Type} (self : RebarLayout F) : Z :=
  Z.of_nat (length (main_bars self)).

Record StirrupLayout : Type := {
  sl_diameter : Q;
  sl_edge_spacing : Q;
  sl_mid_spacing : Q;
  sl_positions : list Q
}.

(** The names bound at module level in rebar.py: its three imports and its
    three classes. *)
Definition module_globals : gset string :=
  {[ "dataclass"; "List"; "Tuple"; "Point3D"; "Rebar"; "RebarLayout"; "StirrupLayout" ]}.

(** The same module had it started with [import math]. *)
Definition module_globals_with_math : gset string := {[ "math" ]} ∪ module_globals.

(** Reading a global name. *)
Definition lookup_global {A : Type} (globals : gset string) (name : string) (v : A)
  : outcome A :=
  if decide (name ∈ globals) then Ret v else Raise (NameError name).

Section Weight.
Local Open Scope R_scope.

(** [Rebar.length] *)
Definition length_of (self : Rebar R) : R :=
  let dx := px (end_point self) - px (start_point self) in
  let dy := py (end_point self) - py (start_point self) in
  let dz := pz (end_point self) - pz (start_point self) in
  sqrt (dx ^ 2 + dy ^ 2 + dz ^ 2).

Definition default_density : R := 7850.

Definition get_total_weight (globals : gset string) (self : RebarLayout R)
    (density : R) : outcome R :=
  let total_volume := 0 in
  let* total_volume :=
    for_each (main_bars self ++ links self)
      (fun total_volume bar =>
         let* pi := lookup_global globals "math" PI in
         let area := pi * (diameter bar / 2) ^ 2 in
         let volume := area * length_of bar / 1000 in
         Ret (total_volume + volume))
      total_volume in
  Ret (total_volume * density).

(** [a < b] on the reals. *)
Definition Rltb (a b : R) : bool := if Rlt_dec a b then true else false.

(** [Rebar.is_vertical] and [Rebar.is_horizontal] *)
Definition is_vertical (self : Rebar R) : bool :=
  Rltb (Rabs (px (start_point self) - px (end_point self))) 0.001
  && Rltb (Rabs (pz (start_point self) - pz (end_point self))) 0.001.

Definition is_horizontal (self : Rebar R) : bool :=
  Rltb (Rabs (py (start_point self) - py (end_point self))) 0.001.

(** [sum(xs)] over the reals. *)
Definition sum_R (xs : list R) : R := fold_left Rplus xs 0.

(** [RebarLayout.get_total_length] *)
Definition get_total_length (self : RebarLayout R) : R :=
  let total := sum_R (map length_of (main_bars self)) in
  let total := total + sum_R (map length_of (links self)) in
  total.

End Weight.

(** [RebarLayout.add_main_bar] and [RebarLayout.add_link] *)
Definition add_main_bar {F : Type} (self : RebarLayout F) (rebar : Rebar F)
  : RebarLayout F :=
  {| main_bars := main_bars self ++ [rebar]; links := links self;
     main_bars_x := main_bars_x self; main_bars_y := main_bars_y self |}.

Definition add_link {F : Type} (self : RebarLayout F) (rebar : Rebar F)
  : RebarLayout F :=
  {| main_bars := main_bars self; links := links self ++ [rebar];
     main_bars_x := main_bars_x self; main_bars_y := main_bars_y self |}.

Section StirrupLayoutMethods.
Local Open Scope Q_scope.

Definition set_positions (self : StirrupLayout) (positions : list Q) : StirrupLayout :=
  {| sl_diameter := sl_diameter self; sl_edge_spacing := sl_edge_spacing self;
     sl_mid_spacing := sl_mid_spacing self; sl_positions := positions |}.

(** The loops of [StirrupLayout.calculate_positions]: the state is the list
    [self.positions] and [current_y]. *)
Definition positions_cond (limit : Q) (s : list Q * Q) : bool := Qltb (snd s) limit.

Definition positions_body (spacing : Q) (s : list Q * Q) : list Q * Q :=
  (fst s ++ [snd s], snd s + spacing).

Definition calculate_positions (fuel : nat) (self : StirrupLayout)
    (start_y height beam_depth : Q) : outcome StirrupLayout :=
  let positions := [] in
  let net_height := height - beam_depth in
  let third_height := net_height / 3 in
  (* bottom third - edge spacing *)
  let current_y := start_y + sl_edge_spacing self in
  let* r := while_loop fuel (positions_cond (start_y + third_height))
              (positions_body (sl_edge_spacing self)) (positions, current_y) in
  let positions := fst r in
  (* middle third - mid spacing *)
  let current_y := start_y + third_height + sl_mid_spacing self in
  let* r := while_loop fuel (positions_cond (start_y + 2 * third_height))
              (positions_body (sl_mid_spacing self)) (positions, current_y) in
  let positions := fst r in
  (* top third - edge spacing *)
  let current_y := start_y + 2 * third_height + sl_edge_spacing self in
  let* r := while_loop fuel (positions_cond (start_y + height))
              (positions_body (sl_edge_spacing self)) (positions, current_y) in
  let positions := fst r in
  Ret (set_positions self positions).

Definition get_spacing_at_height (self : StirrupLayout) (y start_y height : Q) : Q :=
  let net_height := height - (y - start_y) in
  let third_height := height / 3 in
  if Qle_bool net_height third_height then sl_edge_spacing self
  else if Qle_bool net_height (2 * third_height) then sl_mid_spacing self
  else sl_edge_spacing self.

End StirrupLayoutMethods.

End RebarEntities.

(** ** entities/column.py *)

Module ColumnEntities.
Local Open Scope Q_scope.

Record ColumnFloor : Type := {
  name : string;
  height : Q;
  length : Q;
  width : Q;
  reinforcement : option (RebarEntities.RebarLayout Q);
  stirrups : option RebarEntities.StirrupLayout
}.

Definition is_circular (self : ColumnFloor) : bool := Qeq_bool (width self) 0.

Record ColumnSection : Type := {
  floor : ColumnFloor;
  scale : Q;
  rebar_positions : list (Point3D Q)
}.

Definition set_rebar_positions (self : ColumnSection) (ps : list (Point3D Q))
  : ColumnSection :=
  {| floor := floor self; scale := scale self; rebar_positions := ps |}.

Definition _calculate_circular_positions (math : MathModule) (self : ColumnSection)
    (cover : Q) : outcome ColumnSection :=
  let radius := (length (floor self) / 2) - cover in
  let center_x := length (floor self) / 2 in
  let center_y := if Qltb 0 (width (floor self)) then width (floor self) / 2
                  else center_x in
  match reinforcement (floor self) with
  | Some reinforcement =>
      let* angle_step := py_div (2 * math_pi math) (RebarEntities.main_bars_count reinforcement) in
      Ret (fold_left (fun self i =>
                        let angle := inject_Z i * angle_step in
                        let x := center_x + radius * math_cos math angle in
                        let y := center_y + radius * math_sin math angle in
                        set_rebar_positions self
                          (rebar_positions self ++ [mkPoint3D x y 0]))
                     (range (RebarEntities.main_bars_count reinforcement)) self)
  | None => Ret self
  end.

Definition _calculate_rectangular_positions (self : ColumnSection) (cover : Q)
  : outcome ColumnSection :=
  match reinforcement (floor self) with
  | None => Ret self
  | Some reinforcement =>
      let x_count := RebarEntities.main_bars_x reinforcement in
      let y_count := RebarEntities.main_bars_y reinforcement in
      if ((x_count >? 0) && (y_count >? 0))%Z then
        let* x_spacing := py_div (length (floor self) - 2 * cover) (x_count - 1) in
        let* y_spacing := py_div (width (floor self) - 2 * cover) (y_count - 1) in
        Ret (fold_left (fun self i =>
               fold_left (fun self j =>
                            if (((i =? 0) || (i =? x_count - 1))
                                && ((j =? 0) || (j =? y_count - 1)))%Z
                            then self
                            else
                              let x := cover + inject_Z i * x_spacing in
                              let y := cover + inject_Z j * y_spacing in
                              set_rebar_positions self
                                (rebar_positions self ++ [mkPoint3D x y 0]))
                         (range y_count) self)
             (range x_count) self)
      else Ret self
  end.

Definition calculate_rebar_positions (math : MathModule) (self : ColumnSection)
    (cover : Q) : outcome ColumnSection :=
  let self := set_rebar_positions self [] in
  if is_circular (floor self) then _calculate_circular_positions math self cover
  else _calculate_rectangular_positions self cover.

(** [Point3D.offset] *)
Definition offset (self : Point3D Q) (dx dy dz : Q) : Point3D Q :=
  mkPoint3D (px self + dx) (py self + dy) (pz self + dz).

Record Rectangle : Type := {
  lower_left : Point3D Q;
  upper_right : Point3D Q
}.

Definition rectangle_width (self : Rectangle) : Q :=
  px (upper_right self) - px (lower_left self).

Definition rectangle_height (self : Rectangle) : Q :=
  py (upper_right self) - py (lower_left self).

Definition center (self : Rectangle) : Point3D Q :=
  mkPoint3D ((px (lower_left self) + px (upper_right self)) / 2)
            ((py (lower_left self) + py (upper_right self)) / 2)
            (pz (lower_left self)).

Definition get_corners (self : Rectangle) : list (Point3D Q) :=
  [ lower_left self;
    mkPoint3D (px (upper_right self)) (py (lower_left self)) (pz (lower_left self));
    upper_right self;
    mkPoint3D (px (lower_left self)) (py (upper_right self)) (pz (lower_left self)) ].

Record Column : Type := {
  column_name : string;
  floors : list ColumnFloor;
  base_point : Point3D Q;
  settings : option ExcelReader.ColumnSettings
}.

(** [Column.__init__] *)
Definition new_column (name : string) : Column :=
  {| column_name := name; floors := []; base_point := mkPoint3D 0 0 0;
     settings := None |}.

Definition add_floor (self : Column) (floor : ColumnFloor) : Column :=
  {| column_name := column_name self; floors := floors self ++ [floor];
     base_point := base_point self; settings := settings self |}.

Definition get_total_height (self : Column) : Q :=
  fold_left Qplus (map height (floors self)) 0.

Definition get_floor_levels (self : Column) : list Q :=
  let levels := [py (base_point self)] in
  let current_y := py (base_point self) in
  fst (fold_left (fun '(levels, current_y) floor =>
                    let current_y := current_y + height floor in
                    (levels ++ [current_y], current_y))
                 (floors self) (levels, current_y)).

Definition get_floor_boundaries (self : Column) : list (Q * Q) :=
  fold_left (fun boundaries floor =>
               let left := px (base_point self) - length floor / 2 in
               let right := px (base_point self) + length floor / 2 in
               boundaries ++ [(left, right)])
            (floors self) [].

End ColumnEntities.

(** ** entities/stirrup.py *)

Module StirrupEntities.
Local Open Scope Q_scope.

(** The classes of stirrups: the base class and its two subclasses with the
    attributes they add. *)
Inductive stirrup_class : Type :=
| PlainStirrup
| Rectangular (width height center_x : Q)
| Circular (column_diameter center_x : Q) (segments : Z).

Record Stirrup : Type := {
  diameter : Q;
  positions : list (Point3D Q);
  elevation : Q;
  class_of : stirrup_class
}.

Definition corners (self : Stirrup) : list (Q * Q) :=
  map (fun p => (px p, py p)) (positions self).

(** [RectangularStirrup.__init__] *)
Definition RectangularStirrup (diameter elevation width height center_x : Q) : Stirrup :=
  let left := center_x - width / 2 in
  let right := center_x + width / 2 in
  let bottom := elevation - height / 2 in
  let top := elevation + height / 2 in
  let positions := [ mkPoint3D left bottom 0; mkPoint3D right bottom 0;
                     mkPoint3D right top 0; mkPoint3D left top 0 ] in
  {| diameter := diameter; positions := positions; elevation := elevation;
     class_of := Rectangular width height center_x |}.

Record StirrupPattern : Type := {
  stirrups : list Stirrup;
  pattern_diameter : Q;
  edge_spacing : Q;
  mid_spacing : Q
}.

(** [StirrupPattern.__init__] *)
Definition new_pattern : StirrupPattern :=
  {| stirrups := []; pattern_diameter := 8; edge_spacing := 100; mid_spacing := 150 |}.

Definition set_stirrups (self : StirrupPattern) (l : list Stirrup) : StirrupPattern :=
  {| stirrups := l; pattern_diameter := pattern_diameter self;
     edge_spacing := edge_spacing self; mid_spacing := mid_spacing self |}.

Definition add_stirrup (self : StirrupPattern) (stirrup : Stirrup) : StirrupPattern :=
  set_stirrups self (stirrups self ++ [stirrup]).

Definition get_stirrups_in_range (self : StirrupPattern) (start_y end_y : Q)
  : list Stirrup :=
  List.filter (fun s => Qle_bool start_y (elevation s) && Qle_bool (elevation s) end_y)
         (stirrups self).

(** The loops of [generate_rectangular_pattern]: the state is the pattern
    (whose list the body extends) and [current_y]. *)
Definition pattern_cond (limit : Q) (s : StirrupPattern * Q) : bool :=
  Qltb (snd s) limit.

Definition pattern_body (width column_width center_x spacing : Q)
    (s : StirrupPattern * Q) : StirrupPattern * Q :=
  let self := fst s in
  let current_y := snd s in
  let stirrup := RectangularStirrup (pattern_diameter self) current_y width
                   column_width center_x in
  (set_stirrups self (stirrups self ++ [stirrup]), current_y + spacing).

Definition generate_rectangular_pattern (fuel : nat) (self : StirrupPattern)
    (start_y height beam_depth width column_width center_x : Q)
  : outcome StirrupPattern :=
  let self := set_stirrups self [] in
  let net_height := height - beam_depth in
  let third_height := net_height / 3 in
  (* bottom third *)
  let current_y := start_y + edge_spacing self in
  let* r := while_loop fuel (pattern_cond (start_y + third_height))
                 (fun s => pattern_body width column_width center_x
                             (edge_spacing (fst s)) s)
                 (self, current_y) in
  let '(self, _) := r in
  (* middle third *)
  let current_y := start_y + third_height + mid_spacing self in
  let* r := while_loop fuel (pattern_cond (start_y + 2 * third_height))
                 (fun s => pattern_body width column_width center_x
                             (mid_spacing (fst s)) s)
                 (self, current_y) in
  let '(self, _) := r in
  (* top third *)
  let current_y := start_y + 2 * third_height + edge_spacing self in
  let* r := while_loop fuel (pattern_cond (start_y + height))
                 (fun s => pattern_body width column_width center_x
                             (edge_spacing (fst s)) s)
                 (self, current_y) in
  let '(self, _) := r in
  Ret self.

End StirrupEntities.

(** ** utils/validation.py: DataValidator *)

Module Validation.
Local Open Scope Q_scope.

(** *** The module and the class statement *)

(** The names the imports of the module bind (lines 5 to 10); [List] is not
    among them.  The class statements add the names of the classes, which no
    annotation reads. *)
Definition module_globals : gset string :=
  {[ "subprocess"; "platform"; "hashlib"; "logging"; "Set"; "Optional"; "Dict";
     "Any"; "Path" ]}.

(** The builtins the annotations of the module name. *)
Definition builtins : gset string := {[ "str"; "int"; "float"; "bool" ]}.

(** Reading a name at module level: the globals, then the builtins. *)
Definition load_name (name : string) : outcome unit :=
  if decide (name ∈ module_globals ∪ builtins) then Ret tt
  else Raise (NameError name).

(** When the interpreter evaluates the annotations of a [def]: together with
    the [def] statement (CPython up to 3.13), or not before they are asked for
    (CPython from 3.14 on). *)
Inductive annotation_evaluation : Type :=
| AtDefinition
| Deferred.

(** The names the annotations of the methods read, class by class and method
    by method in the order of the file; within a [def], the parameters come
    first and the return annotation last.  [Dict[str, Any]] reads [Dict],
    [str] and [Any]. *)
Definition LicenseManager_annotations : list (string * list string) :=
  [ ("is_licensed", ["bool"]);
    ("_get_machine_id", ["str"]);
    ("_get_bios_serial", ["str"]);
    ("_get_processor_id", ["str"]);
    ("_get_volume_serial", ["str"]);
    ("_hash_machine_id", ["str"; "str"]) ]%string.

Definition DataValidator_annotations : list (string * list string) :=
  [ ("validate_column_data", ["Dict"; "str"; "Any"; "Dict"; "str"; "Any"]);
    ("_validate_settings", ["Dict"; "str"; "Any"; "List"; "str"]);
    ("_validate_floor", ["Dict"; "str"; "Any"; "int"; "List"; "str"]);
    ("_check_floor_warnings", ["Dict"; "str"; "Any"; "int"; "List"; "str"]);
    ("_is_in_range", ["float"; "str"; "bool"]);
    ("_calculate_expected_rebars", ["int"; "int"; "int"]) ]%string.

Definition UnitConverter_annotations : list (string * list string) :=
  [ ("mm_to_m", ["float"; "float"]);
    ("m_to_mm", ["float"; "float"]);
    ("mm_to_cm", ["float"; "float"]);
    ("cm_to_mm", ["float"; "float"]);
    ("kg_to_ton", ["float"; "float"]);
    ("ton_to_kg", ["float"; "float"]) ]%string.

(** A [class] statement: its [def] statements in order, each of which
    evaluates its annotations unless the interpreter defers them. *)
Definition class_statement (evaluation : annotation_evaluation)
    (methods : list (string * list string)) : outcome unit :=
  match evaluation with
  | Deferred => Ret tt
  | AtDefinition =>
      for_each (concat (map snd methods)) (fun _ name => load_name name) tt
  end.

(** [import utils.validation]: the three class statements of the module. *)
Definition import_module (evaluation : annotation_evaluation) : outcome unit :=
  let* _ := class_statement evaluation LicenseManager_annotations in
  let* _ := class_statement evaluation DataValidator_annotations in
  class_statement evaluation UnitConverter_annotations.

(** An instance of [DataValidator]: its attribute [limits]. *)
Record DataValidator : Type := {
  limits : gmap string (Q * Q)
}.

(** [DataValidator.__init__]: [self.limits], (min, max) per kind of value. *)
Definition __init__ : DataValidator :=
  {| limits :=
       list_to_map
         [ ("column_length", (100, 5000));
           ("column_width", (0, 5000));
           ("floor_height", (2000, 50000));
           ("rebar_diameter", (6, 50));
           ("stirrup_diameter", (6, 16));
           ("concrete_cover", (20, 100));
           ("spacing", (50, 500)) ] |}.

(** [DataValidator()] in a program: the module is imported first, which
    executes its class statements, and then the instance is made. *)
Definition new_DataValidator (evaluation : annotation_evaluation)
  : outcome DataValidator :=
  let* _ := import_module evaluation in
  Ret __init__.

(** A program that makes a validator and calls one of its methods. *)
Definition call {A : Type} (evaluation : annotation_evaluation)
    (method : DataValidator -> outcome A) : outcome A :=
  let* self := new_DataValidator evaluation in
  method self.

(** *** The methods *)

(** The values a field of the input dictionaries holds: [None], a number or
    a string. *)
Inductive value : Type :=
| VNone
| VNum (q : Q)
| VStr (s : string).

(** A message of the error or warning list, with the values its f-string
    interpolates.  Floors are numbered from 1 ([floor_index + 1]). *)
Inductive message : Type :=
| MissingSetting (field : string)
| BeamDepthOutOfRange (v : value)
| ConcreteCoverOutOfRange (v : value)
| FloorMissing (floor_no : nat) (field : string)
| HeightOutOfRange (floor_no : nat) (v : value)
| LengthOutOfRange (floor_no : nat) (v : value)
| WidthOutOfRange (floor_no : nat) (v : value)
| RebarDiameterOutOfRange (floor_no : nat) (v : value)
| StirrupDiameterOutOfRange (floor_no : nat) (v : value)
| RebarAmountMismatch (floor_no : nat) (expected : Q) (got : value)
| CoverTooLarge (floor_no : nat)
| EdgeSpacingSmall (floor_no : nat)
| MidSpacingLarge (floor_no : nat).

(** The number a comparison with a number needs: [None] and strings raise. *)
Definition as_number (v : value) : outcome Q :=
  match v with
  | VNum q => Ret q
  | _ => Raise TypeError
  end.

(** [v > c], [v < c] and [v == c] for a number [c]. *)
Definition value_gt (v : value) (c : Q) : outcome bool :=
  let* q := as_number v in Ret (Qltb c q).
Definition value_lt (v : value) (c : Q) : outcome bool :=
  let* q := as_number v in Ret (Qltb q c).
Definition value_eq (v : value) (c : Q) : bool :=
  match v with
  | VNum q => Qeq_bool q c
  | _ => false
  end.

(** [v * 2]: a string is repeated. *)
Definition value_twice (v : value) : outcome value :=
  match v with
  | VNum q => Ret (VNum (q * 2))
  | VStr s => Ret (VStr (s ++ s))
  | VNone => Raise TypeError
  end.

(** [a >= b] *)
Definition value_ge (a b : value) : outcome bool :=
  match a, b with
  | VNum x, VNum y => Ret (Qle_bool y x)
  | VStr s, VStr t => Ret (String.leb t s)
  | _, _ => Raise TypeError
  end.

Definition _is_in_range (self : DataValidator) (v : value) (value_type : string)
  : outcome bool :=
  match limits self !! value_type with
  | Some (lo, hi) =>
      let* q := as_number v in
      Ret (Qle_bool lo q && Qle_bool q hi)
  | None => Ret true
  end.

Definition _calculate_expected_rebars (self : DataValidator)
    (amount_x amount_y : value) : outcome Q :=
  let* x_pos := value_gt amount_x 0 in
  let* y_pos := (if x_pos then value_gt amount_y 0 else Ret false) in
  if x_pos && y_pos then
    let* x := as_number amount_x in
    let* y := as_number amount_y in
    Ret (2 * x + 2 * py_max 0 (y - 2))
  else
    let* x_pos := value_gt amount_x 0 in
    if x_pos && value_eq amount_y 0 then as_number amount_x
    else Ret 0.

(** [field not in d or d[field] is None] *)
Definition missing (d : gmap string value) (field : string) : bool :=
  match d !! field with
  | None | Some VNone => true
  | Some _ => false
  end.

(** [if field in d: if not self._is_in_range(d[field], kind): errors.append(msg)] *)
Definition check_range (self : DataValidator) (d : gmap string value)
    (field kind : string) (msg : value -> message) (errors : list message)
  : outcome (list message) :=
  match d !! field with
  | Some v =>
      let* ok := _is_in_range self v kind in
      Ret (if ok then errors else errors ++ [msg v])
  | None => Ret errors
  end.

Definition _validate_settings (self : DataValidator) (settings : gmap string value)
  : outcome (list message) :=
  let errors := [] in
  let required_fields :=
    [ "beam_depth"; "beam_extension"; "concrete_cover"; "scale";
      "spacing_between_columns" ]%string in
  let errors :=
    fold_left (fun errors field =>
                 if missing settings field then errors ++ [MissingSetting field]
                 else errors)
              required_fields errors in
  let* errors := check_range self settings "beam_depth" "floor_height"
             BeamDepthOutOfRange errors in
  let* errors := check_range self settings "concrete_cover" "concrete_cover"
             ConcreteCoverOutOfRange errors in
  Ret errors.

Definition _validate_floor (self : DataValidator) (floor : gmap string value)
    (floor_index : nat) : outcome (list message) :=
  let errors := [] in
  let floor_no := Datatypes.S floor_index in
  let required_fields :=
    [ "total_height"; "column_length"; "floor_name"; "rebar_amount";
      "rebar_diameter" ]%string in
  let errors :=
    fold_left (fun errors field =>
                 if missing floor field then errors ++ [FloorMissing floor_no field]
                 else errors)
              required_fields errors in
  let* errors := check_range self floor "total_height" "floor_height"
             (HeightOutOfRange floor_no) errors in
  let* errors := check_range self floor "column_length" "column_length"
             (LengthOutOfRange floor_no) errors in
  let* errors := match floor !! "column_width" with
           | Some w =>
               let* positive := value_gt w 0 in
               if positive then
                 check_range self floor "column_width" "column_width"
                   (WidthOutOfRange floor_no) errors
               else Ret errors
           | None => Ret errors
           end in
  let* errors := check_range self floor "rebar_diameter" "rebar_diameter"
             (RebarDiameterOutOfRange floor_no) errors in
  let* errors := check_range self floor "stirrup_diameter" "stirrup_diameter"
             (StirrupDiameterOutOfRange floor_no) errors in
  match floor !! "rebar_amount", floor !! "rebar_amount_x", floor !! "rebar_amount_y" with
  | Some amount, Some amount_x, Some amount_y =>
      let* expected := _calculate_expected_rebars self amount_x amount_y in
      Ret (if negb (value_eq amount expected)
           then errors ++ [RebarAmountMismatch floor_no expected amount]
           else errors)
  | _, _, _ => Ret errors
  end.

Definition _check_floor_warnings (self : DataValidator) (floor : gmap string value)
    (floor_index : nat) : outcome (list message) :=
  let warnings := [] in
  let floor_no := Datatypes.S floor_index in
  let* warnings := match floor !! "column_length", floor !! "column_width" with
             | Some column_length, Some _ =>
                 let cover := default (VNum 25) (floor !! "concrete_cover") in
                 let* twice := value_twice cover in
                 let* large := value_ge twice column_length in
                 Ret (if large then warnings ++ [CoverTooLarge floor_no] else warnings)
             | _, _ => Ret warnings
             end in
  match floor !! "edge_stirrup_spacing", floor !! "mid_stirrup_spacing" with
  | Some edge_spacing, Some mid_spacing =>
      let* small := value_lt edge_spacing 75 in
      let warnings := if small then warnings ++ [EdgeSpacingSmall floor_no]
                      else warnings in
      let* large := value_gt mid_spacing 300 in
      Ret (if large then warnings ++ [MidSpacingLarge floor_no] else warnings)
  | _, _ => Ret warnings
  end.

(** The argument of [validate_column_data]: [None] is a key that is absent
    ([data.get] then yields the empty dictionary, or the empty list). *)
Record column_data : Type := {
  data_settings : option (gmap string value);
  data_floors : option (list (gmap string value))
}.

Record validation_result : Type := {
  is_valid : bool;
  errors : list message;
  warnings : list message
}.

(** The body of the loop over the floors: the state is the two lists. *)
Definition validate_floor_step (self : DataValidator)
    (acc : list message * list message) (item : nat * gmap string value)
  : outcome (list message * list message) :=
  let '(errors, warnings) := acc in
  let '(i, floor) := item in
  let* floor_errors := _validate_floor self floor i in
  let errors := errors ++ floor_errors in
  let* floor_warnings := _check_floor_warnings self floor i in
  let warnings := warnings ++ floor_warnings in
  Ret (errors, warnings).

Definition validate_column_data (self : DataValidator) (data : column_data)
  : outcome validation_result :=
  let errors := [] in
  let warnings := [] in
  let* settings_errors := _validate_settings self (default ∅ (data_settings data)) in
  let errors := errors ++ settings_errors in
  let* r := for_each (enumerate (default [] (data_floors data)))
              (validate_floor_step self) (errors, warnings) in
  let '(errors, warnings) := r in
  Ret {| is_valid := Nat.eqb (List.length errors) 0;
         errors := errors;
         warnings := warnings |}.

End Validation.

(** ** utils/geometry.py: GeometryUtils *)

Module GeometryUtils.
Local Open Scope Q_scope.

(** [a / b] on floats: Python raises on a zero divisor. *)
Definition float_div (a b : Q) : outcome Q :=
  if Qeq_bool b 0 then Raise ZeroDivisionError else Ret (a / b).

Definition midpoint (point1 point2 : Point3D Q) : Point3D Q :=
  mkPoint3D ((px point1 + px point2) / 2) ((py point1 + py point2) / 2)
            ((pz point1 + pz point2) / 2).

(** The tolerance [1e-10] of [line_intersection]. *)
Definition parallel_tolerance : Q := 1 # 10000000000.

(** [line_intersection]: [None] is Python's [None], for parallel lines. *)
Definition line_intersection (line1 line2 : Point3D Q * Point3D Q)
  : outcome (option (Point3D Q)) :=
  let '(p1, p2) := line1 in
  let '(p3, p4) := line2 in
  let a1 := py p2 - py p1 in
  let b1 := px p1 - px p2 in
  let c1 := a1 * px p1 + b1 * py p1 in
  let a2 := py p4 - py p3 in
  let b2 := px p3 - px p4 in
  let c2 := a2 * px p3 + b2 * py p3 in
  let determinant := a1 * b2 - a2 * b1 in
  if Qltb (Qabs determinant) parallel_tolerance then Ret None
  else
    let* x := float_div (b2 * c1 - b1 * c2) determinant in
    let* y := float_div (a1 * c2 - a2 * c1) determinant in
    Ret (Some (mkPoint3D x y (pz p1))).

(** The body of the loop of [point_in_polygon]: the state is [inside] and
    the vertex [polygon[j]] that precedes the current one. *)
Definition crossing_step (x y : Q) (s : bool * Point3D Q) (pi : Point3D Q)
  : outcome (bool * Point3D Q) :=
  let '(inside, pj) := s in
  let xi := px pi in let yi := py pi in
  let xj := px pj in let yj := py pj in
  let* crosses :=
    (if xorb (Qltb y yi) (Qltb y yj) then
       let* q := float_div ((xj - xi) * (y - yi)) (yj - yi) in
       Ret (Qltb x (q + xi))
     else Ret false) in
  Ret (if crosses then negb inside else inside, pi).

Definition point_in_polygon (point : Point3D Q) (polygon : list (Point3D Q))
  : outcome bool :=
  if (List.length polygon <? 3)%nat then Ret false
  else
    let x := px point in
    let y := py point in
    let inside := false in
    let pj := List.last polygon point in
    let* r := for_each polygon (crossing_step x y) (inside, pj) in
    Ret (fst r).

Definition calculate_polygon_area (polygon : list (Point3D Q)) : Q :=
  if (List.length polygon <? 3)%nat then 0
  else
    let area := 0 in
    let pj := List.last polygon (mkPoint3D 0 0 0) in
    let '(area, _) :=
      fold_left (fun '(area, pj) pi =>
                   (area + (px pj + px pi) * (py pj - py pi), pi))
                polygon (area, pj) in
    Qabs area / 2.

End GeometryUtils.

(** * Example inputs *)

Module Examples.
Import ExcelReader.
Local Open Scope Q_scope.

(** The floor and the settings of the scenario of the specification: a
    400 x 400 column, 3000 high, under a beam 500 deep. *)
Definition scenario_floor : FloorData :=
  {| total_height := 3000; column_length := 400; column_width := 400;
     floor_name := "F1"; rebar_amount := 12; rebar_amount_x := 4;
     rebar_amount_y := 4; rebar_diameter := 20; edge_stirrup_spacing := 100;
     mid_stirrup_spacing := 150; stirrup_diameter := 8; section_number := 0 |}.


Definition scenario_settings : ColumnSettings :=
  {| beam_depth := 500; beam_extension := 0; concrete_cover := 25; scale := 1;
     spacing_between_columns := 0; foundation_depth := 1000; foundation_cover := 50;
     section_scale := 1; is_foundation_string := false |}.

(** A layout that holds one vertical main bar: diameter 20, from the origin
    to 3000 above it. *)
Definition single_bar : RebarEntities.Rebar R :=
  {| RebarEntities.diameter := 20%R;
     RebarEntities.start_point := mkPoint3D 0%R 0%R 0%R;
     RebarEntities.end_point := mkPoint3D 0%R 3000%R 0%R;
     RebarEntities.grade := "500" |}.

Definition single_bar_layout : RebarEntities.RebarLayout R :=
  {| RebarEntities.main_bars := [single_bar];
     RebarEntities.links := [];
     RebarEntities.main_bars_x := 0;
     RebarEntities.main_bars_y := 0 |}.

(** A section of a 400 x 400 floor with a 4 by 4 arrangement, its list of
    positions still empty. *)
Definition scenario_section : ColumnEntities.ColumnSection :=
  {| ColumnEntities.floor :=
       {| ColumnEntities.name := "F1"; ColumnEntities.height := 3000;
          ColumnEntities.length := 400; ColumnEntities.width := 400;
          ColumnEntities.reinforcement :=
            Some {| RebarEntities.main_bars := []; RebarEntities.links := [];
                    RebarEntities.main_bars_x := 4; RebarEntities.main_bars_y := 4 |};
          ColumnEntities.stirrups := None |};
     ColumnEntities.scale := 1;
     ColumnEntities.rebar_positions := [] |}.


(** A circular column (width 0) of diameter 500 with 8 bars. *)
Definition circular_floor : FloorData :=
  {| total_height := 3000; column_length := 500; column_width := 0;
     floor_name := "F1"; rebar_amount := 8; rebar_amount_x := 8;
     rebar_amount_y := 0; rebar_diameter := 20; edge_stirrup_spacing := 100;
     mid_stirrup_spacing := 150; stirrup_diameter := 8; section_number := 0 |}.

(** A [math] module with rational values: 355/113 for pi, and the constant
    functions 1 and 0 for the cosine and the sine. *)
Definition rational_math : MathModule :=
  {| math_pi := 355 # 113; math_cos := fun _ => 1; math_sin := fun _ => 0 |}.

End Examples.

(** * Inputs of the validator *)

Module ValidationInputs.
Import ExcelReader Validation.
Local Open Scope Q_scope.


(** A field the validator compares with numbers holds a number, when it is
    there at all. *)
Definition is_number_or_absent (d : gmap string value) (field : string) : bool :=
  match d !! field with
  | Some (VNum _) | None => true
  | Some _ => false
  end.

Definition well_typed_floor (d : gmap string value) : bool :=
  forallb (is_number_or_absent d)
    [ "total_height"; "column_length"; "column_width"; "rebar_diameter";
      "stirrup_diameter"; "rebar_amount_x"; "rebar_amount_y"; "concrete_cover";
      "edge_stirrup_spacing"; "mid_stirrup_spacing" ]%string.

Definition well_typed_settings (d : gmap string value) : bool :=
  forallb (is_number_or_absent d) [ "beam_depth"; "concrete_cover" ]%string.

(** The floor of the validation scenario of the specification: 10 bars
    declared for a 4 by 4 arrangement. *)
Definition mismatch_floor : gmap string value :=
  list_to_map
    [ ("total_height", VNum 3000); ("column_length", VNum 400);
      ("column_width", VNum 400); ("floor_name", VStr "F1");
      ("rebar_amount", VNum 10); ("rebar_amount_x", VNum 4);
      ("rebar_amount_y", VNum 4); ("rebar_diameter", VNum 20) ].

Definition mismatch_data : column_data :=
  {| data_settings := Some ∅; data_floors := Some [mismatch_floor] |}.

End ValidationInputs.

(** * Auxiliary definitions of the proofs *)

(** The image of the result of a computation. *)
Definition outcome_map {A B : Type} (f : A -> B) (m : outcome A) : outcome B :=
  bind m (fun a => Ret (f a)).

(** The number of iterations that suffice for a loop from [y] to [limit]
    by [step]. *)
Definition loop_fuel (y limit step : Q) : nat :=
  Z.to_nat (Qceiling ((limit - y) / step)).

(** The shape [_calculate_stirrups] and [generate_rectangular_pattern] share:
    three loops in sequence over one list. *)
Definition three_zone_loops {A : Type} (fuel : nat) (mk_edge mk_mid : Q -> A)
    (edge_spacing mid_spacing start_y height beam_depth : Q) : outcome (list A) :=
  let third_height := ((height - beam_depth) / 3)%Q in
  let* r := while_loop fuel (ColumnCalculator.stirrup_cond (start_y + third_height)%Q)
              (ColumnCalculator.stirrup_body mk_edge edge_spacing)
              ([], (start_y + edge_spacing)%Q) in
  let* r := while_loop fuel
              (ColumnCalculator.stirrup_cond (start_y + 2 * third_height)%Q)
              (ColumnCalculator.stirrup_body mk_mid mid_spacing)
              (fst r, (start_y + third_height + mid_spacing)%Q) in
  let* r := while_loop fuel (ColumnCalculator.stirrup_cond (start_y + height)%Q)
              (ColumnCalculator.stirrup_body mk_edge edge_spacing)
              (fst r, (start_y + 2 * third_height + edge_spacing)%Q) in
  Ret (fst r).

(** The iterations that suffice for the three loops. *)
Definition three_zone_fuel (e m start_y height beam_depth : Q) : nat :=
  let third_height := ((height - beam_depth) / 3)%Q in
  Nat.max (loop_fuel (start_y + e)%Q (start_y + third_height)%Q e)
    (Nat.max (loop_fuel (start_y + third_height + m)%Q
                (start_y + 2 * third_height)%Q m)
             (loop_fuel (start_y + 2 * third_height + e)%Q (start_y + height)%Q e)).

(** The levels above [y]: each is the level below plus the height of the
    floor between them. *)
Fixpoint levels_from (y : Q) (heights : list Q) : list Q :=
  match heights with
  | [] => []
  | h :: heights' => (y + h)%Q :: levels_from (y + h)%Q heights'
  end.

(** The lap descriptors the loop of [calculate_rebar_layout] appends for the
    floors [fs], the first of which has index [k] among [n] floors and its base
    at [y]. *)
Fixpoint laps_from (settings : ExcelReader.ColumnSettings) (n k : nat) (y : Q)
    (fs : list ExcelReader.FloorData) : list (Q * Q * Q) :=
  match fs with
  | [] => []
  | f :: fs' =>
      (if (Z.of_nat k <? Z.of_nat n - 1)%Z
       then [((y + ExcelReader.total_height f
               - ExcelReader.beam_depth settings / 2)%Q,
              ColumnCalculator._calculate_lap_length (ExcelReader.rebar_diameter f),
              ExcelReader.rebar_diameter f)]
       else [])
      ++ laps_from settings n (Datatypes.S k) (y + ExcelReader.total_height f)%Q fs'
  end.

(** The fuel that suffices for the stirrup loops of the floors [fs]. *)
Fixpoint layout_fuel (settings : ExcelReader.ColumnSettings) (y : Q)
    (fs : list ExcelReader.FloorData) : nat :=
  match fs with
  | [] => O
  | f :: fs' =>
      Nat.max (three_zone_fuel (ExcelReader.edge_stirrup_spacing f)
                 (ExcelReader.mid_stirrup_spacing f) y (ExcelReader.total_height f)
                 (ExcelReader.beam_depth settings))
              (layout_fuel settings (y + ExcelReader.total_height f)%Q fs')
  end.

(** The grid of index pairs, in the order the nested loops visit them. *)
Definition grid (m n : Z) : list (Z * Z) := list_prod (range m) (range n).

(** The test of [_calculate_rectangular_positions] for a corner. *)
Definition is_corner (m n : Z) (ij : Z * Z) : bool :=
  (((fst ij =? 0) || (fst ij =? m - 1)) && ((snd ij =? 0) || (snd ij =? n - 1)))%Z.

(** The coordinates of a grid point. *)
Definition grid_point (cover x_spacing y_spacing : Q) (ij : Z * Z) : Q * Q :=
  ((cover + inject_Z (fst ij) * x_spacing)%Q,
   (cover + inject_Z (snd ij) * y_spacing)%Q).

(** * Properties of the embedded code *)

Ltac qlra := Lqa.lra.
Ltac rlra := Lra.lra.

(** ** Comparisons *)

Lemma Qltb_lt (a b : Q) : Qltb a b = true <-> (a < b)%Q.
Proof.
  unfold Qltb. rewrite negb_true_iff. split.
  - intros H. apply Qnot_le_lt. intros Hle.
    apply Qle_bool_iff in Hle. congruence.
  - intros H. destruct (Qle_bool b a) eqn:E; [|reflexivity].
    apply Qle_bool_iff in E. qlra.
Qed.

Lemma Qltb_ge (a b : Q) : Qltb a b = false <-> (b <= a)%Q.
Proof.
  unfold Qltb. rewrite negb_false_iff. apply Qle_bool_iff.
Qed.

Lemma py_max_Qmax (a b : Q) : (py_max a b == Qmax a b)%Q.
Proof.
  unfold py_max. destruct (Qltb a b) eqn:E.
  - apply Qltb_lt in E. symmetry. apply Q.max_r. qlra.
  - apply Qltb_ge in E. symmetry. apply Q.max_l. exact E.
Qed.

(** ** Bind *)

Lemma bind_Ret_inv {A B : Type} (m : outcome A) (k : A -> outcome B) (b : B) :
  bind m k = Ret b -> exists a, m = Ret a /\ k a = Ret b.
Proof. destruct m; simpl; intros H; try discriminate. eauto. Qed.

(** ** While loops *)

Section WhileLoop.
Context {S : Type} (cond : S -> bool) (body : S -> S).

Lemma while_loop_fuel_mono (fuel fuel' : nat) (s r : S) :
  while_loop fuel cond body s = Ret r -> (fuel <= fuel')%nat ->
  while_loop fuel' cond body s = Ret r.
Proof.
  revert fuel' s. induction fuel as [|fuel IH]; intros fuel' s H Hle.
  - simpl in H. destruct fuel'; simpl; destruct (cond s); congruence.
  - destruct fuel' as [|fuel']; [lia|].
    simpl in *. destruct (cond s); [|exact H].
    apply IH; [exact H | lia].
Qed.

Lemma while_loop_deterministic (fuel fuel' : nat) (s r r' : S) :
  while_loop fuel cond body s = Ret r -> while_loop fuel' cond body s = Ret r' ->
  r = r'.
Proof.
  intros H H'.
  apply while_loop_fuel_mono with (fuel' := Nat.max fuel fuel') in H; [|lia].
  apply while_loop_fuel_mono with (fuel' := Nat.max fuel fuel') in H'; [|lia].
  congruence.
Qed.

Lemma while_loop_no_raise (fuel : nat) (s : S) (e : exn) :
  while_loop fuel cond body s <> Raise e.
Proof.
  revert s. induction fuel as [|fuel IH]; intros s; simpl;
    destruct (cond s); try discriminate. apply IH.
Qed.

(** A property the body preserves while the test holds is true on exit,
    where the test is false. *)
Lemma while_loop_invariant (P : S -> Prop) (fuel : nat) (s r : S) :
  P s -> (forall s, P s -> cond s = true -> P (body s)) ->
  while_loop fuel cond body s = Ret r -> P r /\ cond r = false.
Proof.
  intros Hs Hstep. revert s Hs.
  induction fuel as [|fuel IH]; intros s Hs H; simpl in H;
    destruct (cond s) eqn:E; try discriminate.
  - injection H as <-. auto.
  - apply (IH (body s)); auto.
  - injection H as <-. auto.
Qed.

(** A loop that adds a positive step to a quantity and tests it against a
    limit leaves within the number of steps that fit below the limit. *)
Lemma while_loop_terminates (y : S -> Q) (limit step : Q) (I : S -> Prop) :
  (0 < step)%Q ->
  (forall s, I s -> cond s = Qltb (y s) limit) ->
  (forall s, I s -> I (body s) /\ (y (body s) == y s + step)%Q) ->
  forall (fuel : nat) (s : S),
    I s -> (limit - y s <= inject_Z (Z.of_nat fuel) * step)%Q ->
    exists r, while_loop fuel cond body s = Ret r.
Proof.
  intros Hstep Hcond Hbody.
  induction fuel as [|fuel IH]; intros s Hs Hle.
  - simpl. rewrite (Hcond s Hs).
    destruct (Qltb (y s) limit) eqn:E; [|eauto].
    apply Qltb_lt in E. change (Z.of_nat 0) with 0%Z in Hle.
    assert (H0 : (inject_Z 0 * step == 0)%Q) by ring.
    rewrite H0 in Hle. qlra.
  - simpl. rewrite (Hcond s Hs).
    destruct (Qltb (y s) limit) eqn:E; [|eauto].
    destruct (Hbody s Hs) as [HI Hy].
    apply IH; [exact HI|].
    rewrite Hy. rewrite Nat2Z.inj_succ in Hle.
    unfold Z.succ in Hle. rewrite inject_Z_plus in Hle.
    assert (H1 : ((inject_Z (Z.of_nat fuel) + inject_Z 1) * step
                  == inject_Z (Z.of_nat fuel) * step + step)%Q) by ring.
    rewrite H1 in Hle. qlra.
Qed.

End WhileLoop.

Lemma loop_fuel_enough (y limit step : Q) (fuel : nat) :
  (0 < step)%Q -> (loop_fuel y limit step <= fuel)%nat ->
  (limit - y <= inject_Z (Z.of_nat fuel) * step)%Q.
Proof.
  intros Hstep Hfuel.
  assert (Hc : ((limit - y) / step <= inject_Z (Z.of_nat fuel))%Q).
  { eapply Qle_trans; [apply Qle_ceiling|].
    rewrite <- Zle_Qle. unfold loop_fuel in Hfuel. lia. }
  assert (Heq : (limit - y == (limit - y) / step * step)%Q).
  { field. intros H0. rewrite H0 in Hstep. apply (Qlt_irrefl 0). exact Hstep. }
  rewrite Heq. apply Qmult_le_compat_r; [exact Hc | qlra].
Qed.

(** ** The three-zone stirrup loops *)

Section StirrupLoops.
Import ColumnCalculator.
Local Open Scope Q_scope.

(** The positions one loop appends, all below the limit of the loop. *)
Lemma stirrup_loop_spec {A : Type} (mk : Q -> A) (spacing limit : Q) (fuel : nat)
    (acc : list A) (y : Q) (r : list A * Q) :
  while_loop fuel (stirrup_cond limit) (stirrup_body mk spacing) (acc, y) = Ret r ->
  exists ys, fst r = acc ++ map mk ys /\ Forall (fun v => v < limit) ys.
Proof.
  intros H.
  apply (while_loop_invariant _ _
           (fun s => exists ys, fst s = acc ++ map mk ys
                                /\ Forall (fun v => v < limit) ys)) in H.
  - tauto.
  - exists []. simpl. rewrite app_nil_r. auto.
  - intros [l v] (ys & Hl & Hys) Hc. simpl in *.
    unfold stirrup_cond in Hc. simpl in Hc. apply Qltb_lt in Hc.
    exists (ys ++ [v]). split.
    + rewrite Hl, map_app, app_assoc. reflexivity.
    + apply Forall_app. split; [exact Hys|]. constructor; [exact Hc | constructor].
Qed.

Lemma stirrup_loop_terminates {A : Type} (mk : Q -> A) (spacing limit : Q)
    (fuel : nat) (acc : list A) (y : Q) :
  0 < spacing -> (loop_fuel y limit spacing <= fuel)%nat ->
  exists r, while_loop fuel (stirrup_cond limit) (stirrup_body mk spacing) (acc, y)
            = Ret r.
Proof.
  intros Hs Hf.
  apply (while_loop_terminates _ _ snd limit spacing (fun _ => True)); auto.
  - intros s _. split; [exact I | reflexivity].
  - simpl. apply loop_fuel_enough; assumption.
Qed.

(** With a spacing that is not positive a loop that is entered never
    leaves: no fuel is enough. *)
Lemma stirrup_loop_diverges {A : Type} (mk : Q -> A) (spacing limit : Q)
    (fuel : nat) (acc : list A) (y : Q) :
  spacing <= 0 -> y < limit ->
  while_loop fuel (stirrup_cond limit) (stirrup_body mk spacing) (acc, y) = OutOfFuel.
Proof.
  intros Hs. revert acc y. induction fuel as [|fuel IH]; intros acc y Hy; simpl;
    change (stirrup_cond limit (acc, y)) with (Qltb y limit);
    rewrite (proj2 (Qltb_lt y limit) Hy); [reflexivity|].
  apply IH. simpl. qlra.
Qed.

(** Mapping the appended items commutes with the loop. *)
Lemma stirrup_loop_map {A B : Type} (f : A -> B) (mk : Q -> A) (spacing limit : Q)
    (fuel : nat) (acc : list A) (y : Q) :
  while_loop fuel (stirrup_cond limit) (stirrup_body (fun v => f (mk v)) spacing)
    (map f acc, y)
  = outcome_map (fun r => (map f (fst r), snd r))
      (while_loop fuel (stirrup_cond limit) (stirrup_body mk spacing) (acc, y)).
Proof.
  revert acc y. induction fuel as [|fuel IH]; intros acc y; simpl;
    change (stirrup_cond limit (map f acc, y)) with (Qltb y limit);
    change (stirrup_cond limit (acc, y)) with (Qltb y limit);
    destruct (Qltb y limit); try reflexivity.
  change (stirrup_body (fun v => f (mk v)) spacing (map f acc, y))
    with (map f acc ++ [f (mk y)], y + spacing).
  change (stirrup_body mk spacing (acc, y)) with (acc ++ [mk y], y + spacing).
  replace (map f acc ++ [f (mk y)]) with (map f (acc ++ [mk y]))
    by (rewrite map_app; reflexivity).
  apply IH.
Qed.

Lemma calculate_stirrups_three_zones (fuel : nat) (floor : ExcelReader.FloorData)
    (base_y height beam_depth : Q) :
  _calculate_stirrups fuel floor base_y height beam_depth
  = three_zone_loops fuel
      (fun y => (y, edge, ExcelReader.stirrup_diameter floor))
      (fun y => (y, mid, ExcelReader.stirrup_diameter floor))
      (ExcelReader.edge_stirrup_spacing floor) (ExcelReader.mid_stirrup_spacing floor)
      base_y height beam_depth.
Proof.
  unfold _calculate_stirrups, three_zone_loops.
  destruct (while_loop fuel _ _ _) as [[l1 y1]| |]; simpl; try reflexivity.
  destruct (while_loop fuel _ _ _) as [[l2 y2]| |]; simpl; try reflexivity.
  destruct (while_loop fuel _ _ _) as [[l3 y3]| |]; simpl; reflexivity.
Qed.

Lemma three_zone_loops_map {A B : Type} (f : A -> B) (fuel : nat)
    (mk_edge mk_mid : Q -> A) (e m start_y height beam_depth : Q) :
  three_zone_loops fuel (fun v => f (mk_edge v)) (fun v => f (mk_mid v))
    e m start_y height beam_depth
  = outcome_map (map f)
      (three_zone_loops fuel mk_edge mk_mid e m start_y height beam_depth).
Proof.
  unfold three_zone_loops.
  change (@nil B) with (map f []).
  rewrite stirrup_loop_map.
  destruct (while_loop fuel _ _ _) as [[l1 y1]| |]; simpl; try reflexivity.
  rewrite stirrup_loop_map.
  destruct (while_loop fuel _ _ _) as [[l2 y2]| |]; simpl; try reflexivity.
  rewrite stirrup_loop_map.
  destruct (while_loop fuel _ _ _) as [[l3 y3]| |]; simpl; reflexivity.
Qed.

Lemma three_zone_loops_fuel_mono {A : Type} (fuel fuel' : nat)
    (mk_edge mk_mid : Q -> A) (e m start_y height beam_depth : Q) (l : list A) :
  three_zone_loops fuel mk_edge mk_mid e m start_y height beam_depth = Ret l ->
  (fuel <= fuel')%nat ->
  three_zone_loops fuel' mk_edge mk_mid e m start_y height beam_depth = Ret l.
Proof.
  unfold three_zone_loops. intros H Hle.
  apply bind_Ret_inv in H as (r1 & H1 & H).
  apply bind_Ret_inv in H as (r2 & H2 & H).
  apply bind_Ret_inv in H as (r3 & H3 & H).
  rewrite (while_loop_fuel_mono _ _ _ _ _ _ H1 Hle). simpl.
  rewrite (while_loop_fuel_mono _ _ _ _ _ _ H2 Hle). simpl.
  rewrite (while_loop_fuel_mono _ _ _ _ _ _ H3 Hle). simpl.
  exact H.
Qed.

Lemma three_zone_loops_deterministic {A : Type} (fuel fuel' : nat)
    (mk_edge mk_mid : Q -> A) (e m start_y height beam_depth : Q) (l l' : list A) :
  three_zone_loops fuel mk_edge mk_mid e m start_y height beam_depth = Ret l ->
  three_zone_loops fuel' mk_edge mk_mid e m start_y height beam_depth = Ret l' ->
  l = l'.
Proof.
  intros H H'.
  apply three_zone_loops_fuel_mono with (fuel' := Nat.max fuel fuel') in H; [|lia].
  apply three_zone_loops_fuel_mono with (fuel' := Nat.max fuel fuel') in H'; [|lia].
  congruence.
Qed.

Lemma three_zone_loops_no_raise {A : Type} (fuel : nat)
    (mk_edge mk_mid : Q -> A) (e m start_y height beam_depth : Q) (x : exn) :
  three_zone_loops fuel mk_edge mk_mid e m start_y height beam_depth <> Raise x.
Proof.
  unfold three_zone_loops.
  repeat
    match goal with
    | |- bind (while_loop ?f ?c ?b ?s) _ <> _ =>
        let E := fresh "E" in
        destruct (while_loop f c b s) eqn:E; simpl;
        [ | exfalso; exact (while_loop_no_raise _ _ _ _ _ E) | discriminate ]
    end.
  discriminate.
Qed.

Lemma three_zone_loops_terminate {A : Type} (fuel : nat)
    (mk_edge mk_mid : Q -> A) (e m start_y height beam_depth : Q) :
  0 < e -> 0 < m -> (three_zone_fuel e m start_y height beam_depth <= fuel)%nat ->
  exists l, three_zone_loops fuel mk_edge mk_mid e m start_y height beam_depth = Ret l.
Proof.
  intros He Hm Hf. unfold three_zone_fuel in Hf. unfold three_zone_loops.
  destruct (stirrup_loop_terminates mk_edge e
              (start_y + (height - beam_depth) / 3) fuel [] (start_y + e) He)
    as [r1 H1]; [lia|].
  rewrite H1. simpl.
  destruct (stirrup_loop_terminates mk_mid m
              (start_y + 2 * ((height - beam_depth) / 3)) fuel (fst r1)
              (start_y + (height - beam_depth) / 3 + m) Hm)
    as [r2 H2]; [lia|].
  rewrite H2. simpl.
  destruct (stirrup_loop_terminates mk_edge e
              (start_y + height) fuel (fst r2)
              (start_y + 2 * ((height - beam_depth) / 3) + e) He)
    as [r3 H3]; [lia|].
  rewrite H3. simpl. eauto.
Qed.

(** The list the three loops build: the positions of the bottom, the middle
    and the top zone, each below the limit of its loop. *)
Lemma three_zone_loops_spec {A : Type} (fuel : nat)
    (mk_edge mk_mid : Q -> A) (e m start_y height beam_depth : Q) (l : list A) :
  three_zone_loops fuel mk_edge mk_mid e m start_y height beam_depth = Ret l ->
  exists bottom middle top,
    l = map mk_edge bottom ++ map mk_mid middle ++ map mk_edge top
    /\ Forall (fun y => y < start_y + (height - beam_depth) / 3) bottom
    /\ Forall (fun y => y < start_y + 2 * ((height - beam_depth) / 3)) middle
    /\ Forall (fun y => y < start_y + height) top.
Proof.
  unfold three_zone_loops. intros H.
  apply bind_Ret_inv in H as (r1 & H1 & H).
  apply bind_Ret_inv in H as (r2 & H2 & H).
  apply bind_Ret_inv in H as (r3 & H3 & H).
  injection H as <-.
  apply stirrup_loop_spec in H1 as (bottom & E1 & F1).
  apply stirrup_loop_spec in H2 as (middle & E2 & F2).
  apply stirrup_loop_spec in H3 as (top & E3 & F3).
  exists bottom, middle, top. simpl in E1.
  rewrite E3, E2, E1, <- app_assoc. auto.
Qed.

End StirrupLoops.

Lemma outcome_map_map {A B C : Type} (f : B -> C) (g : A -> B) (m : outcome A) :
  outcome_map f (outcome_map g m) = outcome_map (fun a => f (g a)) m.
Proof. destruct m; reflexivity. Qed.

Lemma outcome_map_Ret_inv {A B : Type} (f : A -> B) (m : outcome A) (b : B) :
  outcome_map f m = Ret b -> exists a, m = Ret a /\ b = f a.
Proof. destruct m; simpl; intros H; try discriminate. injection H as <-. eauto. Qed.

(** ** StirrupPattern.generate_rectangular_pattern as the three-zone loops *)

Section PatternLoops.
Import StirrupEntities.
Local Open Scope Q_scope.

(** A loop of [generate_rectangular_pattern] is the list loop run on the
    pattern's list: the body changes no other attribute of the pattern. *)
Lemma pattern_loop_as_list (sel : StirrupPattern -> Q)
    (Hsel : forall p l, sel (set_stirrups p l) = sel p)
    (limit width column_width center_x : Q) (fuel : nat)
    (p : StirrupPattern) (y : Q) :
  while_loop fuel (pattern_cond limit)
    (fun s => pattern_body width column_width center_x (sel (fst s)) s) (p, y)
  = outcome_map (fun r => (set_stirrups p (fst r), snd r))
      (while_loop fuel (ColumnCalculator.stirrup_cond limit)
         (ColumnCalculator.stirrup_body
            (fun v => RectangularStirrup (pattern_diameter p) v width column_width
                        center_x)
            (sel p))
         (stirrups p, y)).
Proof.
  revert p y. induction fuel as [|fuel IH]; intros p y; simpl;
    change (pattern_cond limit (p, y)) with (Qltb y limit);
    change (ColumnCalculator.stirrup_cond limit (stirrups p, y)) with (Qltb y limit);
    destruct (Qltb y limit); try reflexivity;
    try (destruct p; reflexivity).
  change (pattern_body width column_width center_x (sel p) (p, y))
    with (set_stirrups p
            (stirrups p
             ++ [RectangularStirrup (pattern_diameter p) y width column_width center_x]),
          y + sel p).
  rewrite IH, Hsel. reflexivity.
Qed.

Lemma generate_as_three_zones (fuel : nat) (p : StirrupPattern)
    (start_y height beam_depth width column_width center_x : Q) :
  generate_rectangular_pattern fuel p start_y height beam_depth width column_width
    center_x
  = outcome_map (set_stirrups p)
      (three_zone_loops fuel
         (fun v => RectangularStirrup (pattern_diameter p) v width column_width center_x)
         (fun v => RectangularStirrup (pattern_diameter p) v width column_width center_x)
         (edge_spacing p) (mid_spacing p) start_y height beam_depth).
Proof.
  unfold generate_rectangular_pattern, three_zone_loops.
  rewrite (pattern_loop_as_list edge_spacing (fun _ _ => eq_refl)). simpl.
  destruct (while_loop fuel _ _ _) as [[l1 y1]| |]; simpl; try reflexivity.
  rewrite (pattern_loop_as_list mid_spacing (fun _ _ => eq_refl)). simpl.
  destruct (while_loop fuel _ _ _) as [[l2 y2]| |]; simpl; try reflexivity.
  rewrite (pattern_loop_as_list edge_spacing (fun _ _ => eq_refl)). simpl.
  destruct (while_loop fuel _ _ _) as [[l3 y3]| |]; simpl; reflexivity.
Qed.

End PatternLoops.

(** ** Stirrup positions of a floor (C2) *)

Section StirrupBounds.
Import ColumnCalculator.
Local Open Scope Q_scope.

(** C2 (as amended): for a floor with positive height, positive edge and mid
    spacings and [beam_depth < height], [_calculate_stirrups] returns, and its
    list is the positions of the bottom third, then of the middle third, then
    of the top third.  The positions of the bottom and middle thirds are below
    the usable height, [base_y + (height - beam_depth)]; the positions of the
    top third, whose loop runs through the beam zone, are below
    [base_y + height].  So every position is below
    [base_y + max(height, height - beam_depth)]. *)
Theorem calculate_stirrups_zone_bounds (floor : ExcelReader.FloorData)
    (base_y height beam_depth : Q) :
  0 < height ->
  0 < ExcelReader.edge_stirrup_spacing floor ->
  0 < ExcelReader.mid_stirrup_spacing floor ->
  beam_depth < height ->
  exists fuel l,
    _calculate_stirrups fuel floor base_y height beam_depth = Ret l
    /\ (forall fuel' l',
          _calculate_stirrups fuel' floor base_y height beam_depth = Ret l' -> l' = l)
    /\ (exists bottom middle top,
          l = map (fun y => (y, edge, ExcelReader.stirrup_diameter floor)) bottom
              ++ map (fun y => (y, mid, ExcelReader.stirrup_diameter floor)) middle
              ++ map (fun y => (y, edge, ExcelReader.stirrup_diameter floor)) top
          /\ Forall (fun y => y < base_y + (height - beam_depth)) (bottom ++ middle)
          /\ Forall (fun y => y < base_y + height) top)
    /\ (forall y z d, In (y, z, d) l ->
          y < base_y + Qmax height (height - beam_depth)).
Proof.
  intros Hh He Hm Hb.
  set (e := ExcelReader.edge_stirrup_spacing floor) in *.
  set (m := ExcelReader.mid_stirrup_spacing floor) in *.
  destruct (three_zone_loops_terminate
              (three_zone_fuel e m base_y height beam_depth)
              (fun y => (y, edge, ExcelReader.stirrup_diameter floor))
              (fun y => (y, mid, ExcelReader.stirrup_diameter floor))
              e m base_y height beam_depth He Hm (Nat.le_refl _)) as [l Hl].
  exists (three_zone_fuel e m base_y height beam_depth), l.
  rewrite calculate_stirrups_three_zones. fold e m.
  assert (Hdec :
    exists bottom middle top,
      l = map (fun y => (y, edge, ExcelReader.stirrup_diameter floor)) bottom
          ++ map (fun y => (y, mid, ExcelReader.stirrup_diameter floor)) middle
          ++ map (fun y => (y, edge, ExcelReader.stirrup_diameter floor)) top
      /\ Forall (fun y => y < base_y + (height - beam_depth)) (bottom ++ middle)
      /\ Forall (fun y => y < base_y + height) top).
  { destruct (three_zone_loops_spec _ _ _ _ _ _ _ _ _ Hl)
      as (bottom & middle & top & El & Fb & Fm & Ft).
    exists bottom, middle, top. split; [exact El|]. split; [|exact Ft].
    apply List.Forall_app. split.
    - eapply List.Forall_impl; [|exact Fb]. intros y Hy. simpl in Hy.
      assert (H3 : (height - beam_depth) / 3 * 3 == height - beam_depth) by field.
      qlra.
    - eapply List.Forall_impl; [|exact Fm]. intros y Hy. simpl in Hy.
      assert (H3 : (height - beam_depth) / 3 * 3 == height - beam_depth) by field.
      qlra. }
  split; [exact Hl|]. split; [|split; [exact Hdec|]].
  - intros fuel' l' Hl'. rewrite calculate_stirrups_three_zones in Hl'. fold e m in Hl'.
    exact (three_zone_loops_deterministic _ _ _ _ _ _ _ _ _ _ _ Hl' Hl).
  - destruct Hdec as (bottom & middle & top & El & Fbm & Ft).
    intros y z d Hin.
    pose proof (Q.le_max_l height (height - beam_depth)) as Hl1.
    pose proof (Q.le_max_r height (height - beam_depth)) as Hl2.
    rewrite List.Forall_forall in Fbm, Ft.
    rewrite El in Hin.
    apply in_app_or in Hin as [Hin|Hin];
      [|apply in_app_or in Hin as [Hin|Hin]];
      apply in_map_iff in Hin as (v & Ev & Hv); injection Ev as <- _ _.
    + assert (v < base_y + (height - beam_depth))
        by (apply Fbm; apply in_or_app; auto).
      qlra.
    + assert (v < base_y + (height - beam_depth))
        by (apply Fbm; apply in_or_app; auto).
      qlra.
    + assert (v < base_y + height) by (apply Ft; exact Hv).
      qlra.
Qed.

End StirrupBounds.

Section StirrupBoundsExamples.
Import ColumnCalculator.
Local Open Scope Q_scope.

(** C2, the claim as stated fails: on the scenario floor (height 3000, beam
    depth 500, spacings 100 and 150, base 0) the top-third loop emits the
    position 8900/3, above the usable height 2500. *)
Lemma calculate_stirrups_above_usable_height :
  0 < 3000
  /\ 0 < ExcelReader.edge_stirrup_spacing Examples.scenario_floor
  /\ 0 < ExcelReader.mid_stirrup_spacing Examples.scenario_floor
  /\ 500 < 3000
  /\ exists l,
       _calculate_stirrups 30 Examples.scenario_floor 0 3000 500 = Ret l
       /\ In (8900 # 3, edge, 8) l
       /\ ~ (8900 # 3 <= 0 + (3000 - 500)).
Proof.
  repeat (split; [reflexivity|]).
  eexists. split; [vm_compute; reflexivity|]. split.
  - repeat (first [left; reflexivity | right]).
  - intros H. vm_compute in H. apply H. reflexivity.
Qed.

Lemma calculate_stirrups_zone_bounds_witness :
  (0 < 3000
   /\ 0 < ExcelReader.edge_stirrup_spacing Examples.scenario_floor
   /\ 0 < ExcelReader.mid_stirrup_spacing Examples.scenario_floor
   /\ 500 < 3000)
  /\ exists fuel l,
       _calculate_stirrups fuel Examples.scenario_floor 0 3000 500 = Ret l
       /\ (forall y z d, In (y, z, d) l -> y < 0 + Qmax 3000 (3000 - 500)).
Proof.
  split; [repeat split; reflexivity|].
  destruct (calculate_stirrups_zone_bounds Examples.scenario_floor 0 3000 500
              eq_refl eq_refl eq_refl eq_refl)
    as (fuel & l & Hl & _ & _ & Hb).
  exists fuel, l. split; [exact Hl | exact Hb].
Defined.

End StirrupBoundsExamples.

(** ** The pattern generator against the calculator (C3), and run twice (C10) *)

Section PatternProperties.
Import StirrupEntities.
Local Open Scope Q_scope.

(** The elevations of a generated pattern, as the three-zone loops that keep
    the position alone. *)
Lemma generate_elevations (fuel : nat) (p : StirrupPattern)
    (start_y height beam_depth width column_width center_x : Q) :
  outcome_map (fun p' => map elevation (stirrups p'))
    (generate_rectangular_pattern fuel p start_y height beam_depth width
       column_width center_x)
  = three_zone_loops fuel (fun y => y) (fun y => y) (edge_spacing p) (mid_spacing p)
      start_y height beam_depth.
Proof.
  rewrite generate_as_three_zones, outcome_map_map. simpl.
  rewrite <- (three_zone_loops_map elevation). reflexivity.
Qed.

Lemma calculate_stirrups_positions (fuel : nat) (floor : ExcelReader.FloorData)
    (base_y height beam_depth : Q) :
  outcome_map (map (fun s : Q * ColumnCalculator.zone * Q => fst (fst s)))
    (ColumnCalculator._calculate_stirrups fuel floor base_y height beam_depth)
  = three_zone_loops fuel (fun y => y) (fun y => y)
      (ExcelReader.edge_stirrup_spacing floor) (ExcelReader.mid_stirrup_spacing floor)
      base_y height beam_depth.
Proof.
  rewrite calculate_stirrups_three_zones.
  rewrite <- (three_zone_loops_map
                (fun s : Q * ColumnCalculator.zone * Q => fst (fst s))).
  reflexivity.
Qed.

(** C3: for a pattern whose edge and mid spacings are those of the floor, and
    the same start, height and beam depth, the elevations of the stirrups of
    [generate_rectangular_pattern] are the Y-positions of
    [_calculate_stirrups], item by item: whatever the fuel the two runs end
    alike, and with positive spacings both return. *)
Theorem generate_rectangular_pattern_matches_calculate_stirrups
    (p : StirrupPattern) (floor : ExcelReader.FloorData)
    (start_y height beam_depth width column_width center_x : Q) :
  edge_spacing p = ExcelReader.edge_stirrup_spacing floor ->
  mid_spacing p = ExcelReader.mid_stirrup_spacing floor ->
  0 < height ->
  0 < ExcelReader.edge_stirrup_spacing floor ->
  0 < ExcelReader.mid_stirrup_spacing floor ->
  (forall fuel,
     outcome_map (fun p' => map elevation (stirrups p'))
       (generate_rectangular_pattern fuel p start_y height beam_depth width
          column_width center_x)
     = outcome_map (map (fun s : Q * ColumnCalculator.zone * Q => fst (fst s)))
         (ColumnCalculator._calculate_stirrups fuel floor start_y height beam_depth))
  /\ exists fuel p' l,
       generate_rectangular_pattern fuel p start_y height beam_depth width
         column_width center_x = Ret p'
       /\ ColumnCalculator._calculate_stirrups fuel floor start_y height beam_depth
          = Ret l
       /\ map elevation (stirrups p')
          = map (fun s : Q * ColumnCalculator.zone * Q => fst (fst s)) l.
Proof.
  intros Ee Em Hh He Hm.
  assert (Hall : forall fuel,
     outcome_map (fun p' => map elevation (stirrups p'))
       (generate_rectangular_pattern fuel p start_y height beam_depth width
          column_width center_x)
     = outcome_map (map (fun s : Q * ColumnCalculator.zone * Q => fst (fst s)))
         (ColumnCalculator._calculate_stirrups fuel floor start_y height beam_depth)).
  { intros fuel. rewrite generate_elevations, calculate_stirrups_positions, Ee, Em.
    reflexivity. }
  split; [exact Hall|].
  set (fuel := three_zone_fuel (ExcelReader.edge_stirrup_spacing floor)
                 (ExcelReader.mid_stirrup_spacing floor) start_y height beam_depth).
  destruct (three_zone_loops_terminate fuel
              (fun y => (y, ColumnCalculator.edge, ExcelReader.stirrup_diameter floor))
              (fun y => (y, ColumnCalculator.mid, ExcelReader.stirrup_diameter floor))
              _ _ start_y height beam_depth He Hm (Nat.le_refl _)) as [l Hl].
  rewrite <- calculate_stirrups_three_zones in Hl.
  specialize (Hall fuel). rewrite Hl in Hall. simpl in Hall.
  apply outcome_map_Ret_inv in Hall as (p' & Hp' & Eq).
  exists fuel, p', l. auto.
Qed.

(** C10: [generate_rectangular_pattern] starts by clearing the list, so what
    it returns does not depend on the stirrups the pattern held; run on its own
    result it returns that result again; and with positive spacings it
    returns. *)
Theorem generate_rectangular_pattern_idempotent (p : StirrupPattern)
    (start_y height beam_depth width column_width center_x : Q) :
  0 < edge_spacing p ->
  0 < mid_spacing p ->
  (forall fuel old,
     generate_rectangular_pattern fuel (set_stirrups p old) start_y height beam_depth
       width column_width center_x
     = generate_rectangular_pattern fuel p start_y height beam_depth width
         column_width center_x)
  /\ (forall fuel,
        (let* once := generate_rectangular_pattern fuel p start_y height beam_depth
                        width column_width center_x in
         generate_rectangular_pattern fuel once start_y height beam_depth width
           column_width center_x)
        = generate_rectangular_pattern fuel p start_y height beam_depth width
            column_width center_x)
  /\ exists fuel once,
       generate_rectangular_pattern fuel p start_y height beam_depth width
         column_width center_x = Ret once
       /\ generate_rectangular_pattern fuel once start_y height beam_depth width
            column_width center_x = Ret once
       /\ forall fuel' r,
            generate_rectangular_pattern fuel' p start_y height beam_depth width
              column_width center_x = Ret r -> r = once.
Proof.
  intros He Hm.
  assert (Hold : forall fuel old,
     generate_rectangular_pattern fuel (set_stirrups p old) start_y height beam_depth
       width column_width center_x
     = generate_rectangular_pattern fuel p start_y height beam_depth width
         column_width center_x) by reflexivity.
  assert (Hidem : forall fuel once,
     generate_rectangular_pattern fuel p start_y height beam_depth width
       column_width center_x = Ret once ->
     generate_rectangular_pattern fuel once start_y height beam_depth width
       column_width center_x = Ret once).
  { intros fuel once H. pose proof H as H'.
    rewrite generate_as_three_zones in H'.
    apply outcome_map_Ret_inv in H' as (l & _ & ->).
    rewrite Hold. exact H. }
  split; [exact Hold|]. split.
  - intros fuel.
    destruct (generate_rectangular_pattern fuel p start_y height beam_depth width
                column_width center_x) as [once| |] eqn:E; simpl; try reflexivity.
    apply Hidem. exact E.
  - set (fuel := three_zone_fuel (edge_spacing p) (mid_spacing p) start_y height
                   beam_depth).
    destruct (three_zone_loops_terminate fuel
                (fun v => RectangularStirrup (pattern_diameter p) v width column_width
                            center_x)
                (fun v => RectangularStirrup (pattern_diameter p) v width column_width
                            center_x)
                _ _ start_y height beam_depth He Hm (Nat.le_refl _)) as [l Hl].
    exists fuel, (set_stirrups p l).
    assert (Hgen : generate_rectangular_pattern fuel p start_y height beam_depth width
                     column_width center_x = Ret (set_stirrups p l))
      by (rewrite generate_as_three_zones, Hl; reflexivity).
    split; [exact Hgen|]. split; [apply Hidem; exact Hgen|].
    intros fuel' r Hr. rewrite generate_as_three_zones in Hr.
    apply outcome_map_Ret_inv in Hr as (l' & Hl' & ->).
    f_equal. exact (three_zone_loops_deterministic _ _ _ _ _ _ _ _ _ _ _ Hl' Hl).
Qed.

End PatternProperties.

(** ** Column geometry (C8, C9) *)

Section Geometry.
Import ColumnCalculator.
Local Open Scope Q_scope.

Lemma fold_floor_levels (heights : list Q) (acc : list Q) (cur : Q) :
  fst (fold_left (fun '(floor_levels, current_height) height =>
                    let current_height := current_height + height in
                    (floor_levels ++ [current_height], current_height))
                 heights (acc, cur))
  = acc ++ levels_from cur heights.
Proof.
  revert acc cur. induction heights as [|h hs IH]; intros acc cur; simpl.
  - rewrite app_nil_r. reflexivity.
  - rewrite IH, <- app_assoc. reflexivity.
Qed.

Lemma floor_levels_eq (floors : list ExcelReader.FloorData)
    (settings : ExcelReader.ColumnSettings) (base_x base_y base_z : Q) :
  floor_levels (calculate_column_geometry floors settings (base_x, base_y, base_z))
  = base_y :: levels_from base_y (map ExcelReader.total_height floors).
Proof.
  unfold calculate_column_geometry.
  pose proof (fold_floor_levels (map ExcelReader.total_height floors) [base_y] base_y)
    as H.
  destruct (fold_left _ (map ExcelReader.total_height floors) ([base_y], base_y))
    as [levels cur].
  simpl in *. exact H.
Qed.

Lemma levels_from_length (y : Q) (heights : list Q) :
  length (levels_from y heights) = length heights.
Proof.
  revert y. induction heights as [|h hs IH]; intros y; simpl; [|rewrite IH];
    reflexivity.
Qed.

Lemma levels_from_step (heights : list Q) (y : Q) (i : nat) (h : Q) :
  nth_error heights i = Some h ->
  exists a, nth_error (y :: levels_from y heights) i = Some a
            /\ nth_error (y :: levels_from y heights) (Datatypes.S i) = Some (a + h).
Proof.
  revert y i. induction heights as [|h0 hs IH]; intros y i Hi.
  - destruct i; discriminate.
  - destruct i as [|i]; simpl in Hi.
    + injection Hi as ->. exists y. split; reflexivity.
    + destruct (IH (y + h0) i Hi) as (a & Ha & Hb).
      exists a. split; [exact Ha | exact Hb].
Qed.

Lemma fold_column_boundaries (floors : list ExcelReader.FloorData) (base_x : Q)
    (acc : list (Q * Q)) :
  fold_left (fun column_boundaries floor =>
               let left_x := base_x - ExcelReader.column_length floor / 2 in
               let right_x := base_x + ExcelReader.column_length floor / 2 in
               column_boundaries ++ [(left_x, right_x)])
            floors acc
  = acc ++ map (fun floor => (base_x - ExcelReader.column_length floor / 2,
                              base_x + ExcelReader.column_length floor / 2)) floors.
Proof.
  revert acc. induction floors as [|f fs IH]; intros acc; simpl.
  - rewrite app_nil_r. reflexivity.
  - rewrite IH, <- app_assoc. reflexivity.
Qed.

Lemma column_boundaries_eq (floors : list ExcelReader.FloorData)
    (settings : ExcelReader.ColumnSettings) (base_x base_y base_z : Q) :
  column_boundaries (calculate_column_geometry floors settings (base_x, base_y, base_z))
  = map (fun floor => (base_x - ExcelReader.column_length floor / 2,
                       base_x + ExcelReader.column_length floor / 2)) floors.
Proof.
  unfold calculate_column_geometry.
  destruct (fold_left _ (map ExcelReader.total_height floors) ([base_y], base_y))
    as [levels cur].
  simpl. apply (fold_column_boundaries floors base_x []).
Qed.

(** C8: for a non-empty list of floors of positive height,
    [calculate_column_geometry] returns [len(floors) + 1] levels, the first
    is the Y of the base point, each next one is the level below plus the height
    of the floor between them, and it is strictly above the level below. *)
Theorem floor_levels_cumulative (floors : list ExcelReader.FloorData)
    (settings : ExcelReader.ColumnSettings) (base_point : Q * Q * Q) :
  floors <> [] ->
  Forall (fun f => 0 < ExcelReader.total_height f) floors ->
  let levels := floor_levels (calculate_column_geometry floors settings base_point) in
  length levels = Datatypes.S (length floors)
  /\ nth_error levels 0 = Some (snd (fst base_point))
  /\ forall i f,
       nth_error floors i = Some f ->
       exists a b,
         nth_error levels i = Some a
         /\ nth_error levels (Datatypes.S i) = Some b
         /\ b = a + ExcelReader.total_height f
         /\ a < b.
Proof.
  intros _ Hpos levels. subst levels.
  destruct base_point as [[base_x base_y] base_z].
  rewrite floor_levels_eq. split; [|split].
  - simpl. rewrite levels_from_length, length_map. reflexivity.
  - reflexivity.
  - intros i f Hi.
    assert (Hh : nth_error (map ExcelReader.total_height floors) i
                 = Some (ExcelReader.total_height f))
      by (rewrite nth_error_map, Hi; reflexivity).
    destruct (levels_from_step _ base_y i _ Hh) as (a & Ha & Hb).
    exists a, (a + ExcelReader.total_height f).
    split; [exact Ha|]. split; [exact Hb|]. split; [reflexivity|].
    rewrite List.Forall_forall in Hpos.
    assert (0 < ExcelReader.total_height f)
      by (apply Hpos; eapply nth_error_In; exact Hi).
    qlra.
Qed.

(** C9: every boundary pair of [calculate_column_geometry] is
    [(base_x - length/2, base_x + length/2)] for the length of its own floor,
    so its midpoint is [base_x]. *)
Theorem column_boundaries_symmetric (floors : list ExcelReader.FloorData)
    (settings : ExcelReader.ColumnSettings) (base_point : Q * Q * Q) :
  let base_x := fst (fst base_point) in
  let boundaries :=
    column_boundaries (calculate_column_geometry floors settings base_point) in
  boundaries
  = map (fun floor => (base_x - ExcelReader.column_length floor / 2,
                       base_x + ExcelReader.column_length floor / 2)) floors
  /\ Forall (fun b => (fst b + snd b) / 2 == base_x) boundaries.
Proof.
  intros base_x boundaries. subst base_x boundaries.
  destruct base_point as [[base_x base_y] base_z].
  rewrite column_boundaries_eq. split; [reflexivity|].
  apply List.Forall_forall. intros b Hb.
  apply in_map_iff in Hb as (f & <- & _). simpl. field.
Qed.

End Geometry.

(** ** Lap splices of the rebar layout (C4) *)

Section LapLengths.
Import ColumnCalculator.
Local Open Scope Q_scope.

Variable settings : ExcelReader.ColumnSettings.

Lemma calculate_stirrups_fuel_mono (fuel fuel' : nat) (floor : ExcelReader.FloorData)
    (base_y height beam_depth : Q) (l : list (Q * zone * Q)) :
  _calculate_stirrups fuel floor base_y height beam_depth = Ret l ->
  (fuel <= fuel')%nat ->
  _calculate_stirrups fuel' floor base_y height beam_depth = Ret l.
Proof.
  rewrite !calculate_stirrups_three_zones. apply three_zone_loops_fuel_mono.
Qed.

Variables (floors : list ExcelReader.FloorData) (geometry : ColumnGeometry).

Lemma rebar_layout_step_inv (fuel : nat) (st st' : layout_state) (i : nat)
    (f : ExcelReader.FloorData) :
  rebar_layout_step fuel floors geometry settings st (i, f) = Ret st' ->
  exists boundaries stirrups,
    nth_error (column_boundaries geometry) i = Some boundaries
    /\ _calculate_stirrups fuel f (st_current_y st) (ExcelReader.total_height f)
         (ExcelReader.beam_depth settings) = Ret stirrups
    /\ st_current_y st' = st_current_y st + ExcelReader.total_height f
    /\ st_lap_lengths st'
       = st_lap_lengths st
         ++ (if (Z.of_nat i <? Z.of_nat (length floors) - 1)%Z
             then [(st_current_y st + ExcelReader.total_height f
                    - ExcelReader.beam_depth settings / 2,
                    _calculate_lap_length (ExcelReader.rebar_diameter f),
                    ExcelReader.rebar_diameter f)]
             else []).
Proof.
  unfold rebar_layout_step. intros H.
  destruct (nth_error (column_boundaries geometry) i) as [b|]; [|discriminate].
  simpl in H. apply bind_Ret_inv in H as (stirrups & Hs & H).
  injection H as <-. simpl. exists b, stirrups.
  split; [reflexivity|]. split; [exact Hs|]. split; [reflexivity|].
  destruct (Z.of_nat i <? Z.of_nat (length floors) - 1)%Z;
    [reflexivity | rewrite app_nil_r; reflexivity].
Qed.

Lemma rebar_layout_step_fuel_mono (fuel fuel' : nat) (st st' : layout_state)
    (item : nat * ExcelReader.FloorData) :
  rebar_layout_step fuel floors geometry settings st item = Ret st' ->
  (fuel <= fuel')%nat ->
  rebar_layout_step fuel' floors geometry settings st item = Ret st'.
Proof.
  destruct item as [i f]. unfold rebar_layout_step. intros H Hle.
  destruct (nth_error (column_boundaries geometry) i) as [b|]; [|discriminate].
  simpl in *. apply bind_Ret_inv in H as (stirrups & Hs & H).
  rewrite (calculate_stirrups_fuel_mono _ _ _ _ _ _ _ Hs Hle). exact H.
Qed.

Lemma for_each_layout_fuel_mono (fuel fuel' : nat)
    (items : list (nat * ExcelReader.FloorData)) (st st' : layout_state) :
  for_each items (rebar_layout_step fuel floors geometry settings) st = Ret st' ->
  (fuel <= fuel')%nat ->
  for_each items (rebar_layout_step fuel' floors geometry settings) st = Ret st'.
Proof.
  revert st. induction items as [|item items IH]; intros st H Hle; simpl in *.
  - exact H.
  - apply bind_Ret_inv in H as (st1 & H1 & H).
    rewrite (rebar_layout_step_fuel_mono _ _ _ _ _ H1 Hle). simpl.
    apply IH; assumption.
Qed.

Lemma for_each_layout_laps (fuel : nat) (fs : list ExcelReader.FloorData) (k : nat)
    (st st' : layout_state) :
  for_each (combine (seq k (length fs)) fs)
    (rebar_layout_step fuel floors geometry settings) st = Ret st' ->
  st_lap_lengths st'
  = st_lap_lengths st ++ laps_from settings (length floors) k (st_current_y st) fs.
Proof.
  revert k st. induction fs as [|f fs IH]; intros k st H; simpl in H.
  - injection H as <-. simpl. rewrite app_nil_r. reflexivity.
  - apply bind_Ret_inv in H as (st1 & H1 & H).
    apply rebar_layout_step_inv in H1 as (b & s & _ & _ & Hy & Hl).
    apply IH in H. rewrite H, Hl, Hy. simpl. rewrite <- app_assoc. reflexivity.
Qed.

Lemma for_each_layout_terminates (fuel : nat) (fs : list ExcelReader.FloorData)
    (k : nat) (st : layout_state) :
  Forall (fun f => 0 < ExcelReader.edge_stirrup_spacing f
                   /\ 0 < ExcelReader.mid_stirrup_spacing f) fs ->
  (k + length fs <= length (column_boundaries geometry))%nat ->
  (layout_fuel settings (st_current_y st) fs <= fuel)%nat ->
  exists st',
    for_each (combine (seq k (length fs)) fs)
      (rebar_layout_step fuel floors geometry settings) st = Ret st'.
Proof.
  revert k st. induction fs as [|f fs IH]; intros k st Hpos Hlen Hfuel; simpl.
  - eauto.
  - apply List.Forall_cons_iff in Hpos as [[He Hm] Hpos]. simpl in Hlen, Hfuel.
    destruct (nth_error (column_boundaries geometry) k) as [b|] eqn:Eb.
    2: { apply nth_error_None in Eb. lia. }
    destruct (three_zone_loops_terminate fuel
                (fun y => (y, edge, ExcelReader.stirrup_diameter f))
                (fun y => (y, mid, ExcelReader.stirrup_diameter f))
                _ _ (st_current_y st) (ExcelReader.total_height f)
                (ExcelReader.beam_depth settings) He Hm) as [l Hl]; [lia|].
    rewrite <- calculate_stirrups_three_zones in Hl.
    simpl. rewrite Hl. simpl.
    apply IH; [exact Hpos | lia | simpl; lia].
Qed.

(** The descriptors by position: one per floor but the last. *)
Lemma laps_from_length (n k : nat) (y : Q) (fs : list ExcelReader.FloorData) :
  n = (k + length fs)%nat ->
  length (laps_from settings n k y fs) = Nat.pred (length fs).
Proof.
  revert k y. induction fs as [|f fs IH]; intros k y Hn; simpl; [reflexivity|].
  rewrite length_app, IH by (simpl in Hn; lia).
  simpl in Hn. destruct fs as [|f' fs].
  - simpl. destruct (Z.of_nat k <? Z.of_nat n - 1)%Z eqn:E; [|reflexivity].
    apply Z.ltb_lt in E. simpl in Hn. lia.
  - destruct (Z.of_nat k <? Z.of_nat n - 1)%Z eqn:E; [reflexivity|].
    apply Z.ltb_ge in E. simpl in Hn. lia.
Qed.

Lemma laps_from_nth (n k : nat) (y : Q) (fs : list ExcelReader.FloorData)
    (i : nat) (f : ExcelReader.FloorData) :
  n = (k + length fs)%nat ->
  nth_error fs i = Some f ->
  (Datatypes.S i < length fs)%nat ->
  exists base,
    nth_error (y :: levels_from y (map ExcelReader.total_height fs)) i = Some base
    /\ nth_error (laps_from settings n k y fs) i
       = Some (base + ExcelReader.total_height f
               - ExcelReader.beam_depth settings / 2,
               _calculate_lap_length (ExcelReader.rebar_diameter f),
               ExcelReader.rebar_diameter f).
Proof.
  revert k y i. induction fs as [|f0 fs IH]; intros k y i Hn Hi Hlt.
  - destruct i; discriminate.
  - simpl in Hn, Hlt. simpl laps_from.
    assert (E : (Z.of_nat k <? Z.of_nat n - 1)%Z = true) by (apply Z.ltb_lt; lia).
    rewrite E. destruct i as [|i]; simpl in Hi.
    + injection Hi as ->. exists y. split; reflexivity.
    + destruct (IH (Datatypes.S k) (y + ExcelReader.total_height f0) i)
        as (base & Hb & Hl); [lia | exact Hi | lia |].
      exists base. split; [exact Hb | exact Hl].
Qed.

End LapLengths.

Section LapLengthRule.
Import ColumnCalculator.
Local Open Scope Q_scope.

(** C4: [_calculate_lap_length d] is [max(40 d, 300)] (800 for d = 20, 300
    for d = 6); and [calculate_rebar_layout], which returns when the spacings
    are positive and the geometry has a boundary for every floor, emits one lap
    descriptor per floor but the top one: at the base of the floor plus its
    height minus half the beam depth, with the lap length of the floor's bar
    diameter and that diameter. *)
Theorem lap_length_rule :
  (forall d, _calculate_lap_length d == Qmax (40 * d) 300)
  /\ _calculate_lap_length 20 == 800
  /\ _calculate_lap_length 6 == 300
  /\ forall (floors : list ExcelReader.FloorData) (geometry : ColumnGeometry)
            (settings : ExcelReader.ColumnSettings),
       Forall (fun f => 0 < ExcelReader.edge_stirrup_spacing f
                        /\ 0 < ExcelReader.mid_stirrup_spacing f) floors ->
       (length floors <= length (column_boundaries geometry))%nat ->
       exists fuel layout,
         calculate_rebar_layout fuel floors geometry settings = Ret layout
         /\ (forall fuel' layout',
               calculate_rebar_layout fuel' floors geometry settings = Ret layout' ->
               layout' = layout)
         /\ length (lap_lengths layout) = Nat.pred (length floors)
         /\ forall i f,
              nth_error floors i = Some f ->
              (Datatypes.S i < length floors)%nat ->
              exists base,
                nth_error
                  (floor_levels
                     (calculate_column_geometry floors settings (base_point geometry)))
                  i = Some base
                /\ nth_error (lap_lengths layout) i
                   = Some (base + ExcelReader.total_height f
                           - ExcelReader.beam_depth settings / 2,
                           _calculate_lap_length (ExcelReader.rebar_diameter f),
                           ExcelReader.rebar_diameter f).
Proof.
  split; [intros d; apply py_max_Qmax|].
  split; [reflexivity|]. split; [reflexivity|].
  intros floors geometry settings Hpos Hlen.
  set (y0 := snd (fst (base_point geometry))).
  set (st0 := {| st_main_bars := []; st_stirrup_positions := [];
                 st_lap_lengths := []; st_current_y := y0 |}).
  set (fuel := layout_fuel settings y0 floors).
  destruct (for_each_layout_terminates settings floors geometry fuel floors 0 st0
              Hpos Hlen (Nat.le_refl _)) as [st Hst].
  assert (Hlaps : st_lap_lengths st = laps_from settings (length floors) 0 y0 floors)
    by (rewrite (for_each_layout_laps _ _ _ _ _ _ _ _ Hst); reflexivity).
  exists fuel, {| main_bars := st_main_bars st;
                  stirrup_positions := st_stirrup_positions st;
                  lap_lengths := st_lap_lengths st |}.
  split; [|split; [|split]].
  - unfold calculate_rebar_layout, enumerate. fold y0 st0. rewrite Hst. reflexivity.
  - intros fuel' layout' H'. unfold calculate_rebar_layout, enumerate in H'.
    fold y0 st0 in H'. apply bind_Ret_inv in H' as (st' & Hst' & H').
    injection H' as <-.
    apply for_each_layout_fuel_mono with (fuel' := Nat.max fuel fuel') in Hst; [|lia].
    apply for_each_layout_fuel_mono with (fuel' := Nat.max fuel fuel') in Hst'; [|lia].
    rewrite Hst in Hst'. injection Hst' as <-. reflexivity.
  - simpl. rewrite Hlaps. apply laps_from_length. reflexivity.
  - intros i f Hi Hlt. simpl. rewrite Hlaps.
    destruct (base_point geometry) as [[base_x base_y] base_z] eqn:Eb.
    rewrite floor_levels_eq.
    subst y0. simpl.
    apply laps_from_nth; [reflexivity | exact Hi | exact Hlt].
Qed.

End LapLengthRule.

(** ** Section bar positions: the dense grid and the perimeter (C6, C7) *)

Section Grid.
Local Open Scope Q_scope.

Lemma fold_left_append {A B : Type} (f : A -> B) (l : list A) (acc : list B) :
  fold_left (fun acc x => acc ++ [f x]) l acc = acc ++ map f l.
Proof.
  revert acc. induction l as [|x l IH]; intros acc; simpl.
  - rewrite app_nil_r. reflexivity.
  - rewrite IH, <- app_assoc. reflexivity.
Qed.

Lemma fold_left_grid {B : Type} (g : Z * Z -> B) (xs ys : list Z) (acc : list B) :
  fold_left (fun acc i => fold_left (fun acc j => acc ++ [g (i, j)]) ys acc) xs acc
  = acc ++ map g (list_prod xs ys).
Proof.
  revert acc. induction xs as [|i xs IH]; intros acc; simpl.
  - rewrite app_nil_r. reflexivity.
  - rewrite IH, (fold_left_append (fun j => g (i, j))), map_app, map_map,
      <- app_assoc.
    reflexivity.
Qed.

Lemma filter_partition_length {A : Type} (p : A -> bool) (l : list A) :
  (length (List.filter p l) + length (List.filter (fun x => negb (p x)) l) = length l)%nat.
Proof.
  induction l as [|x l IH]; simpl; [reflexivity|].
  destruct (p x); simpl; lia.
Qed.

Lemma filter_list_prod {A B : Type} (p : A -> bool) (q : B -> bool)
    (xs : list A) (ys : list B) :
  List.filter (fun ij => p (fst ij) && q (snd ij)) (list_prod xs ys)
  = list_prod (List.filter p xs) (List.filter q ys).
Proof.
  induction xs as [|i xs IH]; simpl; [reflexivity|].
  rewrite List.filter_app, IH.
  assert (Hrow : List.filter (fun ij : A * B => p (fst ij) && q (snd ij))
                   (map (fun y => (i, y)) ys)
                 = if p i then map (fun y => (i, y)) (List.filter q ys) else []).
  { clear IH. induction ys as [|j ys IHy]; simpl; [destruct (p i); reflexivity|].
    rewrite IHy. destruct (p i), (q j); reflexivity. }
  rewrite Hrow. destruct (p i); reflexivity.
Qed.

Lemma range_length (n : Z) : length (range n) = Z.to_nat n.
Proof. unfold range. rewrite length_map, length_seq. reflexivity. Qed.

(** No index strictly between the two ends passes the corner test. *)
Lemma filter_range_middle (n : Z) (k a : nat) :
  (1 <= a)%nat -> (Z.of_nat (a + k) <= n - 1)%Z ->
  List.filter (fun i => (i =? 0) || (i =? n - 1))%Z (map Z.of_nat (seq a k)) = [].
Proof.
  revert a. induction k as [|k IH]; intros a Ha Hk; simpl; [reflexivity|].
  replace (Z.of_nat a =? 0)%Z with false by (symmetry; apply Z.eqb_neq; lia).
  replace (Z.of_nat a =? n - 1)%Z with false by (symmetry; apply Z.eqb_neq; lia).
  simpl. apply IH; lia.
Qed.

(** The two ends of [range(n)] are the indices the corner test selects. *)
Lemma range_ends (n : Z) :
  (2 <= n)%Z ->
  range n = 0%Z :: map Z.of_nat (seq 1 (Z.to_nat (n - 2))) ++ [(n - 1)%Z].
Proof.
  intros Hn. unfold range.
  replace (Z.to_nat n) with (Datatypes.S (Z.to_nat (n - 2) + 1)) by lia.
  rewrite <- cons_seq, seq_app, map_cons, map_app.
  change (seq (1 + Z.to_nat (n - 2)) 1) with [(1 + Z.to_nat (n - 2))%nat].
  change (map Z.of_nat [(1 + Z.to_nat (n - 2))%nat])
    with [Z.of_nat (1 + Z.to_nat (n - 2))].
  replace (Z.of_nat (1 + Z.to_nat (n - 2))) with (n - 1)%Z by lia.
  reflexivity.
Qed.

Lemma filter_range_ends (n : Z) :
  (2 <= n)%Z ->
  List.filter (fun i => (i =? 0) || (i =? n - 1))%Z (range n) = [0%Z; (n - 1)%Z].
Proof.
  intros Hn. rewrite range_ends by exact Hn.
  cbn [List.filter]. rewrite List.filter_app, filter_range_middle by lia.
  cbn [List.filter app]. rewrite !Z.eqb_refl, orb_true_r. reflexivity.
Qed.

Lemma corners_of_grid (m n : Z) :
  (2 <= m)%Z -> (2 <= n)%Z ->
  List.filter (is_corner m n) (grid m n)
  = [(0, 0); (0, n - 1); (m - 1, 0); (m - 1, n - 1)]%Z.
Proof.
  intros Hm Hn. unfold grid, is_corner.
  rewrite (filter_list_prod (fun i => (i =? 0) || (i =? m - 1))%Z
             (fun j => (j =? 0) || (j =? n - 1))%Z).
  rewrite !filter_range_ends by assumption. reflexivity.
Qed.

Lemma grid_length (m n : Z) :
  (0 <= m)%Z -> (0 <= n)%Z -> Z.of_nat (length (grid m n)) = (m * n)%Z.
Proof.
  intros Hm Hn. unfold grid. rewrite length_prod, !range_length. lia.
Qed.

Lemma grid_without_corners_length (m n : Z) :
  (2 <= m)%Z -> (2 <= n)%Z ->
  Z.of_nat (length (List.filter (fun ij => negb (is_corner m n ij)) (grid m n)))
  = (m * n - 4)%Z.
Proof.
  intros Hm Hn.
  pose proof (filter_partition_length (is_corner m n) (grid m n)) as H.
  rewrite corners_of_grid in H by assumption. simpl in H.
  pose proof (grid_length m n) as Hg. lia.
Qed.

End Grid.

Section SectionPositions.
Import ColumnEntities.
Local Open Scope Q_scope.

Lemma fold_section_positions (f : ColumnFloor) (sc : Q) (m n : Z)
    (pt : Z * Z -> Point3D Q) (rows cols : list Z) (ps : list (Point3D Q)) :
  fold_left (fun self i =>
               fold_left (fun self j =>
                            if (((i =? 0) || (i =? m - 1))
                                && ((j =? 0) || (j =? n - 1)))%Z
                            then self
                            else set_rebar_positions self
                                   (rebar_positions self ++ [pt (i, j)]))
                         cols self)
            rows {| floor := f; scale := sc; rebar_positions := ps |}
  = {| floor := f; scale := sc;
       rebar_positions :=
         ps ++ map pt (List.filter (fun ij => negb (is_corner m n ij))
                         (list_prod rows cols)) |}.
Proof.
  revert ps. induction rows as [|i rows IH]; intros ps;
    cbn [fold_left list_prod].
  - rewrite app_nil_r. reflexivity.
  - assert (Hrow : forall ps,
      fold_left (fun self j =>
                   if (((i =? 0) || (i =? m - 1)) && ((j =? 0) || (j =? n - 1)))%Z
                   then self
                   else set_rebar_positions self (rebar_positions self ++ [pt (i, j)]))
                cols {| floor := f; scale := sc; rebar_positions := ps |}
      = {| floor := f; scale := sc;
           rebar_positions :=
             ps ++ map pt (List.filter (fun ij => negb (is_corner m n ij))
                             (map (fun y => (i, y)) cols)) |}).
    { clear IH ps. induction cols as [|j cols IHc]; intros ps;
        cbn [fold_left map List.filter].
      - rewrite app_nil_r. reflexivity.
      - unfold is_corner at 1. cbn [fst snd].
        destruct (((i =? 0) || (i =? m - 1)) && ((j =? 0) || (j =? n - 1)))%Z;
          cbn [negb].
        + apply IHc.
        + change (set_rebar_positions
                    {| floor := f; scale := sc; rebar_positions := ps |}
                    (rebar_positions
                       {| floor := f; scale := sc; rebar_positions := ps |}
                     ++ [pt (i, j)]))
            with {| floor := f; scale := sc;
                    rebar_positions := ps ++ [pt (i, j)] |}.
          rewrite IHc, map_cons, <- app_assoc. reflexivity. }
    rewrite Hrow, IH, List.filter_app, map_app, <- app_assoc. reflexivity.
Qed.

(** C6: for a rectangular floor with [m >= 2] by [n >= 2] bars, the
    calculator returns the [m * n] points of the full grid, in loop order; the
    entity model, on a floor of the same size with [main_bars_x = m],
    [main_bars_y = n] and the default cover 25, appends the [m * n - 4] grid
    points that are not corners, with the same coordinates; the points it
    leaves out are the four corners of the grid. *)
Theorem dense_grid_and_perimeter (math : MathModule) (floor_data : ExcelReader.FloorData)
    (section : ColumnSection) (bars : RebarEntities.RebarLayout Q) :
  let m := ExcelReader.rebar_amount_x floor_data in
  let n := ExcelReader.rebar_amount_y floor_data in
  let x_spacing := (ExcelReader.column_length floor_data - 2 * 25) / inject_Z (m - 1) in
  let y_spacing := (ExcelReader.column_width floor_data - 2 * 25) / inject_Z (n - 1) in
  let point := grid_point 25 x_spacing y_spacing in
  let kept := List.filter (fun ij => negb (is_corner m n ij)) (grid m n) in
  0 < ExcelReader.column_width floor_data ->
  (2 <= m)%Z -> (2 <= n)%Z ->
  reinforcement (floor section) = Some bars ->
  RebarEntities.main_bars_x bars = m ->
  RebarEntities.main_bars_y bars = n ->
  length (floor section) = ExcelReader.column_length floor_data ->
  width (floor section) = ExcelReader.column_width floor_data ->
  exists positions section',
    ColumnCalculator._calculate_section_rebar_positions math floor_data = Ret positions
    /\ positions = map point (grid m n)
    /\ Z.of_nat (List.length positions) = (m * n)%Z
    /\ _calculate_rectangular_positions section 25 = Ret section'
    /\ rebar_positions section'
       = rebar_positions section
         ++ map (fun ij => mkPoint3D (fst (point ij)) (snd (point ij)) 0) kept
    /\ Z.of_nat (List.length kept) = (m * n - 4)%Z
    /\ List.filter (is_corner m n) (grid m n)
       = [(0, 0); (0, n - 1); (m - 1, 0); (m - 1, n - 1)]%Z.
Proof.
  intros m n x_spacing y_spacing point kept Hw Hm Hn Hr Hx Hy Hl Hwd.
  exists (map point (grid m n)).
  exists {| floor := floor section; scale := scale section;
            rebar_positions :=
              rebar_positions section
              ++ map (fun ij => mkPoint3D (fst (point ij)) (snd (point ij)) 0) kept |}.
  assert (Em : ((m - 1 =? 0)%Z = false)) by (apply Z.eqb_neq; lia).
  assert (En : ((n - 1 =? 0)%Z = false)) by (apply Z.eqb_neq; lia).
  split; [|split; [|split; [|split; [|split]]]].
  - unfold ColumnCalculator._calculate_section_rebar_positions.
    apply Qltb_lt in Hw. rewrite Hw. unfold py_div. fold m n. rewrite Em, En.
    simpl bind. f_equal.
    exact (fold_left_grid point (range m) (range n) []).
  - reflexivity.
  - rewrite length_map. apply grid_length; lia.
  - unfold _calculate_rectangular_positions. rewrite Hr, Hx, Hy.
    replace ((m >? 0)%Z && (n >? 0)%Z) with true
      by (symmetry; apply andb_true_iff; split; apply Z.gtb_lt; lia).
    unfold py_div. rewrite Em, En. simpl bind. rewrite Hl, Hwd. f_equal.
    destruct section as [f sc ps]. simpl.
    exact (fold_section_positions f sc m n
             (fun ij => mkPoint3D (fst (point ij)) (snd (point ij)) 0)
             (range m) (range n) ps).
  - reflexivity.
  - split.
    + apply grid_without_corners_length; assumption.
    + apply corners_of_grid; assumption.
Qed.

End SectionPositions.

(** ** The validator (C5) *)

Section ValidatorLemmas.
Import Validation ValidationInputs.
Local Open Scope Q_scope.
Variable self : DataValidator.

Lemma check_range_total (d : gmap string value) (field kind : string)
    (msg : value -> message) (errs : list message) :
  is_number_or_absent d field = true ->
  exists l, check_range self d field kind msg errs = Ret l /\ incl errs l.
Proof.
  unfold check_range, is_number_or_absent.
  destruct (d !! field) as [[|q|s]|]; try discriminate; intros _.
  - unfold _is_in_range. destruct (limits self !! kind) as [[lo hi]|]; cbn [as_number bind].
    + destruct (Qle_bool lo q && Qle_bool q hi); eexists; split;
        try reflexivity; [apply incl_refl | apply incl_appl, incl_refl].
    + eexists; split; [reflexivity | apply incl_refl].
  - eexists; split; [reflexivity | apply incl_refl].
Qed.

Lemma expected_rebars_total (x y : Q) :
  exists e, _calculate_expected_rebars self (VNum x) (VNum y) = Ret e.
Proof.
  unfold _calculate_expected_rebars, value_gt. cbn [as_number bind].
  destruct (Qltb 0 x); cbn [bind andb].
  - destruct (Qltb 0 y); cbn [bind andb]; [eauto|].
    cbn [value_eq]. destruct (Qeq_bool y 0); eauto.
  - eauto.
Qed.

Lemma validate_settings_total (settings : gmap string value) :
  well_typed_settings settings = true ->
  exists l, _validate_settings self settings = Ret l.
Proof.
  unfold well_typed_settings. cbn [forallb]. intros H.
  apply andb_true_iff in H as [H1 H]. apply andb_true_iff in H as [H2 _].
  unfold _validate_settings.
  match goal with
  | |- context [check_range self settings "beam_depth" ?k ?m ?e] =>
      destruct (check_range_total settings "beam_depth" k m e H1) as (l1 & E1 & _)
  end.
  rewrite E1. cbn [bind].
  destruct (check_range_total settings "concrete_cover" "concrete_cover"
              ConcreteCoverOutOfRange l1 H2) as (l2 & E2 & _).
  rewrite E2. cbn [bind]. eauto.
Qed.

Lemma width_check_total (floor : gmap string value) (floor_no : nat)
    (errs : list message) :
  is_number_or_absent floor "column_width" = true ->
  exists l,
    match floor !! "column_width" with
    | Some w =>
        let* positive := value_gt w 0 in
        if positive
        then check_range self floor "column_width" "column_width"
               (WidthOutOfRange floor_no) errs
        else Ret errs
    | None => Ret errs
    end = Ret l.
Proof.
  intros H. pose proof H as H'. unfold is_number_or_absent in H'.
  destruct (floor !! "column_width") as [[|q|s]|] eqn:E; try discriminate.
  - cbn [value_gt as_number bind]. destruct (Qltb 0 q); [|eauto].
    destruct (check_range_total floor "column_width" "column_width"
                (WidthOutOfRange floor_no) errs H) as (l & El & _).
    eauto.
  - eauto.
Qed.

Lemma well_typed_floor_fields (floor : gmap string value) :
  well_typed_floor floor = true ->
  forall field,
    In field [ "total_height"; "column_length"; "column_width"; "rebar_diameter";
               "stirrup_diameter"; "rebar_amount_x"; "rebar_amount_y";
               "concrete_cover"; "edge_stirrup_spacing";
               "mid_stirrup_spacing" ]%string ->
    is_number_or_absent floor field = true.
Proof.
  unfold well_typed_floor. intros H field Hin.
  rewrite forallb_forall in H. apply H. exact Hin.
Qed.

Lemma validate_floor_total (floor : gmap string value) (floor_index : nat) :
  well_typed_floor floor = true ->
  exists l, _validate_floor self floor floor_index = Ret l.
Proof.
  intros H. pose proof (well_typed_floor_fields floor H) as Hf.
  unfold _validate_floor.
  match goal with
  | |- context [check_range self floor "total_height" ?k ?m ?e] =>
      destruct (check_range_total floor "total_height" k m e) as (l1 & E1 & _);
        [apply Hf; simpl; tauto|]
  end.
  rewrite E1. cbn [bind].
  match goal with
  | |- context [check_range self floor "column_length" ?k ?m ?e] =>
      destruct (check_range_total floor "column_length" k m e) as (l2 & E2 & _);
        [apply Hf; simpl; tauto|]
  end.
  rewrite E2. cbn [bind].
  destruct (width_check_total floor (Datatypes.S floor_index) l2) as (l3 & E3);
    [apply Hf; simpl; tauto|].
  rewrite E3. cbn [bind].
  match goal with
  | |- context [check_range self floor "rebar_diameter" ?k ?m ?e] =>
      destruct (check_range_total floor "rebar_diameter" k m e) as (l4 & E4 & _);
        [apply Hf; simpl; tauto|]
  end.
  rewrite E4. cbn [bind].
  match goal with
  | |- context [check_range self floor "stirrup_diameter" ?k ?m ?e] =>
      destruct (check_range_total floor "stirrup_diameter" k m e) as (l5 & E5 & _);
        [apply Hf; simpl; tauto|]
  end.
  rewrite E5. cbn [bind].
  assert (Hx : is_number_or_absent floor "rebar_amount_x" = true)
    by (apply Hf; simpl; tauto).
  assert (Hy : is_number_or_absent floor "rebar_amount_y" = true)
    by (apply Hf; simpl; tauto).
  unfold is_number_or_absent in Hx, Hy.
  destruct (floor !! "rebar_amount") as [a|]; [|eauto].
  destruct (floor !! "rebar_amount_x") as [[|x|sx]|]; try discriminate; [|eauto].
  destruct (floor !! "rebar_amount_y") as [[|y|sy]|]; try discriminate; [|eauto].
  destruct (expected_rebars_total x y) as [e Ee]. rewrite Ee. cbn [bind]. eauto.
Qed.

Lemma check_floor_warnings_total (floor : gmap string value) (floor_index : nat) :
  well_typed_floor floor = true ->
  exists l, _check_floor_warnings self floor floor_index = Ret l.
Proof.
  intros H. pose proof (well_typed_floor_fields floor H) as Hf.
  assert (Hl : is_number_or_absent floor "column_length" = true)
    by (apply Hf; simpl; tauto).
  assert (Hc : is_number_or_absent floor "concrete_cover" = true)
    by (apply Hf; simpl; tauto).
  assert (He : is_number_or_absent floor "edge_stirrup_spacing" = true)
    by (apply Hf; simpl; tauto).
  assert (Hm : is_number_or_absent floor "mid_stirrup_spacing" = true)
    by (apply Hf; simpl; tauto).
  unfold is_number_or_absent in Hl, Hc, He, Hm.
  unfold _check_floor_warnings. cbv zeta.
  destruct (floor !! "column_length") as [[|q|s]|]; try discriminate;
    destruct (floor !! "column_width");
    destruct (floor !! "concrete_cover") as [[|c|s']|]; try discriminate;
    cbn [default value_twice value_ge bind];
    destruct (floor !! "edge_stirrup_spacing") as [[|e|s'']|]; try discriminate;
    destruct (floor !! "mid_stirrup_spacing") as [[|m|s3]|]; try discriminate;
    cbn [value_lt value_gt as_number bind]; eauto.
Qed.

(** The mismatch of a floor is in the list [_validate_floor] returns. *)
Lemma validate_floor_mismatch (floor : gmap string value) (floor_index : nat)
    (amount x y : value) (e : Q) (l : list message) :
  floor !! "rebar_amount" = Some amount ->
  floor !! "rebar_amount_x" = Some x ->
  floor !! "rebar_amount_y" = Some y ->
  _calculate_expected_rebars self x y = Ret e ->
  value_eq amount e = false ->
  _validate_floor self floor floor_index = Ret l ->
  In (RebarAmountMismatch (Datatypes.S floor_index) e amount) l.
Proof.
  intros Ha Hx Hy He Hne H. unfold _validate_floor in H.
  apply bind_Ret_inv in H as (l1 & _ & H).
  apply bind_Ret_inv in H as (l2 & _ & H).
  apply bind_Ret_inv in H as (l3 & _ & H).
  apply bind_Ret_inv in H as (l4 & _ & H).
  apply bind_Ret_inv in H as (l5 & _ & H).
  rewrite Ha, Hx, Hy, He in H. cbn [bind] in H. rewrite Hne in H.
  cbn [negb] in H. injection H as <-. apply in_or_app. right. left. reflexivity.
Qed.

End ValidatorLemmas.

Section ValidatorLoop.
Import Validation ValidationInputs.
Local Open Scope Q_scope.
Variable self : DataValidator.

Lemma validate_steps_total (fs : list (gmap string value)) (k : nat)
    (acc : list message * list message) :
  Forall (fun f => well_typed_floor f = true) fs ->
  exists r, for_each (combine (seq k (length fs)) fs) (validate_floor_step self) acc = Ret r.
Proof.
  revert k acc. induction fs as [|f fs IH]; intros k [errs warns] H;
    cbn [length seq combine for_each].
  - eauto.
  - apply List.Forall_cons_iff in H as [Hf H].
    destruct (validate_floor_total self f k Hf) as [fe Efe].
    destruct (check_floor_warnings_total self f k Hf) as [fw Efw].
    unfold validate_floor_step at 1. rewrite Efe. cbn [bind]. rewrite Efw.
    cbn [bind]. apply IH. exact H.
Qed.

Lemma validate_steps_errors (fs : list (gmap string value)) (k : nat)
    (acc r : list message * list message) :
  for_each (combine (seq k (length fs)) fs) (validate_floor_step self) acc = Ret r ->
  incl (fst acc) (fst r)
  /\ forall j f,
       nth_error fs j = Some f ->
       exists fe, _validate_floor self f (k + j) = Ret fe /\ incl fe (fst r).
Proof.
  revert k acc. induction fs as [|f fs IH]; intros k [errs warns] H;
    cbn [length seq combine for_each] in H.
  - injection H as <-. split; [apply incl_refl|].
    intros j f Hj. destruct j; discriminate.
  - apply bind_Ret_inv in H as ([errs1 warns1] & H1 & H).
    unfold validate_floor_step in H1.
    apply bind_Ret_inv in H1 as (fe & Efe & H1).
    apply bind_Ret_inv in H1 as (fw & Efw & H1).
    injection H1 as <- <-.
    apply IH in H as [Hincl Hrest]. cbn [fst] in *. split.
    + eapply incl_tran; [|exact Hincl]. apply incl_appl, incl_refl.
    + intros j g Hj. destruct j as [|j]; cbn [nth_error] in Hj.
      * injection Hj as <-. exists fe. rewrite Nat.add_0_r.
        split; [exact Efe|]. eapply incl_tran; [|exact Hincl].
        apply incl_appr, incl_refl.
      * destruct (Hrest j g Hj) as (ge & Ege & Hge).
        exists ge. rewrite Nat.add_succ_r. split; [exact Ege | exact Hge].
Qed.

(** The value of [_calculate_expected_rebars] on two numbers. *)
Lemma expected_rebars_spec (x y : Q) :
  exists e,
    _calculate_expected_rebars self (VNum x) (VNum y) = Ret e
    /\ (0 < x -> 0 < y -> e == 2 * x + 2 * Qmax 0 (y - 2))
    /\ (0 < x -> y == 0 -> e == x)
    /\ (~ (0 < x /\ 0 <= y) -> e == 0).
Proof.
  unfold _calculate_expected_rebars, value_gt.
  cbn [as_number bind value_eq].
  destruct (Qltb 0 x) eqn:Ex; cbn [bind andb].
  + apply Qltb_lt in Ex. destruct (Qltb 0 y) eqn:Ey; cbn [bind andb].
    * apply Qltb_lt in Ey. eexists. split; [reflexivity|].
      split; [|split].
      -- intros _ _. rewrite py_max_Qmax. reflexivity.
      -- intros _ H0. qlra.
      -- intros H. exfalso. apply H. split; qlra.
    * apply Qltb_ge in Ey. destruct (Qeq_bool y 0) eqn:E0.
      -- apply Qeq_bool_iff in E0. eexists. split; [reflexivity|].
         split; [|split].
         ++ intros _ H. qlra.
         ++ intros _ _. reflexivity.
         ++ intros H. exfalso. apply H. split; qlra.
      -- apply Qeq_bool_neq in E0. eexists. split; [reflexivity|].
         split; [|split].
         ++ intros _ H. qlra.
         ++ intros _ H. exfalso. apply E0. exact H.
         ++ intros _. reflexivity.
  + apply Qltb_ge in Ex. eexists. split; [reflexivity|].
    split; [|split].
    * intros H. qlra.
    * intros H. qlra.
    * intros _. reflexivity.
Qed.

End ValidatorLoop.

(** ** Making the validator *)

Section ValidatorModule.
Import Validation.

(** With annotations evaluated at the [def], the import stops at the return
    annotation of [_validate_settings]. *)
Lemma import_module_at_definition :
  import_module AtDefinition = Raise (NameError "List").
Proof. vm_compute. reflexivity. Qed.

Lemma call_at_definition {A : Type} (method : DataValidator -> outcome A) :
  call AtDefinition method = Raise (NameError "List").
Proof.
  unfold call, new_DataValidator. rewrite import_module_at_definition. reflexivity.
Qed.

Lemma call_deferred {A : Type} (method : DataValidator -> outcome A) :
  call Deferred method = method __init__.
Proof. reflexivity. Qed.

(** A call that returns was made with deferred annotations, on the instance
    [__init__] leaves. *)
Lemma call_Ret_inv {A : Type} (evaluation : annotation_evaluation)
    (method : DataValidator -> outcome A) (a : A) :
  call evaluation method = Ret a ->
  evaluation = Deferred /\ method __init__ = Ret a.
Proof.
  destruct evaluation.
  - rewrite call_at_definition. discriminate.
  - rewrite call_deferred. auto.
Qed.

End ValidatorModule.

Section ExpectedRebarCount.
Import Validation ValidationInputs.
Local Open Scope Q_scope.

(** C5: a program that makes a [DataValidator] and validates with it gets
    [NameError] for [List] on an interpreter that evaluates annotations with
    the [def] statement (CPython up to 3.13), whatever the data: the module
    annotates with [List] and does not import it, so no mismatch is ever
    reported there.  Where annotations are deferred, the expected count of
    [_calculate_expected_rebars] is [2 x + 2 max(0, y - 2)] when both counts
    are positive, [x] when only X is set, and 0 otherwise; on data whose
    compared fields are numbers [validate_column_data] returns, and a floor
    whose [rebar_amount] differs from the expected count puts a mismatch in
    the errors and makes [is_valid] false.  Whenever [validate_column_data]
    returns, [is_valid] is true exactly when the list of errors is empty. *)
Theorem rebar_count_consistency :
  (forall data : column_data,
     call AtDefinition (fun self => validate_column_data self data)
     = Raise (NameError "List"))
  /\ (forall x y : Q,
        exists e,
          call Deferred (fun self => _calculate_expected_rebars self (VNum x) (VNum y))
          = Ret e
          /\ (0 < x -> 0 < y -> e == 2 * x + 2 * Qmax 0 (y - 2))
          /\ (0 < x -> y == 0 -> e == x)
          /\ (~ (0 < x /\ 0 <= y) -> e == 0))
  /\ (forall (data : column_data) (floors : list (gmap string value)) (i : nat)
             (floor : gmap string value) (amount x y e : Q),
        data_floors data = Some floors ->
        well_typed_settings (default ∅ (data_settings data)) = true ->
        Forall (fun f => well_typed_floor f = true) floors ->
        nth_error floors i = Some floor ->
        floor !! "rebar_amount" = Some (VNum amount) ->
        floor !! "rebar_amount_x" = Some (VNum x) ->
        floor !! "rebar_amount_y" = Some (VNum y) ->
        call Deferred (fun self => _calculate_expected_rebars self (VNum x) (VNum y))
        = Ret e ->
        ~ amount == e ->
        exists r,
          call Deferred (fun self => validate_column_data self data) = Ret r
          /\ In (RebarAmountMismatch (Datatypes.S i) e (VNum amount)) (errors r)
          /\ is_valid r = false)
  /\ (forall (evaluation : annotation_evaluation) (data : column_data)
             (r : validation_result),
        call evaluation (fun self => validate_column_data self data) = Ret r ->
        (is_valid r = true <-> errors r = [])).
Proof.
  split; [|split; [|split]].
  - intros data. apply call_at_definition.
  - intros x y. rewrite call_deferred. exact (expected_rebars_spec __init__ x y).
  - intros data floors i floor amount x y e Hfl Hs Hwt Hi Ha Hx Hy He Hne.
    rewrite call_deferred in *.
    destruct (validate_settings_total __init__ _ Hs) as [se Ese].
    destruct (validate_steps_total __init__ floors 0 ([] ++ se, []) Hwt)
      as [[errs warns] Er].
    exists {| is_valid := Nat.eqb (List.length errs) 0; errors := errs;
              warnings := warns |}.
    assert (Hin : In (RebarAmountMismatch (Datatypes.S i) e (VNum amount)) errs).
    { destruct (validate_steps_errors __init__ _ _ _ _ Er) as [_ Hall].
      destruct (Hall i floor Hi) as (fe & Efe & Hfe).
      apply Hfe. cbn [Nat.add] in Efe.
      apply (validate_floor_mismatch __init__ floor i (VNum amount) (VNum x) (VNum y)
               e fe);
        try assumption.
      cbn [value_eq]. destruct (Qeq_bool amount e) eqn:E; [|reflexivity].
      apply Qeq_bool_iff in E. contradiction. }
    split; [|split].
    + unfold validate_column_data. rewrite Ese. cbn [bind].
      rewrite Hfl. cbn [default]. unfold Datatypes.id, enumerate. rewrite Er.
      reflexivity.
    + exact Hin.
    + cbn [is_valid]. destruct errs; [destruct Hin | reflexivity].
  - intros evaluation data r H. apply call_Ret_inv in H as [_ H].
    unfold validate_column_data in H.
    apply bind_Ret_inv in H as (se & _ & H).
    apply bind_Ret_inv in H as ([errs warns] & _ & H).
    injection H as <-. cbn [is_valid errors].
    destruct errs; cbn; split; intros; congruence.
Qed.

End ExpectedRebarCount.

(** ** Division by zero in the section layout (C7) *)

Section RangeChecks.
Import Validation ValidationInputs.
Local Open Scope Q_scope.
Variable self : DataValidator.

Lemma check_range_ok (d : gmap string value) (field kind : string)
    (msg : value -> message) (errs : list message) (v lo hi : Q) :
  d !! field = Some (VNum v) ->
  limits self !! kind = Some (lo, hi) ->
  lo <= v -> v <= hi ->
  check_range self d field kind msg errs = Ret errs.
Proof.
  intros Hd Hl Hlo Hhi. unfold check_range, _is_in_range. rewrite Hd, Hl.
  cbn [as_number bind].
  apply Qle_bool_iff in Hlo. apply Qle_bool_iff in Hhi. rewrite Hlo, Hhi.
  reflexivity.
Qed.

End RangeChecks.

Section SingleBarAxis.
Import Validation ValidationInputs.
Local Open Scope Q_scope.




End SingleBarAxis.

(** ** The weight of a rebar layout (C1) *)

Section Weight.
Import RebarEntities.
Local Open Scope R_scope.

Lemma math_unbound : "math" ∉ module_globals.
Proof. apply (bool_decide_unpack _). vm_compute. exact I. Qed.

Lemma math_bound : "math" ∈ module_globals_with_math.
Proof. apply (bool_decide_unpack _). vm_compute. exact I. Qed.

Lemma single_bar_length : length_of Examples.single_bar = 3000.
Proof.
  unfold length_of, Examples.single_bar. cbn [px py pz start_point end_point].
  replace ((0 - 0) ^ 2 + (3000 - 0) ^ 2 + (0 - 0) ^ 2) with (3000 * 3000) by ring.
  apply sqrt_square. rlra.
Qed.

(** C1, on the code: for the layout of one vertical bar of diameter 20 and
    length 3000, [get_total_weight] with the default density raises
    [NameError]: rebar.py reads [math.pi] and never imports [math].  Were the
    module to import it, the result would be [2355000 * pi], about
    7.4 million and not 7.40: the volume in cubic millimetres is divided by
    1000, not by 10^9. *)
Theorem total_weight_of_single_bar :
  get_total_weight module_globals Examples.single_bar_layout default_density
  = Raise (NameError "math")
  /\ get_total_weight module_globals_with_math Examples.single_bar_layout
       default_density
     = Ret (2355000 * PI)
  /\ 7.41 < 2355000 * PI.
Proof.
  split; [|split].
  - unfold get_total_weight, Examples.single_bar_layout.
    cbn [main_bars links app for_each]. unfold lookup_global.
    destruct (decide ("math" ∈ module_globals)) as [H|H];
      [exfalso; exact (math_unbound H) | reflexivity].
  - unfold get_total_weight, Examples.single_bar_layout.
    cbn [main_bars links app for_each]. unfold lookup_global.
    destruct (decide ("math" ∈ module_globals_with_math)) as [H|H];
      [|exfalso; exact (H math_bound)].
    cbn [bind]. rewrite single_bar_length. unfold default_density.
    cbn [diameter Examples.single_bar]. f_equal. field.
  - pose proof PI2_3_2. rlra.
Qed.

End Weight.

(** ** Instances on the example inputs *)

Section Instances.
Local Open Scope Q_scope.

Lemma generate_rectangular_pattern_matches_calculate_stirrups_witness :
  (StirrupEntities.edge_spacing StirrupEntities.new_pattern
   = ExcelReader.edge_stirrup_spacing Examples.scenario_floor
   /\ StirrupEntities.mid_spacing StirrupEntities.new_pattern
      = ExcelReader.mid_stirrup_spacing Examples.scenario_floor
   /\ 0 < 3000
   /\ 0 < ExcelReader.edge_stirrup_spacing Examples.scenario_floor
   /\ 0 < ExcelReader.mid_stirrup_spacing Examples.scenario_floor)
  /\ exists fuel p' l,
       StirrupEntities.generate_rectangular_pattern fuel StirrupEntities.new_pattern
         0 3000 500 350 350 0 = Ret p'
       /\ ColumnCalculator._calculate_stirrups fuel Examples.scenario_floor 0 3000 500
          = Ret l
       /\ map StirrupEntities.elevation (StirrupEntities.stirrups p')
          = map (fun s : Q * ColumnCalculator.zone * Q => fst (fst s)) l.
Proof.
  split; [repeat split; reflexivity|].
  destruct (generate_rectangular_pattern_matches_calculate_stirrups
              StirrupEntities.new_pattern Examples.scenario_floor 0 3000 500 350 350 0
              eq_refl eq_refl eq_refl eq_refl eq_refl) as [_ H].
  exact H.
Defined.

Lemma generate_rectangular_pattern_idempotent_witness :
  (0 < StirrupEntities.edge_spacing StirrupEntities.new_pattern
   /\ 0 < StirrupEntities.mid_spacing StirrupEntities.new_pattern)
  /\ exists fuel once,
       StirrupEntities.generate_rectangular_pattern fuel StirrupEntities.new_pattern
         0 3000 500 350 350 0 = Ret once
       /\ StirrupEntities.generate_rectangular_pattern fuel once
            0 3000 500 350 350 0 = Ret once.
Proof.
  split; [split; reflexivity|].
  destruct (generate_rectangular_pattern_idempotent StirrupEntities.new_pattern
              0 3000 500 350 350 0 eq_refl eq_refl)
    as (_ & _ & fuel & once & H1 & H2 & _).
  exists fuel, once. split; [exact H1 | exact H2].
Defined.

Lemma floor_levels_cumulative_witness :
  ([Examples.scenario_floor; Examples.scenario_floor] <> []
   /\ Forall (fun f => 0 < ExcelReader.total_height f)
        [Examples.scenario_floor; Examples.scenario_floor])
  /\ length (ColumnCalculator.floor_levels
               (ColumnCalculator.calculate_column_geometry
                  [Examples.scenario_floor; Examples.scenario_floor]
                  Examples.scenario_settings (0, 0, 0)))
     = 3%nat.
Proof.
  assert (Hne : [Examples.scenario_floor; Examples.scenario_floor] <> [])
    by discriminate.
  assert (Hpos : Forall (fun f => 0 < ExcelReader.total_height f)
                   [Examples.scenario_floor; Examples.scenario_floor])
    by (repeat constructor).
  split; [split; assumption|].
  exact (proj1 (floor_levels_cumulative
                  [Examples.scenario_floor; Examples.scenario_floor]
                  Examples.scenario_settings (0, 0, 0) Hne Hpos)).
Defined.

Lemma lap_length_rule_witness :
  exists fuel layout,
    ColumnCalculator.calculate_rebar_layout fuel
      [Examples.scenario_floor; Examples.scenario_floor]
      (ColumnCalculator.calculate_column_geometry
         [Examples.scenario_floor; Examples.scenario_floor]
         Examples.scenario_settings (0, 0, 0))
      Examples.scenario_settings = Ret layout
    /\ length (ColumnCalculator.lap_lengths layout) = 1%nat.
Proof.
  destruct lap_length_rule as (_ & _ & _ & H).
  destruct (H [Examples.scenario_floor; Examples.scenario_floor]
              (ColumnCalculator.calculate_column_geometry
                 [Examples.scenario_floor; Examples.scenario_floor]
                 Examples.scenario_settings (0, 0, 0))
              Examples.scenario_settings)
    as (fuel & layout & Hl & _ & Hlen & _).
  - repeat constructor.
  - apply Nat.le_refl.
  - exists fuel, layout. split; [exact Hl | exact Hlen].
Defined.

Lemma rebar_count_consistency_witness :
  exists r,
    Validation.call Validation.Deferred
      (fun self => Validation.validate_column_data self ValidationInputs.mismatch_data)
    = Ret r
    /\ In (Validation.RebarAmountMismatch 1 12 (Validation.VNum 10))
         (Validation.errors r)
    /\ Validation.is_valid r = false.
Proof.
  destruct rebar_count_consistency as (_ & _ & H & _).
  apply (H ValidationInputs.mismatch_data [ValidationInputs.mismatch_floor] 0%nat
           ValidationInputs.mismatch_floor 10 4 4 12); try reflexivity.
  - repeat constructor.
  - intros E. discriminate E.
Defined.

Lemma dense_grid_and_perimeter_witness :
  exists positions section',
    ColumnCalculator._calculate_section_rebar_positions Examples.rational_math
      Examples.scenario_floor = Ret positions
    /\ Z.of_nat (length positions) = 16%Z
    /\ ColumnEntities._calculate_rectangular_positions Examples.scenario_section 25
       = Ret section'
    /\ Z.of_nat (length (ColumnEntities.rebar_positions section')) = 12%Z.
Proof.
  destruct (dense_grid_and_perimeter Examples.rational_math Examples.scenario_floor
              Examples.scenario_section
              {| RebarEntities.main_bars := []; RebarEntities.links := [];
                 RebarEntities.main_bars_x := 4; RebarEntities.main_bars_y := 4 |})
    as (positions & section' & H1 & _ & H3 & H4 & H5 & H6 & _);
    try reflexivity; try (intros E; discriminate E).
  exists positions, section'.
  split; [exact H1|]. split; [exact H3|]. split; [exact H4|].
  rewrite H5. cbn [ColumnEntities.rebar_positions Examples.scenario_section app].
  rewrite length_map. exact H6.
Defined.



End Instances.

(** * Further properties of the calculator *)

Section MainBars.
Import ColumnCalculator.
Local Open Scope Q_scope.

(** The bars of [_calculate_main_bars]: the two edge bars, then the
    intermediate ones when [rebar_amount_x > 2]. *)
Lemma calculate_main_bars_eq (floor : ExcelReader.FloorData) (left_x right_x : Q)
    (base_y height cover : Q) :
  let bar := fun x => (x, base_y, base_y + height, ExcelReader.rebar_diameter floor) in
  let n := ExcelReader.rebar_amount_x floor in
  let spacing := (right_x - left_x - 2 * cover) / inject_Z (n - 1) in
  _calculate_main_bars floor (left_x, right_x) base_y height cover
  = [bar (left_x + cover); bar (right_x - cover)]
    ++ (if (n >? 2)%Z
        then map (fun i => bar (left_x + cover + inject_Z i * spacing))
                 (range2 1 (n - 1))
        else []).
Proof.
  intros bar n spacing. unfold _calculate_main_bars. fold n.
  destruct (n >? 2)%Z; [|reflexivity].
  cbn [app].
  exact (fold_left_append
           (fun i => bar (left_x + cover + inject_Z i * spacing))
           (range2 1 (n - 1)) [bar (left_x + cover); bar (right_x - cover)]).
Qed.

Lemma range2_length (a b : Z) : length (range2 a b) = Z.to_nat (b - a).
Proof. unfold range2. rewrite length_map, length_seq. reflexivity. Qed.

Lemma range2_bounds (a b i : Z) : In i (range2 a b) -> (a <= i < b)%Z.
Proof.
  unfold range2. intros H. apply in_map_iff in H as (k & <- & Hk).
  apply in_seq in Hk. lia.
Qed.

(** X1: [_calculate_main_bars] returns [max(2, rebar_amount_x)] bars; the
    first is at [left + cover], the second at [right - cover], and every bar
    runs from [base_y] to [base_y + height] with the floor's bar diameter. *)
Theorem calculate_main_bars_shape (floor : ExcelReader.FloorData)
    (boundaries : Q * Q) (base_y height cover : Q) :
  let bars := _calculate_main_bars floor boundaries base_y height cover in
  length bars = Z.to_nat (Z.max 2 (ExcelReader.rebar_amount_x floor))
  /\ nth_error bars 0
     = Some (fst boundaries + cover, base_y, base_y + height,
             ExcelReader.rebar_diameter floor)
  /\ nth_error bars 1
     = Some (snd boundaries - cover, base_y, base_y + height,
             ExcelReader.rebar_diameter floor)
  /\ Forall (fun bar : Q * Q * Q * Q =>
               snd (fst (fst bar)) = base_y
               /\ snd (fst bar) = base_y + height
               /\ snd bar = ExcelReader.rebar_diameter floor) bars.
Proof.
  destruct boundaries as [left_x right_x]. intros bars. subst bars.
  rewrite calculate_main_bars_eq. cbn [fst snd].
  split; [|split; [reflexivity|split; [reflexivity|]]].
  - rewrite length_app. cbn [length].
    destruct (ExcelReader.rebar_amount_x floor >? 2)%Z eqn:E.
    + apply Z.gtb_lt in E. rewrite length_map, range2_length. lia.
    + assert (ExcelReader.rebar_amount_x floor <= 2)%Z
        by (destruct (Z.gtb_spec (ExcelReader.rebar_amount_x floor) 2); [discriminate | lia]).
      cbn [length]. lia.
  - apply List.Forall_app. split.
    + repeat constructor.
    + destruct (ExcelReader.rebar_amount_x floor >? 2)%Z; [|constructor].
      apply List.Forall_forall. intros bar Hb.
      apply in_map_iff in Hb as (i & <- & _). repeat split.
Qed.

(** X2: when the cover fits twice in the width between the boundaries, every
    bar of [_calculate_main_bars] lies between [left + cover] and
    [right - cover]. *)
Theorem calculate_main_bars_within_cover (floor : ExcelReader.FloorData)
    (left_x right_x base_y height cover : Q) :
  2 * cover <= right_x - left_x ->
  Forall (fun bar : Q * Q * Q * Q =>
            left_x + cover <= fst (fst (fst bar)) <= right_x - cover)
         (_calculate_main_bars floor (left_x, right_x) base_y height cover).
Proof.
  intros Hc. rewrite calculate_main_bars_eq.
  apply List.Forall_app. split.
  - constructor; [cbn; split; qlra|]. constructor; [cbn; split; qlra|constructor].
  - destruct (ExcelReader.rebar_amount_x floor >? 2)%Z eqn:E; [|constructor].
    apply Z.gtb_lt in E.
    apply List.Forall_forall. intros bar Hb.
    apply in_map_iff in Hb as (i & <- & Hi). apply range2_bounds in Hi.
    cbn [fst].
    set (n := inject_Z (ExcelReader.rebar_amount_x floor - 1)).
    set (D := right_x - left_x - 2 * cover).
    assert (Hn : 0 < n).
    { unfold n. change 0 with (inject_Z 0). rewrite <- Zlt_Qlt. lia. }
    assert (Hi0 : 0 <= inject_Z i).
    { change 0 with (inject_Z 0). rewrite <- Zle_Qle. lia. }
    assert (Hin : inject_Z i <= n).
    { unfold n. rewrite <- Zle_Qle. lia. }
    assert (HD : 0 <= D) by (unfold D; qlra).
    assert (Hs : 0 <= D / n).
    { apply Qle_shift_div_l; [exact Hn | qlra]. }
    assert (Hnd : n * (D / n) == D).
    { field. intros H0. rewrite H0 in Hn. exact (Qlt_irrefl 0 Hn). }
    assert (H1 : 0 <= inject_Z i * (D / n)) by (apply Qmult_le_0_compat; assumption).
    assert (H2 : inject_Z i * (D / n) <= n * (D / n))
      by (apply Qmult_le_compat_r; assumption).
    rewrite Hnd in H2.
    assert (HDdef : D == right_x - left_x - 2 * cover) by reflexivity.
    set (t := inject_Z i * (D / n)) in *. clearbody t D. split; qlra.
Qed.

End MainBars.

Section LayoutPipeline.
Import ColumnCalculator.
Local Open Scope Q_scope.

Variables (settings : ExcelReader.ColumnSettings)
          (floors : list ExcelReader.FloorData) (geometry : ColumnGeometry).

Lemma rebar_layout_step_bars (fuel : nat) (st st' : layout_state) (i : nat)
    (f : ExcelReader.FloorData) :
  rebar_layout_step fuel floors geometry settings st (i, f) = Ret st' ->
  exists boundaries,
    nth_error (column_boundaries geometry) i = Some boundaries
    /\ st_current_y st' = st_current_y st + ExcelReader.total_height f
    /\ st_main_bars st'
       = st_main_bars st
         ++ _calculate_main_bars f boundaries (st_current_y st)
              (ExcelReader.total_height f) (ExcelReader.concrete_cover settings).
Proof.
  unfold rebar_layout_step. intros H.
  destruct (nth_error (column_boundaries geometry) i) as [b|]; [|discriminate].
  cbn [bind] in H. apply bind_Ret_inv in H as (stirrups & _ & H).
  injection H as <-. exists b. repeat split.
Qed.

Lemma for_each_layout_bar_count (fuel : nat) (fs : list ExcelReader.FloorData)
    (k : nat) (st st' : layout_state) :
  for_each (combine (seq k (length fs)) fs)
    (rebar_layout_step fuel floors geometry settings) st = Ret st' ->
  (length (st_main_bars st')
   = length (st_main_bars st)
     + list_sum (map (fun f => Z.to_nat (Z.max 2 (ExcelReader.rebar_amount_x f))) fs))%nat
  /\ (length fs = 0 \/ k + length fs <= length (column_boundaries geometry))%nat.
Proof.
  revert k st. induction fs as [|f fs IH]; intros k st H;
    cbn [length seq combine for_each] in H.
  - injection H as <-. cbn [map list_sum]. split; [| left; reflexivity].
    rewrite Nat.add_0_r. reflexivity.
  - apply bind_Ret_inv in H as (st1 & H1 & H).
    apply rebar_layout_step_bars in H1 as (b & Eb & _ & Hbars).
    apply IH in H as [Hcount Hlen]. split.
    + rewrite Hcount, Hbars, length_app.
      rewrite (proj1 (calculate_main_bars_shape f b _ _ _)).
      cbn [map].
      assert (Hs : forall a l, list_sum (a :: l) = (a + list_sum l)%nat)
        by reflexivity.
      rewrite Hs. lia.
    + right. assert (k < length (column_boundaries geometry))%nat
        by (apply nth_error_Some; rewrite Eb; discriminate).
      cbn [length]. lia.
Qed.

Lemma for_each_layout_index_error (fuel : nat) (fs : list ExcelReader.FloorData)
    (k : nat) (st : layout_state) :
  Forall (fun f => 0 < ExcelReader.edge_stirrup_spacing f
                   /\ 0 < ExcelReader.mid_stirrup_spacing f) fs ->
  (k <= length (column_boundaries geometry) < k + length fs)%nat ->
  (layout_fuel settings (st_current_y st) fs <= fuel)%nat ->
  for_each (combine (seq k (length fs)) fs)
    (rebar_layout_step fuel floors geometry settings) st = Raise IndexError.
Proof.
  revert k st. induction fs as [|f fs IH]; intros k st Hpos Hlen Hfuel.
  - cbn [length] in Hlen. lia.
  - apply List.Forall_cons_iff in Hpos as [[He Hm] Hpos].
    cbn [length] in Hlen. cbn [layout_fuel] in Hfuel.
    cbn [length seq combine for_each].
    destruct (nth_error (column_boundaries geometry) k) as [b|] eqn:Eb.
    + assert (k < length (column_boundaries geometry))%nat
        by (apply nth_error_Some; rewrite Eb; discriminate).
      destruct (three_zone_loops_terminate fuel
                  (fun y => (y, edge, ExcelReader.stirrup_diameter f))
                  (fun y => (y, mid, ExcelReader.stirrup_diameter f))
                  _ _ (st_current_y st) (ExcelReader.total_height f)
                  (ExcelReader.beam_depth settings) He Hm) as [l Hl]; [lia|].
      rewrite <- calculate_stirrups_three_zones in Hl.
      unfold rebar_layout_step at 1. rewrite Eb. cbn [bind]. rewrite Hl. cbn [bind].
      apply IH; [exact Hpos | lia | cbn [st_current_y]; lia].
    + unfold rebar_layout_step at 1. rewrite Eb. reflexivity.
Qed.

End LayoutPipeline.

Section LayoutPipelineTheorems.
Import ColumnCalculator.
Local Open Scope Q_scope.

(** X3: [calculate_rebar_layout] reads [geometry.column_boundaries[i]] for
    every floor: it returns only when the geometry has a boundary per floor,
    and with fewer boundaries than floors (and positive spacings, so that the
    stirrup loops of the floors before end) it raises [IndexError]. *)
Theorem calculate_rebar_layout_index_error (floors : list ExcelReader.FloorData)
    (geometry : ColumnGeometry) (settings : ExcelReader.ColumnSettings) :
  (forall fuel layout,
     calculate_rebar_layout fuel floors geometry settings = Ret layout ->
     (length floors <= length (column_boundaries geometry))%nat)
  /\ (Forall (fun f => 0 < ExcelReader.edge_stirrup_spacing f
                       /\ 0 < ExcelReader.mid_stirrup_spacing f) floors ->
      (length (column_boundaries geometry) < length floors)%nat ->
      exists fuel,
        calculate_rebar_layout fuel floors geometry settings = Raise IndexError).
Proof.
  split.
  - intros fuel layout H. unfold calculate_rebar_layout, enumerate in H.
    apply bind_Ret_inv in H as (st & Hst & _).
    apply for_each_layout_bar_count in Hst as [_ [H0|Hle]]; lia.
  - intros Hpos Hlen.
    exists (layout_fuel settings (snd (fst (base_point geometry))) floors).
    unfold calculate_rebar_layout, enumerate.
    rewrite for_each_layout_index_error; [reflexivity | exact Hpos | lia |].
    apply Nat.le_refl.
Qed.

(** X4: the layout of the geometry the calculator itself derives: for
    floors with positive spacings, [calculate_rebar_layout] on
    [calculate_column_geometry] of the same floors returns, and its main bars
    are [max(2, rebar_amount_x)] per floor. *)
Theorem layout_of_calculated_geometry (floors : list ExcelReader.FloorData)
    (settings : ExcelReader.ColumnSettings) (base : Q * Q * Q) :
  Forall (fun f => 0 < ExcelReader.edge_stirrup_spacing f
                   /\ 0 < ExcelReader.mid_stirrup_spacing f) floors ->
  exists fuel layout,
    calculate_rebar_layout fuel floors
      (calculate_column_geometry floors settings base) settings = Ret layout
    /\ length (main_bars layout)
       = list_sum (map (fun f => Z.to_nat (Z.max 2 (ExcelReader.rebar_amount_x f)))
                       floors).
Proof.
  intros Hpos.
  set (geometry := calculate_column_geometry floors settings base).
  set (y0 := snd (fst (base_point geometry))).
  set (st0 := {| st_main_bars := []; st_stirrup_positions := [];
                 st_lap_lengths := []; st_current_y := y0 |}).
  assert (Hlen : (0 + length floors <= length (column_boundaries geometry))%nat).
  { subst geometry. destruct base as [[bx by_] bz].
    rewrite column_boundaries_eq, length_map. lia. }
  destruct (for_each_layout_terminates settings floors geometry
              (layout_fuel settings y0 floors) floors 0 st0 Hpos Hlen
              (Nat.le_refl _)) as [st Hst].
  exists (layout_fuel settings y0 floors),
         {| main_bars := st_main_bars st;
            stirrup_positions := st_stirrup_positions st;
            lap_lengths := st_lap_lengths st |}.
  split.
  - unfold calculate_rebar_layout, enumerate. fold geometry y0 st0.
    rewrite Hst. reflexivity.
  - cbn [main_bars].
    apply for_each_layout_bar_count in Hst as [Hcount _]. exact Hcount.
Qed.

Lemma fold_Qplus_shift (hs : list Q) (a : Q) :
  fold_left Qplus hs a == a + fold_left Qplus hs 0.
Proof.
  revert a. induction hs as [|h hs IH]; intros a; cbn [fold_left].
  - ring.
  - rewrite (IH (a + h)), (IH (0 + h)). ring.
Qed.

Lemma levels_from_last (hs : list Q) (y d : Q) :
  List.last (y :: levels_from y hs) d == y + fold_left Qplus hs 0.
Proof.
  revert y. induction hs as [|h hs IH]; intros y.
  - cbn. ring.
  - change (List.last (y :: levels_from y (h :: hs)) d)
      with (List.last ((y + h) :: levels_from (y + h) hs) d).
    rewrite IH. cbn [fold_left]. rewrite (fold_Qplus_shift hs (0 + h)). ring.
Qed.

(** X5: in the geometry of [calculate_column_geometry] the lists have one
    entry per floor (one more for the levels), and the top level is the base
    level plus the total height. *)
Theorem geometry_totals (floors : list ExcelReader.FloorData)
    (settings : ExcelReader.ColumnSettings) (base : Q * Q * Q) :
  let geometry := calculate_column_geometry floors settings base in
  length (floor_heights geometry) = length floors
  /\ length (column_boundaries geometry) = length floors
  /\ length (floor_levels geometry) = Datatypes.S (length floors)
  /\ List.last (floor_levels geometry) 0
     == snd (fst base) + geometry_total_height geometry.
Proof.
  intros geometry. subst geometry. destruct base as [[bx by_] bz].
  rewrite floor_levels_eq, column_boundaries_eq.
  assert (Hh : floor_heights (calculate_column_geometry floors settings (bx, by_, bz))
               = map ExcelReader.total_height floors).
  { unfold calculate_column_geometry.
    destruct (fold_left _ (map ExcelReader.total_height floors) ([by_], by_));
      reflexivity. }
  assert (Ht : geometry_total_height
                 (calculate_column_geometry floors settings (bx, by_, bz))
               = py_sum (map ExcelReader.total_height floors)).
  { unfold calculate_column_geometry.
    destruct (fold_left _ (map ExcelReader.total_height floors) ([by_], by_));
      reflexivity. }
  rewrite Hh, Ht. split; [apply length_map|]. split; [apply length_map|]. split.
  - cbn [length]. rewrite levels_from_length, length_map. reflexivity.
  - cbn [fst snd]. apply levels_from_last.
Qed.

End LayoutPipelineTheorems.

(** * Further properties of the section layouts *)

Section CircularSection.
Import ColumnCalculator.
Local Open Scope Q_scope.

(** X6: for a floor that is not rectangular ([column_width <= 0]) the
    calculator divides the full turn by [rebar_amount_x]: it raises
    [ZeroDivisionError] exactly when that count is 0, and otherwise returns
    one position per bar ([max(0, rebar_amount_x)] of them), each at the
    distance [length/2 - 25] from the centre [(length/2, length/2)] when the
    cosine and sine of the [math] module lie on the unit circle. *)
Theorem circular_section_positions (math : MathModule) (floor : ExcelReader.FloorData) :
  let n := ExcelReader.rebar_amount_x floor in
  let centre := ExcelReader.column_length floor / 2 in
  let radius := ExcelReader.column_length floor / 2 - 25 in
  ExcelReader.column_width floor <= 0 ->
  (_calculate_section_rebar_positions math floor = Raise ZeroDivisionError
   <-> n = 0%Z)
  /\ (n <> 0%Z ->
      exists positions,
        _calculate_section_rebar_positions math floor = Ret positions
        /\ length positions = Z.to_nat n
        /\ ((forall a, math_cos math a * math_cos math a
                       + math_sin math a * math_sin math a == 1) ->
            Forall (fun p : Q * Q =>
                      (fst p - centre) * (fst p - centre)
                      + (snd p - centre) * (snd p - centre)
                      == radius * radius) positions)).
Proof.
  intros n centre radius Hw.
  unfold _calculate_section_rebar_positions.
  replace (Qltb 0 (ExcelReader.column_width floor)) with false
    by (symmetry; apply Qltb_ge; exact Hw).
  unfold py_div. fold n.
  destruct (n =? 0)%Z eqn:E; cbn [bind].
  - apply Z.eqb_eq in E. split; [tauto|]. intros H. contradiction.
  - apply Z.eqb_neq in E. split; [split; [discriminate | contradiction]|].
    intros _. eexists. split; [reflexivity|].
    rewrite (fold_left_append
               (fun i =>
                  (ExcelReader.column_length floor / 2
                   + (ExcelReader.column_length floor / 2 - 25)
                     * math_cos math (inject_Z i * (2 * math_pi math / inject_Z n)),
                   ExcelReader.column_length floor / 2
                   + (ExcelReader.column_length floor / 2 - 25)
                     * math_sin math (inject_Z i * (2 * math_pi math / inject_Z n))))
               (range n) []).
    cbn [app]. split; [rewrite length_map; apply range_length|].
    intros Hunit. apply List.Forall_forall. intros p Hp.
    apply in_map_iff in Hp as (i & <- & _). cbn [fst snd]. fold centre radius.
    set (a := inject_Z i * (2 * math_pi math / inject_Z n)).
    specialize (Hunit a).
    transitivity (radius * radius
                  * (math_cos math a * math_cos math a
                     + math_sin math a * math_sin math a));
      [subst centre radius; field|].
    rewrite Hunit. ring.
Qed.

(** X7: [calculate_section_dimensions] reports the floor's length, a width
    equal to the length unless [column_width > 0], and [is_circular] exactly
    when [column_width == 0]; so for a negative [column_width] (and a count
    other than 0) it returns the ring of [rebar_amount_x] positions with
    [is_circular] false. *)
Theorem section_dimensions_fields (math : MathModule) (floor : ExcelReader.FloorData)
    (scale : Q) :
  (forall d,
     calculate_section_dimensions math floor scale = Ret d ->
     sd_length d = ExcelReader.column_length floor
     /\ sd_scale d = scale
     /\ (0 < ExcelReader.column_width floor ->
         sd_width d = ExcelReader.column_width floor)
     /\ (ExcelReader.column_width floor <= 0 ->
         sd_width d = ExcelReader.column_length floor)
     /\ (sd_is_circular d = true <-> ExcelReader.column_width floor == 0))
  /\ (ExcelReader.column_width floor < 0 ->
      ExcelReader.rebar_amount_x floor <> 0%Z ->
      exists d,
        calculate_section_dimensions math floor scale = Ret d
        /\ sd_is_circular d = false
        /\ length (sd_rebar_positions d)
           = Z.to_nat (ExcelReader.rebar_amount_x floor)).
Proof.
  split.
  - intros d H. unfold calculate_section_dimensions in H.
    apply bind_Ret_inv in H as (ps & _ & H). injection H as <-.
    cbn [sd_length sd_scale sd_width sd_is_circular].
    split; [reflexivity|]. split; [reflexivity|]. split; [|split].
    + intros Hw. apply Qltb_lt in Hw. rewrite Hw. reflexivity.
    + intros Hw. apply Qltb_ge in Hw. rewrite Hw. reflexivity.
    + apply Qeq_bool_iff.
  - intros Hw Hn.
    assert (Hle : ExcelReader.column_width floor <= 0) by qlra.
    destruct (circular_section_positions math floor Hle) as [_ Hret].
    destruct (Hret Hn) as (ps & Eps & Hlen & _).
    unfold calculate_section_dimensions. rewrite Eps. cbn [bind].
    eexists. split; [reflexivity|]. cbn [sd_is_circular sd_rebar_positions].
    split; [|exact Hlen].
    destruct (Qeq_bool (ExcelReader.column_width floor) 0) eqn:E; [|reflexivity].
    apply Qeq_bool_iff in E. rewrite E in Hw. exfalso. exact (Qlt_irrefl 0 Hw).
Qed.

End CircularSection.

(** * Further properties of the entity model *)

Section ColumnEntity.
Import ColumnEntities.
Local Open Scope Q_scope.

Lemma fold_entity_levels (fs : list ColumnFloor) (acc : list Q) (cur : Q) :
  fst (fold_left (fun '(levels, current_y) floor =>
                    let current_y := current_y + height floor in
                    (levels ++ [current_y], current_y))
                 fs (acc, cur))
  = acc ++ levels_from cur (map height fs).
Proof.
  revert acc cur. induction fs as [|f fs IH]; intros acc cur; cbn [fold_left map].
  - cbn. rewrite app_nil_r. reflexivity.
  - rewrite IH. cbn [levels_from]. rewrite <- app_assoc. reflexivity.
Qed.

Lemma get_floor_levels_eq (c : Column) :
  get_floor_levels c
  = py (base_point c) :: levels_from (py (base_point c)) (map height (floors c)).
Proof. unfold get_floor_levels. apply (fold_entity_levels _ [py (base_point c)]). Qed.

Lemma get_floor_boundaries_eq (c : Column) :
  get_floor_boundaries c
  = map (fun l => (px (base_point c) - l / 2, px (base_point c) + l / 2))
        (map length (floors c)).
Proof.
  unfold get_floor_boundaries. rewrite map_map.
  exact (fold_left_append
           (fun floor => (px (base_point c) - length floor / 2,
                          px (base_point c) + length floor / 2))
           (floors c) []).
Qed.

(** X8: the entity model and the calculator agree: for a [Column] whose
    floors have the heights and lengths of the [FloorData] records, the levels,
    boundaries and total height of [Column] are those of
    [calculate_column_geometry] at the column's base point. *)
Theorem column_entity_matches_calculator (c : Column)
    (floor_data : list ExcelReader.FloorData) (s : ExcelReader.ColumnSettings) :
  map height (floors c) = map ExcelReader.total_height floor_data ->
  map length (floors c) = map ExcelReader.column_length floor_data ->
  let geometry :=
    ColumnCalculator.calculate_column_geometry floor_data s
      (px (base_point c), py (base_point c), pz (base_point c)) in
  get_floor_levels c = ColumnCalculator.floor_levels geometry
  /\ get_floor_boundaries c = ColumnCalculator.column_boundaries geometry
  /\ get_total_height c = ColumnCalculator.geometry_total_height geometry.
Proof.
  intros Hh Hl geometry. subst geometry.
  rewrite floor_levels_eq, column_boundaries_eq, get_floor_levels_eq,
    get_floor_boundaries_eq, Hh, Hl, map_map.
  split; [reflexivity|]. split; [reflexivity|].
  unfold get_total_height. rewrite Hh.
  unfold ColumnCalculator.calculate_column_geometry.
  destruct (fold_left _ (map ExcelReader.total_height floor_data)
              ([py (base_point c)], py (base_point c))); reflexivity.
Qed.

Lemma levels_from_app (y h : Q) (hs : list Q) :
  levels_from y (hs ++ [h])
  = levels_from y hs ++ [List.last (y :: levels_from y hs) 0 + h].
Proof.
  revert y. induction hs as [|h0 hs IH]; intros y; [reflexivity|].
  cbn [app levels_from]. rewrite IH. reflexivity.
Qed.

(** X9: [add_floor] puts the floor on top: one level more, the last level
    plus the floor's height; one boundary more, that of the floor; and the
    total height grows by the floor's height. *)
Theorem add_floor_on_top (c : Column) (f : ColumnFloor) :
  get_floor_levels (add_floor c f)
  = get_floor_levels c ++ [List.last (get_floor_levels c) 0 + height f]
  /\ get_floor_boundaries (add_floor c f)
     = get_floor_boundaries c
       ++ [(px (base_point c) - length f / 2, px (base_point c) + length f / 2)]
  /\ get_total_height (add_floor c f) = get_total_height c + height f.
Proof.
  rewrite !get_floor_levels_eq, !get_floor_boundaries_eq.
  unfold get_total_height. cbn [add_floor floors base_point].
  rewrite !map_app. cbn [map]. rewrite levels_from_app, fold_left_app.
  split; [reflexivity|]. split; reflexivity.
Qed.

End ColumnEntity.

Section ColumnSectionMethods.
Import ColumnEntities.
Local Open Scope Q_scope.

Lemma fold_section_append (f : ColumnFloor) (sc : Q) (g : Z -> Point3D Q)
    (l : list Z) (ps : list (Point3D Q)) :
  fold_left (fun self i =>
               set_rebar_positions self (rebar_positions self ++ [g i]))
            l {| floor := f; scale := sc; rebar_positions := ps |}
  = {| floor := f; scale := sc; rebar_positions := ps ++ map g l |}.
Proof.
  revert ps. induction l as [|i l IH]; intros ps; cbn [fold_left map].
  - rewrite app_nil_r. reflexivity.
  - change (set_rebar_positions {| floor := f; scale := sc; rebar_positions := ps |}
              (rebar_positions {| floor := f; scale := sc; rebar_positions := ps |}
               ++ [g i]))
      with {| floor := f; scale := sc; rebar_positions := ps ++ [g i] |}.
    rewrite IH, <- app_assoc. reflexivity.
Qed.

(** What [_calculate_rectangular_positions] appends when both counts are at
    least 2, whatever the cover. *)
Lemma rectangular_positions_result (f : ColumnFloor) (sc : Q)
    (ps : list (Point3D Q)) (bars : RebarEntities.RebarLayout Q) (cover : Q) :
  let m := RebarEntities.main_bars_x bars in
  let n := RebarEntities.main_bars_y bars in
  let point := grid_point cover ((length f - 2 * cover) / inject_Z (m - 1))
                 ((width f - 2 * cover) / inject_Z (n - 1)) in
  reinforcement f = Some bars ->
  (2 <= m)%Z -> (2 <= n)%Z ->
  _calculate_rectangular_positions
    {| floor := f; scale := sc; rebar_positions := ps |} cover
  = Ret {| floor := f; scale := sc;
           rebar_positions :=
             ps ++ map (fun ij => mkPoint3D (fst (point ij)) (snd (point ij)) 0)
                       (List.filter (fun ij => negb (is_corner m n ij)) (grid m n)) |}.
Proof.
  intros m n point Hr Hm Hn. unfold _calculate_rectangular_positions.
  cbn [floor]. rewrite Hr. fold m n.
  replace ((m >? 0)%Z && (n >? 0)%Z) with true
    by (symmetry; apply andb_true_iff; split; apply Z.gtb_lt; lia).
  unfold py_div.
  replace (m - 1 =? 0)%Z with false by (symmetry; apply Z.eqb_neq; lia).
  replace (n - 1 =? 0)%Z with false by (symmetry; apply Z.eqb_neq; lia).
  cbn [bind]. f_equal.
  exact (fold_section_positions f sc m n
           (fun ij => mkPoint3D (fst (point ij)) (snd (point ij)) 0)
           (range m) (range n) ps).
Qed.

(** X10: [calculate_rebar_positions] starts from an empty list: on a
    rectangular section ([width] other than 0) with [m >= 2] by [n >= 2] bars it
    returns exactly [m * n - 4] positions whatever the list held before, and
    run again on its result it returns the same section. *)
Theorem calculate_rebar_positions_resets (math : MathModule) (self : ColumnSection)
    (bars : RebarEntities.RebarLayout Q) (cover : Q) :
  let m := RebarEntities.main_bars_x bars in
  let n := RebarEntities.main_bars_y bars in
  ~ width (floor self) == 0 ->
  reinforcement (floor self) = Some bars ->
  (2 <= m)%Z -> (2 <= n)%Z ->
  exists result,
    calculate_rebar_positions math self cover = Ret result
    /\ Z.of_nat (List.length (rebar_positions result)) = (m * n - 4)%Z
    /\ floor result = floor self
    /\ (forall old,
          calculate_rebar_positions math (set_rebar_positions self old) cover
          = Ret result)
    /\ calculate_rebar_positions math result cover = Ret result.
Proof.
  intros m n Hw Hr Hm Hn.
  assert (Hc : is_circular (floor self) = false).
  { unfold is_circular. destruct (Qeq_bool (width (floor self)) 0) eqn:E;
      [|reflexivity]. apply Qeq_bool_iff in E. contradiction. }
  assert (Hrun : forall old,
            calculate_rebar_positions math (set_rebar_positions self old) cover
            = Ret {| floor := floor self; scale := scale self;
                     rebar_positions :=
                       [] ++ map (fun ij =>
                                    mkPoint3D
                                      (fst (grid_point cover
                                              ((length (floor self) - 2 * cover)
                                               / inject_Z (m - 1))
                                              ((width (floor self) - 2 * cover)
                                               / inject_Z (n - 1)) ij))
                                      (snd (grid_point cover
                                              ((length (floor self) - 2 * cover)
                                               / inject_Z (m - 1))
                                              ((width (floor self) - 2 * cover)
                                               / inject_Z (n - 1)) ij)) 0)
                                 (List.filter (fun ij => negb (is_corner m n ij))
                                    (grid m n)) |}).
  { intros old. unfold calculate_rebar_positions.
    cbn [set_rebar_positions floor scale]. rewrite Hc.
    apply (rectangular_positions_result (floor self) (scale self) [] bars cover);
      assumption. }
  eexists. split; [|split; [|split; [|split]]].
  - destruct self as [f sc ps]. exact (Hrun ps).
  - cbn [rebar_positions app]. rewrite length_map.
    apply grid_without_corners_length; assumption.
  - reflexivity.
  - exact Hrun.
  - exact (Hrun _).
Qed.

(** X11: [_calculate_rectangular_positions] without a reinforcement, or
    with a count that is not positive, leaves the section as it is; with a
    reinforcement it raises [ZeroDivisionError] exactly when both counts are
    positive and one of them is 1 (the guard [x_count > 0 and y_count > 0] lets
    a count of 1 through). *)
Theorem rectangular_positions_errors (self : ColumnSection) (cover : Q) :
  (reinforcement (floor self) = None ->
   _calculate_rectangular_positions self cover = Ret self)
  /\ forall bars,
       reinforcement (floor self) = Some bars ->
       let x_count := RebarEntities.main_bars_x bars in
       let y_count := RebarEntities.main_bars_y bars in
       ((x_count <= 0)%Z \/ (y_count <= 0)%Z ->
        _calculate_rectangular_positions self cover = Ret self)
       /\ (_calculate_rectangular_positions self cover = Raise ZeroDivisionError
           <-> (0 < x_count)%Z /\ (0 < y_count)%Z
               /\ (x_count = 1%Z \/ y_count = 1%Z)).
Proof.
  unfold _calculate_rectangular_positions. split.
  - intros ->. reflexivity.
  - intros bars Hr. rewrite Hr. cbv zeta.
    set (x_count := RebarEntities.main_bars_x bars).
    set (y_count := RebarEntities.main_bars_y bars). split.
    + intros H.
      replace ((x_count >? 0)%Z && (y_count >? 0)%Z) with false; [reflexivity|].
      symmetry. apply andb_false_iff.
      destruct H; [left | right];
        match goal with |- (?a >? 0)%Z = false =>
          destruct (Z.gtb_spec a 0); [lia | reflexivity] end.
    + destruct (Z.gtb_spec x_count 0) as [Hx|Hx]; cbn [andb].
      2: { split; [discriminate | lia]. }
      destruct (Z.gtb_spec y_count 0) as [Hy|Hy].
      2: { split; [discriminate | lia]. }
      unfold py_div.
      destruct (x_count - 1 =? 0)%Z eqn:Ex; cbn [bind].
      * apply Z.eqb_eq in Ex. split; [intros _; lia | reflexivity].
      * apply Z.eqb_neq in Ex.
        destruct (y_count - 1 =? 0)%Z eqn:Ey; cbn [bind].
        -- apply Z.eqb_eq in Ey. split; [intros _; lia | reflexivity].
        -- apply Z.eqb_neq in Ey. split; [discriminate | lia].
Qed.

(** X12: [_calculate_circular_positions] without a reinforcement leaves the
    section as it is; with a reinforcement that holds no main bar it raises
    [ZeroDivisionError]; otherwise it appends one position per main bar. *)
Theorem circular_positions_entity (math : MathModule) (self : ColumnSection)
    (cover : Q) :
  (reinforcement (floor self) = None ->
   _calculate_circular_positions math self cover = Ret self)
  /\ forall bars,
       reinforcement (floor self) = Some bars ->
       (RebarEntities.main_bars bars = [] ->
        _calculate_circular_positions math self cover = Raise ZeroDivisionError)
       /\ (RebarEntities.main_bars bars <> [] ->
           exists result,
             _calculate_circular_positions math self cover = Ret result
             /\ floor result = floor self
             /\ List.length (rebar_positions result)
                = (List.length (rebar_positions self)
                   + List.length (RebarEntities.main_bars bars))%nat
             /\ firstn (List.length (rebar_positions self)) (rebar_positions result)
                = rebar_positions self).
Proof.
  unfold _calculate_circular_positions. split.
  - intros ->. reflexivity.
  - intros bars ->. unfold py_div, RebarEntities.main_bars_count. split.
    + intros ->. reflexivity.
    + intros Hne.
      replace (Z.of_nat (List.length (RebarEntities.main_bars bars)) =? 0)%Z
        with false.
      2: { symmetry. apply Z.eqb_neq.
           destruct (RebarEntities.main_bars bars); [contradiction | cbn; lia]. }
      cbn [bind]. destruct self as [f sc ps]. cbn [floor rebar_positions].
      rewrite fold_section_append.
      eexists. split; [reflexivity|]. cbn [floor rebar_positions].
      split; [reflexivity|]. split.
      * rewrite length_app, length_map, range_length. lia.
      * rewrite firstn_app, Nat.sub_diag, firstn_all. cbn [firstn].
        apply app_nil_r.
Qed.

End ColumnSectionMethods.

Section RebarProperties.
Import RebarEntities.
Local Open Scope R_scope.

(** X13: [get_total_weight] reads [math.pi] once per bar: on a layout with
    no main bar and no link it returns 0, and on any other layout it raises
    [NameError], the module never importing [math]. *)
Theorem get_total_weight_without_math (layout : RebarLayout R) (density : R) :
  (main_bars layout ++ links layout = [] ->
   exists w, get_total_weight module_globals layout density = Ret w /\ w = 0)
  /\ (main_bars layout ++ links layout <> [] ->
      get_total_weight module_globals layout density = Raise (NameError "math")).
Proof.
  unfold get_total_weight. split.
  - intros ->. cbn [for_each bind]. eexists. split; [reflexivity | ring].
  - destruct (main_bars layout ++ links layout) as [|bar bars]; [contradiction|].
    intros _. cbn [for_each]. unfold lookup_global.
    destruct (decide ("math" ∈ module_globals)) as [H|H];
      [exfalso; exact (math_unbound H) | reflexivity].
Qed.

Lemma sum_of_squares_zero (a b c : R) :
  a ^ 2 + b ^ 2 + c ^ 2 = 0 -> a = 0 /\ b = 0 /\ c = 0.
Proof.
  intros H.
  pose proof (pow2_ge_0 a). pose proof (pow2_ge_0 b). pose proof (pow2_ge_0 c).
  assert (Ha : a ^ 2 = 0) by rlra.
  assert (Hb : b ^ 2 = 0) by rlra.
  assert (Hc : c ^ 2 = 0) by rlra.
  repeat split; apply Rsqr_0_uniq; unfold Rsqr;
    [rewrite <- Ha | rewrite <- Hb | rewrite <- Hc]; ring.
Qed.

(** X14: the length of a bar is not negative, is the same from either end,
    is 0 exactly when the two end points coincide, and for a bar whose ends
    share their x and z (which [is_vertical] accepts) it is the distance
    between the two y. *)
Theorem rebar_length_properties (bar : Rebar R) :
  0 <= length_of bar
  /\ length_of {| diameter := diameter bar; start_point := end_point bar;
                  end_point := start_point bar; grade := grade bar |}
     = length_of bar
  /\ (length_of bar = 0
      <-> px (start_point bar) = px (end_point bar)
          /\ py (start_point bar) = py (end_point bar)
          /\ pz (start_point bar) = pz (end_point bar))
  /\ (px (start_point bar) = px (end_point bar) ->
      pz (start_point bar) = pz (end_point bar) ->
      is_vertical bar = true
      /\ length_of bar = Rabs (py (end_point bar) - py (start_point bar))).
Proof.
  unfold length_of. split; [apply sqrt_pos|]. split; [|split].
  - cbn [start_point end_point]. f_equal. ring.
  - split.
    + intros H. apply sqrt_eq_0 in H.
      * apply sum_of_squares_zero in H as (Hx & Hy & Hz). repeat split; rlra.
      * pose proof (pow2_ge_0 (px (end_point bar) - px (start_point bar))).
        pose proof (pow2_ge_0 (py (end_point bar) - py (start_point bar))).
        pose proof (pow2_ge_0 (pz (end_point bar) - pz (start_point bar))).
        rlra.
    + intros (Hx & Hy & Hz). rewrite Hx, Hy, Hz.
      replace ((px (end_point bar) - px (end_point bar)) ^ 2
               + (py (end_point bar) - py (end_point bar)) ^ 2
               + (pz (end_point bar) - pz (end_point bar)) ^ 2) with 0 by ring.
      apply sqrt_0.
  - intros Hx Hz. split.
    + unfold is_vertical, Rltb. rewrite Hx, Hz.
      replace (px (end_point bar) - px (end_point bar)) with 0 by ring.
      replace (pz (end_point bar) - pz (end_point bar)) with 0 by ring.
      rewrite Rabs_R0. destruct (Rlt_dec 0 0.001) as [_|H]; [reflexivity|].
      exfalso. apply H. rlra.
    + rewrite Hx, Hz.
      replace ((px (end_point bar) - px (end_point bar)) ^ 2
               + (py (end_point bar) - py (start_point bar)) ^ 2
               + (pz (end_point bar) - pz (end_point bar)) ^ 2)
        with (Rsqr (py (end_point bar) - py (start_point bar)))
        by (unfold Rsqr; ring).
      apply sqrt_Rsqr_abs.
Qed.

Lemma sum_R_app (xs : list R) (x : R) : sum_R (xs ++ [x]) = sum_R xs + x.
Proof. unfold sum_R. rewrite fold_left_app. reflexivity. Qed.

(** X15: the total length of a layout is 0 when it is empty, and adding a
    main bar or a link adds the length of that bar. *)
Theorem get_total_length_additive (layout : RebarLayout R) (bar : Rebar R) :
  get_total_length {| main_bars := []; links := []; main_bars_x := 0;
                      main_bars_y := 0 |} = 0
  /\ get_total_length (add_main_bar layout bar)
     = get_total_length layout + length_of bar
  /\ get_total_length (add_link layout bar)
     = get_total_length layout + length_of bar.
Proof.
  unfold get_total_length. cbn [add_main_bar add_link main_bars links map].
  rewrite !map_app. cbn [map]. rewrite !sum_R_app. unfold sum_R.
  cbn [fold_left]. repeat split; ring.
Qed.

End RebarProperties.

(** * Further properties of the stirrup positions *)

Section SortedPositions.
Import ColumnCalculator.
Local Open Scope Q_scope.

Lemma StronglySorted_app (l1 l2 : list Q) :
  StronglySorted Qlt l1 -> StronglySorted Qlt l2 ->
  (forall a b, In a l1 -> In b l2 -> a < b) ->
  StronglySorted Qlt (l1 ++ l2).
Proof.
  intros H1 H2 H. induction l1 as [|x l1 IH]; [exact H2|].
  apply StronglySorted_inv in H1 as [Hs Hx]. cbn [app]. constructor.
  - apply IH; [exact Hs|]. intros a b Ha Hb. apply H; [right; exact Ha | exact Hb].
  - apply List.Forall_app. split; [exact Hx|].
    apply List.Forall_forall. intros b Hb. apply H; [left; reflexivity | exact Hb].
Qed.

(** The positions one loop appends: from the start, below the limit, each
    above the one before. *)
Lemma positions_loop_sorted (spacing limit : Q) (fuel : nat) (acc : list Q)
    (y : Q) (r : list Q * Q) :
  0 < spacing ->
  while_loop fuel (stirrup_cond limit) (stirrup_body (fun v => v) spacing) (acc, y)
  = Ret r ->
  exists ys,
    fst r = acc ++ ys
    /\ Forall (fun v => y <= v /\ v < limit) ys
    /\ StronglySorted Qlt ys.
Proof.
  intros Hs H.
  apply (while_loop_invariant _ _
           (fun s => exists ys,
                       fst s = acc ++ ys
                       /\ Forall (fun v => y <= v /\ v < limit) ys
                       /\ StronglySorted Qlt ys
                       /\ Forall (fun v => v < snd s) ys
                       /\ y <= snd s)) in H.
  - destruct H as [(ys & E & Hb & Hso & _) _]. eauto.
  - exists []. cbn [fst snd]. rewrite app_nil_r.
    repeat split; try constructor. apply Qle_refl.
  - intros [l v] (ys & El & Hb & Hso & Hlt & Hy) Hc. cbn [fst snd] in *.
    unfold stirrup_cond in Hc. cbn [snd] in Hc. apply Qltb_lt in Hc.
    exists (ys ++ [v]). unfold stirrup_body. cbn [fst snd].
    split; [rewrite El, app_assoc; reflexivity|].
    split; [apply List.Forall_app; split; [exact Hb|]; repeat constructor; assumption|].
    split.
    + apply StronglySorted_app; [exact Hso | repeat constructor |].
      intros a b Ha [<-|[]]. rewrite List.Forall_forall in Hlt. apply Hlt. exact Ha.
    + split; [|qlra]. apply List.Forall_app. split.
      * eapply List.Forall_impl; [|exact Hlt]. intros a Ha. cbn in Ha. qlra.
      * repeat constructor. qlra.
Qed.

(** The positions of the three zones, in increasing order. *)
Lemma three_zone_positions_sorted (fuel : nat) (e m start_y height beam_depth : Q)
    (l : list Q) :
  0 < e -> 0 < m ->
  three_zone_loops fuel (fun y => y) (fun y => y) e m start_y height beam_depth
  = Ret l ->
  StronglySorted Qlt l
  /\ (beam_depth <= height -> Forall (fun y => start_y < y) l)
  /\ (0 <= beam_depth -> beam_depth <= height ->
      Forall (fun y => y < start_y + height) l).
Proof.
  intros He Hm H. unfold three_zone_loops in H.
  apply bind_Ret_inv in H as (r1 & H1 & H).
  apply bind_Ret_inv in H as (r2 & H2 & H).
  apply bind_Ret_inv in H as (r3 & H3 & H). injection H as <-.
  apply positions_loop_sorted in H1 as (bottom & E1 & B1 & S1); [|exact He].
  apply positions_loop_sorted in H2 as (middle & E2 & B2 & S2); [|exact Hm].
  apply positions_loop_sorted in H3 as (top & E3 & B3 & S3); [|exact He].
  cbn [app] in E1. rewrite E3, E2, E1.
  rewrite List.Forall_forall in B1, B2, B3.
  assert (H3rd : (height - beam_depth) / 3 * 3 == height - beam_depth) by field.
  set (third := (height - beam_depth) / 3) in *. clearbody third.
  split; [|split].
  - apply StronglySorted_app; [apply StronglySorted_app | | ]; try assumption.
    + intros a b Ha Hb. specialize (B1 a Ha). specialize (B2 b Hb). cbn in B1, B2. qlra.
    + intros a c Ha Hc. specialize (B3 c Hc). cbn in B3.
      apply in_app_or in Ha as [Ha|Ha].
      * specialize (B1 a Ha). cbn in B1. qlra.
      * specialize (B2 a Ha). cbn in B2. qlra.
  - intros Hb. apply List.Forall_forall. intros a Ha.
    apply in_app_or in Ha as [Ha|Ha]; [apply in_app_or in Ha as [Ha|Ha]|].
    + specialize (B1 a Ha). cbn in B1. qlra.
    + specialize (B2 a Ha). cbn in B2. qlra.
    + specialize (B3 a Ha). cbn in B3. qlra.
  - intros Hb0 Hb. apply List.Forall_forall. intros a Ha.
    apply in_app_or in Ha as [Ha|Ha]; [apply in_app_or in Ha as [Ha|Ha]|].
    + specialize (B1 a Ha). cbn in B1. qlra.
    + specialize (B2 a Ha). cbn in B2. qlra.
    + specialize (B3 a Ha). cbn in B3. qlra.
Qed.

(** X17: with positive spacings the Y-positions of [_calculate_stirrups]
    are strictly increasing along the list, whatever the height and the beam
    depth: no position is emitted twice and the zones do not overlap; with
    [beam_depth <= height] they are all above [base_y], and with
    [0 <= beam_depth] as well, below [base_y + height]. *)
Theorem calculate_stirrups_increasing (floor : ExcelReader.FloorData)
    (base_y height beam_depth : Q) :
  0 < ExcelReader.edge_stirrup_spacing floor ->
  0 < ExcelReader.mid_stirrup_spacing floor ->
  exists fuel l,
    _calculate_stirrups fuel floor base_y height beam_depth = Ret l
    /\ StronglySorted Qlt (map (fun s : Q * zone * Q => fst (fst s)) l)
    /\ (beam_depth <= height ->
        Forall (fun s : Q * zone * Q => base_y < fst (fst s)) l)
    /\ (0 <= beam_depth -> beam_depth <= height ->
        Forall (fun s : Q * zone * Q => fst (fst s) < base_y + height) l).
Proof.
  intros He Hm.
  set (fuel := three_zone_fuel (ExcelReader.edge_stirrup_spacing floor)
                 (ExcelReader.mid_stirrup_spacing floor) base_y height beam_depth).
  destruct (three_zone_loops_terminate fuel
              (fun y => (y, edge, ExcelReader.stirrup_diameter floor))
              (fun y => (y, mid, ExcelReader.stirrup_diameter floor))
              _ _ base_y height beam_depth He Hm (Nat.le_refl _)) as [l Hl].
  rewrite <- calculate_stirrups_three_zones in Hl.
  exists fuel, l. split; [exact Hl|].
  pose proof (calculate_stirrups_positions fuel floor base_y height beam_depth) as Hp.
  rewrite Hl in Hp. cbn [outcome_map bind] in Hp. symmetry in Hp.
  apply three_zone_positions_sorted in Hp as (Hs & Hlo & Hhi); [|exact He|exact Hm].
  split; [exact Hs|]. split.
  - intros Hb. specialize (Hlo Hb). rewrite List.Forall_map in Hlo. exact Hlo.
  - intros Hb0 Hb. specialize (Hhi Hb0 Hb). rewrite List.Forall_map in Hhi. exact Hhi.
Qed.

End SortedPositions.

(** * StirrupLayout and StirrupPattern *)

Section StirrupLayoutProperties.
Import RebarEntities.
Local Open Scope Q_scope.

(** [StirrupLayout.calculate_positions] is the three-zone loops on plain
    Y-coordinates. *)
Lemma calculate_positions_three_zones (fuel : nat) (self : StirrupLayout)
    (start_y height beam_depth : Q) :
  calculate_positions fuel self start_y height beam_depth
  = outcome_map (set_positions self)
      (three_zone_loops fuel (fun y => y) (fun y => y)
         (sl_edge_spacing self) (sl_mid_spacing self) start_y height beam_depth).
Proof.
  unfold calculate_positions, three_zone_loops, outcome_map.
  change positions_cond with (@ColumnCalculator.stirrup_cond Q).
  change positions_body with (@ColumnCalculator.stirrup_body Q (fun y => y)).
  destruct (while_loop fuel _ _ _) as [[l1 y1]| |]; simpl; try reflexivity.
  destruct (while_loop fuel _ _ _) as [[l2 y2]| |]; simpl; try reflexivity.
  destruct (while_loop fuel _ _ _) as [[l3 y3]| |]; simpl; reflexivity.
Qed.

(** X16: for a stirrup layout whose edge and mid spacings are those of a
    floor, both positive, [StirrupLayout.calculate_positions] returns, and
    the positions it leaves in the layout are the Y-coordinates of the
    stirrups [ColumnCalculator._calculate_stirrups] gives for that floor, in
    the same order; the positions the layout held before are discarded, and
    its diameter and spacings are unchanged. *)
Theorem calculate_positions_matches_calculator (self : StirrupLayout)
    (floor : ExcelReader.FloorData) (start_y height beam_depth : Q) :
  sl_edge_spacing self = ExcelReader.edge_stirrup_spacing floor ->
  sl_mid_spacing self = ExcelReader.mid_stirrup_spacing floor ->
  0 < sl_edge_spacing self -> 0 < sl_mid_spacing self ->
  exists fuel self' l,
    calculate_positions fuel self start_y height beam_depth = Ret self'
    /\ ColumnCalculator._calculate_stirrups fuel floor start_y height beam_depth = Ret l
    /\ sl_positions self' = map (fun s : Q * ColumnCalculator.zone * Q => fst (fst s)) l
    /\ sl_diameter self' = sl_diameter self
    /\ sl_edge_spacing self' = sl_edge_spacing self
    /\ sl_mid_spacing self' = sl_mid_spacing self
    /\ forall fuel' r,
         calculate_positions fuel' self start_y height beam_depth = Ret r -> r = self'.
Proof.
  intros Ee Em He Hm.
  set (fuel := three_zone_fuel (sl_edge_spacing self) (sl_mid_spacing self)
                 start_y height beam_depth).
  destruct (three_zone_loops_terminate fuel
              (fun y => (y, ColumnCalculator.edge, ExcelReader.stirrup_diameter floor))
              (fun y => (y, ColumnCalculator.mid, ExcelReader.stirrup_diameter floor))
              _ _ start_y height beam_depth He Hm (Nat.le_refl _)) as [l Hl].
  assert (Hc : ColumnCalculator._calculate_stirrups fuel floor start_y height beam_depth
               = Ret l).
  { rewrite calculate_stirrups_three_zones, <- Ee, <- Em. exact Hl. }
  pose proof (calculate_stirrups_positions fuel floor start_y height beam_depth) as Hp.
  rewrite Hc, <- Ee, <- Em in Hp. cbn [outcome_map bind] in Hp. symmetry in Hp.
  exists fuel,
    (set_positions self (map (fun s : Q * ColumnCalculator.zone * Q => fst (fst s)) l)),
    l.
  split; [rewrite calculate_positions_three_zones, Hp; reflexivity|].
  split; [exact Hc|]. repeat (split; [reflexivity|]).
  intros fuel' r Hr. rewrite calculate_positions_three_zones in Hr.
  apply outcome_map_Ret_inv in Hr as (l' & Hl' & ->).
  rewrite (three_zone_loops_deterministic _ _ _ _ _ _ _ _ _ _ _ Hl' Hp). reflexivity.
Qed.

(** X18: [StirrupLayout.get_spacing_at_height] gives the mid spacing exactly
    for the heights from one third (included) to two thirds (excluded) of the
    full height above [start_y], and the edge spacing for every other height,
    those below [start_y] or above [start_y + height] included. *)
Theorem get_spacing_at_height_zones (self : StirrupLayout) (y start_y height : Q) :
  (height / 3 <= y - start_y /\ y - start_y < 2 * (height / 3) ->
   get_spacing_at_height self y start_y height = sl_mid_spacing self)
  /\ (y - start_y < height / 3 \/ 2 * (height / 3) <= y - start_y ->
      get_spacing_at_height self y start_y height = sl_edge_spacing self).
Proof.
  unfold get_spacing_at_height.
  assert (H3 : height / 3 * 3 == height) by field.
  set (t := height / 3) in *. clearbody t.
  destruct (Qle_bool (height - (y - start_y)) t) eqn:E1;
    [apply Qle_bool_iff in E1|];
    (destruct (Qle_bool (height - (y - start_y)) (2 * t)) eqn:E2;
      [apply Qle_bool_iff in E2|]).
  - split; [intros [Ha Hb]; exfalso; qlra | reflexivity].
  - split; [intros [Ha Hb]; exfalso; qlra | reflexivity].
  - split; [reflexivity|]. intros [Ha|Ha]; exfalso.
    + qlra.
    + assert (Hle : height - (y - start_y) <= t) by qlra.
      apply Qle_bool_iff in Hle. congruence.
  - split; [|reflexivity]. intros [Ha Hb]. exfalso.
    assert (Hle : height - (y - start_y) <= 2 * t) by qlra.
    apply Qle_bool_iff in Hle. congruence.
Qed.

End StirrupLayoutProperties.

Section StirrupPatternProperties.
Import StirrupEntities.
Local Open Scope Q_scope.

Lemma filter_all {A : Type} (f : A -> bool) (l : list A) :
  Forall (fun a => f a = true) l -> List.filter f l = l.
Proof.
  induction 1 as [|a l Ha _ IH]; [reflexivity|].
  cbn [List.filter]. rewrite Ha, IH. reflexivity.
Qed.

(** X19: with positive spacings and a beam depth between zero and the
    height, [generate_rectangular_pattern] returns a pattern all of whose
    stirrups [get_stirrups_in_range] finds between [start_y] and
    [start_y + height]: none is generated outside the floor. Their
    elevations are strictly increasing along the list. *)
Theorem generated_pattern_in_range (p : StirrupPattern)
    (start_y height beam_depth width column_width center_x : Q) :
  0 < edge_spacing p -> 0 < mid_spacing p ->
  0 <= beam_depth -> beam_depth <= height ->
  exists fuel p',
    generate_rectangular_pattern fuel p start_y height beam_depth width column_width
      center_x = Ret p'
    /\ get_stirrups_in_range p' start_y (start_y + height) = stirrups p'
    /\ StronglySorted Qlt (map elevation (stirrups p')).
Proof.
  intros He Hm Hb0 Hb.
  set (fuel := three_zone_fuel (edge_spacing p) (mid_spacing p) start_y height
                 beam_depth).
  destruct (three_zone_loops_terminate fuel
              (fun v => RectangularStirrup (pattern_diameter p) v width column_width
                          center_x)
              (fun v => RectangularStirrup (pattern_diameter p) v width column_width
                          center_x)
              _ _ start_y height beam_depth He Hm (Nat.le_refl _)) as [l Hl].
  exists fuel, (set_stirrups p l).
  assert (Hg : generate_rectangular_pattern fuel p start_y height beam_depth width
                 column_width center_x = Ret (set_stirrups p l)).
  { rewrite generate_as_three_zones, Hl. reflexivity. }
  split; [exact Hg|].
  pose proof (generate_elevations fuel p start_y height beam_depth width column_width
                center_x) as Hp.
  rewrite Hg in Hp. cbn [outcome_map bind stirrups set_stirrups] in Hp. symmetry in Hp.
  apply three_zone_positions_sorted in Hp as (Hs & Hlo & Hhi); [|exact He|exact Hm].
  split; [|exact Hs].
  specialize (Hlo Hb). specialize (Hhi Hb0 Hb).
  rewrite List.Forall_map in Hlo, Hhi.
  unfold get_stirrups_in_range. cbn [stirrups set_stirrups].
  apply filter_all. rewrite List.Forall_forall in *. intros s Hin.
  specialize (Hlo s Hin). specialize (Hhi s Hin). cbn beta in Hlo, Hhi.
  apply andb_true_intro. split; apply Qle_bool_iff; qlra.
Qed.

End StirrupPatternProperties.

(** * DataValidator: how the reports are put together *)

Section ValidatorMethods.
Import Validation ValidationInputs.
Local Open Scope Q_scope.

(** The methods on an instance whose limits are those [__init__] sets. *)
Variable self : DataValidator.
Hypothesis Hlimits : limits self = limits __init__.

(** The loop over the floors appends, floor by floor, the errors and the
    warnings of each. *)
Lemma validate_steps_reports (items : list (nat * gmap string value))
    (acc r : list message * list message) :
  for_each items (validate_floor_step self) acc = Ret r ->
  exists reports : list (list message * list message),
    Forall2 (fun (item : nat * gmap string value)
                 (rep : list message * list message) =>
               _validate_floor self (snd item) (fst item) = Ret (fst rep)
               /\ _check_floor_warnings self (snd item) (fst item) = Ret (snd rep))
            items reports
    /\ fst r = fst acc ++ concat (map fst reports)
    /\ snd r = snd acc ++ concat (map snd reports).
Proof.
  revert acc. induction items as [|[i f] items IH]; intros [errs warns] H;
    cbn [for_each] in H.
  - injection H as <-. exists []. cbn. rewrite !app_nil_r. repeat split. constructor.
  - apply bind_Ret_inv in H as ([errs1 warns1] & H1 & H).
    unfold validate_floor_step in H1.
    apply bind_Ret_inv in H1 as (fe & Hfe & H1).
    apply bind_Ret_inv in H1 as (fw & Hfw & H1).
    injection H1 as <- <-.
    apply IH in H as (reports & HF & He & Hw). cbn [fst snd] in He, Hw.
    exists ((fe, fw) :: reports). cbn [map concat fst snd].
    split; [constructor; [split; assumption | exact HF]|].
    rewrite He, Hw, <- !app_assoc. split; reflexivity.
Qed.

(** The report of [validate_column_data] on an instance: the errors of the
    settings, then those of the floors in order; the warnings of the floors. *)
Lemma column_data_reports (data : column_data)
    (r : validation_result) :
  validate_column_data self data = Ret r ->
  exists (se : list message) (reports : list (list message * list message)),
    _validate_settings self (default ∅ (data_settings data)) = Ret se
    /\ Forall2 (fun (item : nat * gmap string value)
                    (rep : list message * list message) =>
                  _validate_floor self (snd item) (fst item) = Ret (fst rep)
                  /\ _check_floor_warnings self (snd item) (fst item) = Ret (snd rep))
               (enumerate (default [] (data_floors data))) reports
    /\ errors r = se ++ concat (map fst reports)
    /\ warnings r = concat (map snd reports)
    /\ (is_valid r = true <-> errors r = []).
Proof.
  intros H. unfold validate_column_data in H.
  apply bind_Ret_inv in H as (se & Hse & H).
  apply bind_Ret_inv in H as ([errs warns] & Hloop & H).
  injection H as <-. cbn [errors warnings is_valid].
  apply validate_steps_reports in Hloop as (reports & HF & He & Hw).
  cbn [fst snd app] in He, Hw.
  exists se, reports. repeat split; try assumption.
  - intros Hv. apply Nat.eqb_eq in Hv. destruct errs; [reflexivity|discriminate].
  - intros ->. reflexivity.
Qed.

Lemma limits_floor_height : limits self !! "floor_height" = Some (2000, 50000).
Proof. rewrite Hlimits. reflexivity. Qed.

Lemma limits_concrete_cover : limits self !! "concrete_cover" = Some (20, 100).
Proof. rewrite Hlimits. reflexivity. Qed.

(** A range check on a field that is present raises exactly when the field
    holds no number; otherwise the list grows by at most the one message. *)
Lemma check_range_cases (d : gmap string value) (field kind : string) (lo hi : Q)
    (msg : value -> message) (errs : list message) :
  limits self !! kind = Some (lo, hi) ->
  match d !! field with
  | None => check_range self d field kind msg errs = Ret errs
  | Some (VNum q) =>
      check_range self d field kind msg errs
      = Ret (if Qle_bool lo q && Qle_bool q hi then errs else errs ++ [msg (VNum q)])
  | Some _ => check_range self d field kind msg errs = Raise TypeError
  end.
Proof.
  intros Hl. unfold check_range, _is_in_range. rewrite Hl.
  destruct (d !! field) as [[|q|s]|]; reflexivity.
Qed.

(** On an instance, [_validate_settings] raises [TypeError] when 'beam_depth'
    or 'concrete_cover' holds something that is no number, and returns a list
    otherwise. *)
Lemma settings_type_error (settings : gmap string value) :
  (well_typed_settings settings = false
   <-> _validate_settings self settings = Raise TypeError)
  /\ (well_typed_settings settings = true
      <-> exists l, _validate_settings self settings = Ret l)
  /\ (well_typed_settings settings = false ->
      forall floors,
        validate_column_data self
          {| data_settings := Some settings; data_floors := floors |}
        = Raise TypeError).
Proof.
  assert (Hcases :
    if well_typed_settings settings
    then exists l, _validate_settings self settings = Ret l
    else _validate_settings self settings = Raise TypeError).
  { unfold well_typed_settings, is_number_or_absent, _validate_settings.
    cbn [forallb].
    set (errs := fold_left _ _ _). clearbody errs.
    pose proof (check_range_cases settings "beam_depth" "floor_height" _ _
                  BeamDepthOutOfRange errs limits_floor_height) as H1.
    destruct (settings !! "beam_depth") as [[|b|s]|]; rewrite H1; cbn [bind andb];
      try reflexivity.
    - match goal with
      | |- context [check_range self settings "concrete_cover" _ _ ?e] =>
          pose proof (check_range_cases settings "concrete_cover" "concrete_cover" _ _
                        ConcreteCoverOutOfRange e limits_concrete_cover) as H2
      end.
      destruct (settings !! "concrete_cover") as [[|c|s]|]; rewrite H2; cbn [bind andb];
        try reflexivity; eauto.
    - pose proof (check_range_cases settings "concrete_cover" "concrete_cover" _ _
                    ConcreteCoverOutOfRange errs limits_concrete_cover) as H2.
      destruct (settings !! "concrete_cover") as [[|c|s]|]; rewrite H2; cbn [bind andb];
        try reflexivity; eauto. }
  destruct (well_typed_settings settings) eqn:E.
  - destruct Hcases as [l Hl]. split; [|split].
    + split; [discriminate | intros H; rewrite H in Hl; discriminate].
    + split; [eauto | reflexivity].
    + discriminate.
  - split; [|split].
    + split; [intros _; exact Hcases | reflexivity].
    + split; [discriminate | intros [l Hl]; rewrite Hl in Hcases; discriminate].
    + intros _ floors. unfold validate_column_data.
      cbn [data_settings default]. unfold Datatypes.id.
      rewrite Hcases. reflexivity.
Qed.

(** The loop over the required fields appends one message per field that is
    missing, in the order of the fields. *)
Lemma missing_fields_fold (d : gmap string value) (mk : string -> message)
    (fields : list string) (errs : list message) :
  fold_left (fun errors field =>
               if missing d field then errors ++ [mk field] else errors)
            fields errs
  = errs ++ map mk (List.filter (missing d) fields).
Proof.
  revert errs. induction fields as [|f fields IH]; intros errs;
    cbn [fold_left List.filter map].
  - rewrite app_nil_r. reflexivity.
  - rewrite IH. destruct (missing d f); cbn [map].
    + rewrite <- app_assoc. reflexivity.
    + reflexivity.
Qed.

(** A range check that leaves the empty list started from it, on a field
    that is absent or holds a number within the limits. *)
Lemma check_range_nil (d : gmap string value) (field kind : string) (lo hi : Q)
    (msg : value -> message) (errs : list message) :
  limits self !! kind = Some (lo, hi) ->
  check_range self d field kind msg errs = Ret [] ->
  errs = []
  /\ (d !! field = None
      \/ exists q, d !! field = Some (VNum q) /\ lo <= q /\ q <= hi).
Proof.
  intros Hl H.
  pose proof (check_range_cases d field kind lo hi msg errs Hl) as Hc.
  destruct (d !! field) as [[|q|s]|]; rewrite Hc in H; try discriminate.
  - injection H as H.
    destruct (Qle_bool lo q && Qle_bool q hi) eqn:E;
      [|destruct errs; discriminate].
    apply andb_true_iff in E as [E1 E2]. apply Qle_bool_iff in E1, E2.
    split; [exact H|]. right. exists q. repeat split; assumption.
  - injection H as H. split; [exact H | left; reflexivity].
Qed.

(** The settings for which [_validate_settings] returns the empty list. *)
Lemma settings_accepted (settings : gmap string value) :
  _validate_settings self settings = Ret []
  <-> (Forall (fun field => missing settings field = false)
         [ "beam_depth"; "beam_extension"; "concrete_cover"; "scale";
           "spacing_between_columns" ]%string
       /\ exists b c,
            settings !! "beam_depth" = Some (VNum b)
            /\ settings !! "concrete_cover" = Some (VNum c)
            /\ 2000 <= b /\ b <= 50000 /\ 20 <= c /\ c <= 100).
Proof.
  unfold _validate_settings. rewrite missing_fields_fold. cbn [app].
  set (fields := [ "beam_depth"; "beam_extension"; "concrete_cover"; "scale";
                   "spacing_between_columns" ]%string).
  assert (Hfilter : forall fs, List.filter (missing settings) fs = []
                    <-> Forall (fun field => missing settings field = false) fs).
  { induction fs as [|f fs IH]; cbn [List.filter].
    - split; [constructor | reflexivity].
    - destruct (missing settings f) eqn:E.
      + split; [discriminate|]. intros H. apply List.Forall_cons_iff in H as [H _].
        congruence.
      + rewrite IH. split; [intros H; constructor; assumption|].
        intros H. apply List.Forall_cons_iff in H as [_ H]. exact H. }
  split.
  - intros H.
    apply bind_Ret_inv in H as (l1 & E1 & H).
    apply bind_Ret_inv in H as (l2 & E2 & H). injection H as ->.
    apply (check_range_nil _ _ _ _ _ _ _ limits_concrete_cover) in E2 as [-> Hc].
    apply (check_range_nil _ _ _ _ _ _ _ limits_floor_height) in E1 as [Hm Hb].
    assert (Hall : Forall (fun field => missing settings field = false) fields).
    { apply Hfilter. destruct (List.filter (missing settings) fields);
        [reflexivity | discriminate]. }
    split; [exact Hall|].
    assert (Mb : missing settings "beam_depth" = false).
    { rewrite List.Forall_forall in Hall. apply Hall. subst fields. simpl. tauto. }
    assert (Mc : missing settings "concrete_cover" = false).
    { rewrite List.Forall_forall in Hall. apply Hall. subst fields. simpl. tauto. }
    unfold missing in Mb, Mc.
    destruct Hb as [Hb|(b & Hb & B1 & B2)]; [rewrite Hb in Mb; discriminate|].
    destruct Hc as [Hc|(c & Hc & C1 & C2)]; [rewrite Hc in Mc; discriminate|].
    exists b, c. repeat split; assumption.
  - intros (Hall & b & c & Hb & Hc & B1 & B2 & C1 & C2).
    apply Hfilter in Hall. rewrite Hall. cbn [map].
    rewrite (check_range_ok self _ _ _ _ _ _ _ _ Hb limits_floor_height B1 B2). cbn [bind].
    rewrite (check_range_ok self _ _ _ _ _ _ _ _ Hc limits_concrete_cover C1 C2). reflexivity.
Qed.

(** A floor that misses a required field has the message for it among its
    errors. *)
Lemma validate_floor_missing (floor : gmap string value) (floor_index : nat)
    (field : string) (l : list message) :
  In field [ "total_height"; "column_length"; "floor_name"; "rebar_amount";
             "rebar_diameter" ]%string ->
  missing floor field = true ->
  _validate_floor self floor floor_index = Ret l ->
  In (FloorMissing (Datatypes.S floor_index) field) l.
Proof.
  intros Hin Hm H. unfold _validate_floor in H. rewrite missing_fields_fold in H.
  cbn [app] in H.
  set (errs := map _ _) in H.
  assert (He : In (FloorMissing (Datatypes.S floor_index) field) errs).
  { subst errs. apply in_map. apply filter_In. split; assumption. }
  clearbody errs.
  assert (Hgrow : forall d f k msg e l',
             check_range self d f k msg e = Ret l' ->
             In (FloorMissing (Datatypes.S floor_index) field) e ->
             In (FloorMissing (Datatypes.S floor_index) field) l').
  { intros d f k msg e l' Hc Hi. unfold check_range in Hc.
    destruct (d !! f); [|injection Hc as <-; exact Hi].
    apply bind_Ret_inv in Hc as (ok & _ & Hc). injection Hc as <-.
    destruct ok; [exact Hi | apply in_or_app; left; exact Hi]. }
  apply bind_Ret_inv in H as (l1 & E1 & H). apply Hgrow in E1; [|exact He].
  apply bind_Ret_inv in H as (l2 & E2 & H). apply Hgrow in E2; [|exact E1].
  apply bind_Ret_inv in H as (l3 & E3 & H).
  assert (I3 : In (FloorMissing (Datatypes.S floor_index) field) l3).
  { destruct (floor !! "column_width"); [|injection E3 as <-; exact E2].
    apply bind_Ret_inv in E3 as (pos & _ & E3).
    destruct pos; [apply Hgrow in E3; assumption | injection E3 as <-; exact E2]. }
  apply bind_Ret_inv in H as (l4 & E4 & H). apply Hgrow in E4; [|exact I3].
  apply bind_Ret_inv in H as (l5 & E5 & H). apply Hgrow in E5; [|exact E4].
  destruct (floor !! "rebar_amount"); [|injection H as <-; exact E5].
  destruct (floor !! "rebar_amount_x"); [|injection H as <-; exact E5].
  destruct (floor !! "rebar_amount_y"); [|injection H as <-; exact E5].
  apply bind_Ret_inv in H as (e & _ & H). injection H as <-.
  destruct (negb _); [apply in_or_app; left; exact E5 | exact E5].
Qed.

(** On an instance, what is missing is among the errors. *)
Lemma missing_reported (data : column_data) (r : validation_result) :
  validate_column_data self data = Ret r ->
  (forall field,
     In field [ "beam_depth"; "beam_extension"; "concrete_cover"; "scale";
                "spacing_between_columns" ]%string ->
     missing (default ∅ (data_settings data)) field = true ->
     In (MissingSetting field) (errors r) /\ is_valid r = false)
  /\ (forall j floor field,
        nth_error (default [] (data_floors data)) j = Some floor ->
        In field [ "total_height"; "column_length"; "floor_name"; "rebar_amount";
                   "rebar_diameter" ]%string ->
        missing floor field = true ->
        In (FloorMissing (Datatypes.S j) field) (errors r) /\ is_valid r = false).
Proof.
  intros H. unfold validate_column_data in H.
  apply bind_Ret_inv in H as (se & Hse & H).
  apply bind_Ret_inv in H as ([errs warns] & Hloop & H).
  injection H as <-. cbn [errors is_valid].
  apply validate_steps_errors in Hloop as [Hincl Hfloors]. cbn [fst app] in Hincl.
  assert (Hinvalid : forall m, In m errs -> Nat.eqb (List.length errs) 0 = false).
  { intros m Hm. destruct errs; [destruct Hm | reflexivity]. }
  split.
  - intros field Hin Hm.
    assert (Hi : In (MissingSetting field) errs).
    { apply Hincl. unfold _validate_settings in Hse.
      rewrite missing_fields_fold in Hse. cbn [app] in Hse.
      set (e0 := map _ _) in Hse.
      assert (He : In (MissingSetting field) e0).
      { subst e0. apply in_map. apply filter_In. split; assumption. }
      clearbody e0.
      assert (Hgrow : forall d f k msg e l',
                 check_range self d f k msg e = Ret l' ->
                 In (MissingSetting field) e -> In (MissingSetting field) l').
      { intros d f k msg e l' Hc Hi. unfold check_range in Hc.
        destruct (d !! f); [|injection Hc as <-; exact Hi].
        apply bind_Ret_inv in Hc as (ok & _ & Hc). injection Hc as <-.
        destruct ok; [exact Hi | apply in_or_app; left; exact Hi]. }
      apply bind_Ret_inv in Hse as (l1 & E1 & Hse). apply Hgrow in E1; [|exact He].
      apply bind_Ret_inv in Hse as (l2 & E2 & Hse). apply Hgrow in E2; [|exact E1].
      injection Hse as <-. exact E2. }
    split; [exact Hi | exact (Hinvalid _ Hi)].
  - intros j floor field Hj Hin Hm.
    destruct (Hfloors j floor Hj) as (fe & Hfe & Hfe_incl).
    cbn [Nat.add] in Hfe.
    assert (Hi : In (FloorMissing (Datatypes.S j) field) errs).
    { apply Hfe_incl. exact (validate_floor_missing _ _ _ _ Hin Hm Hfe). }
    split; [exact Hi | exact (Hinvalid _ Hi)].
Qed.

End ValidatorMethods.

Section ValidatorProperties.
Import Validation ValidationInputs.
Local Open Scope Q_scope.

(** X20: a program that makes a [DataValidator] and calls
    [validate_column_data] gets a result only where annotations are deferred
    (elsewhere the import raises [NameError] for [List]); the error list is
    then the errors of [_validate_settings] followed by the errors of
    [_validate_floor] for each floor in order (floor [i] checked with index
    [i]), the warning list is the warnings of [_check_floor_warnings] for each
    floor in order, and [is_valid] holds exactly when the error list is empty:
    warnings never make the data invalid. *)
Theorem validate_column_data_composition (evaluation : annotation_evaluation)
    (data : column_data) (r : validation_result) :
  call evaluation (fun self => validate_column_data self data) = Ret r ->
  evaluation = Deferred
  /\ exists (self : DataValidator) (se : list message)
            (reports : list (list message * list message)),
       new_DataValidator evaluation = Ret self
       /\ _validate_settings self (default ∅ (data_settings data)) = Ret se
       /\ Forall2 (fun (item : nat * gmap string value)
                       (rep : list message * list message) =>
                     _validate_floor self (snd item) (fst item) = Ret (fst rep)
                     /\ _check_floor_warnings self (snd item) (fst item)
                        = Ret (snd rep))
                  (enumerate (default [] (data_floors data))) reports
       /\ errors r = se ++ concat (map fst reports)
       /\ warnings r = concat (map snd reports)
       /\ (is_valid r = true <-> errors r = []).
Proof.
  intros H. apply call_Ret_inv in H as [-> H]. split; [reflexivity|].
  destruct (column_data_reports __init__ data r H) as (se & reports & Hrest).
  exists __init__, se, reports. split; [reflexivity | exact Hrest].
Qed.

(** X21: a program that makes a [DataValidator] and calls
    [_validate_settings] gets [NameError] for [List] where annotations are
    evaluated with the [def]; where they are deferred it gets [TypeError]
    exactly when 'beam_depth' or 'concrete_cover' is present and holds
    something that is no number ([None] included, although the loop over the
    required fields has just noted it as missing), and a list otherwise; in
    the [TypeError] case [validate_column_data] raises [TypeError] as well,
    whatever the floors, instead of reporting the setting. *)
Theorem validate_settings_type_error (settings : gmap string value) :
  call AtDefinition (fun self => _validate_settings self settings)
  = Raise (NameError "List")
  /\ (forall evaluation,
        call evaluation (fun self => _validate_settings self settings)
        = Raise TypeError
        <-> evaluation = Deferred /\ well_typed_settings settings = false)
  /\ (forall evaluation,
        (exists l,
           call evaluation (fun self => _validate_settings self settings) = Ret l)
        <-> evaluation = Deferred /\ well_typed_settings settings = true)
  /\ (well_typed_settings settings = false ->
      forall floors,
        call Deferred
          (fun self =>
             validate_column_data self
               {| data_settings := Some settings; data_floors := floors |})
        = Raise TypeError).
Proof.
  destruct (settings_type_error __init__ eq_refl settings) as (Hraise & Hret & Hdata).
  split; [apply call_at_definition|]. split; [|split].
  - intros evaluation. destruct evaluation.
    + rewrite call_at_definition. split; [discriminate | intros [E _]; discriminate].
    + rewrite call_deferred. split.
      * intros H. split; [reflexivity | apply Hraise; exact H].
      * intros [_ H]. apply Hraise. exact H.
  - intros evaluation. destruct evaluation.
    + rewrite call_at_definition.
      split; [intros [l H]; discriminate | intros [E _]; discriminate].
    + rewrite call_deferred. split.
      * intros H. split; [reflexivity | apply Hret; exact H].
      * intros [_ H]. apply Hret. exact H.
  - intros H floors. rewrite call_deferred. apply Hdata. exact H.
Qed.

(** X22: a program that makes a [DataValidator] and calls
    [_validate_settings] gets the empty list exactly when annotations are
    deferred and the settings hold a value other than [None] for each of the
    five required fields, a number from 2000 to 50000 for 'beam_depth' (it is
    checked against the limits of a floor height) and a number from 20 to 100
    for 'concrete_cover'. *)
Theorem validate_settings_accepts (evaluation : annotation_evaluation)
    (settings : gmap string value) :
  call evaluation (fun self => _validate_settings self settings) = Ret []
  <-> (evaluation = Deferred
       /\ Forall (fun field => missing settings field = false)
            [ "beam_depth"; "beam_extension"; "concrete_cover"; "scale";
              "spacing_between_columns" ]%string
       /\ exists b c,
            settings !! "beam_depth" = Some (VNum b)
            /\ settings !! "concrete_cover" = Some (VNum c)
            /\ 2000 <= b /\ b <= 50000 /\ 20 <= c /\ c <= 100).
Proof.
  pose proof (settings_accepted __init__ eq_refl settings) as Hacc.
  destruct evaluation.
  - rewrite call_at_definition. split; [discriminate | intros [E _]; discriminate].
  - rewrite call_deferred. split.
    + intros H. split; [reflexivity | apply Hacc; exact H].
    + intros [_ H]. apply Hacc. exact H.
Qed.

(** X23: when a program that makes a [DataValidator] gets a result from
    [validate_column_data] (which needs deferred annotations), every required
    setting that is absent or [None] is reported as missing, and so is every
    required field that is absent or [None] in a floor, with the number of the
    floor counted from 1; in either case the data is not valid. *)
Theorem missing_fields_reported (evaluation : annotation_evaluation)
    (data : column_data) (r : validation_result) :
  call evaluation (fun self => validate_column_data self data) = Ret r ->
  (forall field,
     In field [ "beam_depth"; "beam_extension"; "concrete_cover"; "scale";
                "spacing_between_columns" ]%string ->
     missing (default ∅ (data_settings data)) field = true ->
     In (MissingSetting field) (errors r) /\ is_valid r = false)
  /\ (forall j floor field,
        nth_error (default [] (data_floors data)) j = Some floor ->
        In field [ "total_height"; "column_length"; "floor_name"; "rebar_amount";
                   "rebar_diameter" ]%string ->
        missing floor field = true ->
        In (FloorMissing (Datatypes.S j) field) (errors r) /\ is_valid r = false).
Proof.
  intros H. apply call_Ret_inv in H as [_ H].
  exact (missing_reported __init__ data r H).
Qed.

End ValidatorProperties.

(** * GeometryUtils *)

Section GeometryProperties.
Import GeometryUtils.
Local Open Scope Q_scope.

Lemma float_div_nonzero (a b : Q) : ~ b == 0 -> float_div a b = Ret (a / b).
Proof.
  intros Hb. unfold float_div. destruct (Qeq_bool b 0) eqn:E; [|reflexivity].
  apply Qeq_bool_eq in E. contradiction.
Qed.

(** X24: [line_intersection] never divides by zero: it returns [None] when
    the absolute value of the determinant is below 1e-10, and otherwise a
    point that satisfies the equations of both lines and has the [z] of the
    first point of the first line. *)
Theorem line_intersection_on_both_lines (p1 p2 p3 p4 : Point3D Q) :
  let a1 := py p2 - py p1 in
  let b1 := px p1 - px p2 in
  let c1 := a1 * px p1 + b1 * py p1 in
  let a2 := py p4 - py p3 in
  let b2 := px p3 - px p4 in
  let c2 := a2 * px p3 + b2 * py p3 in
  let determinant := a1 * b2 - a2 * b1 in
  (Qabs determinant < parallel_tolerance ->
   line_intersection (p1, p2) (p3, p4) = Ret None)
  /\ (parallel_tolerance <= Qabs determinant ->
      exists p,
        line_intersection (p1, p2) (p3, p4) = Ret (Some p)
        /\ a1 * px p + b1 * py p == c1
        /\ a2 * px p + b2 * py p == c2
        /\ pz p = pz p1).
Proof.
  intros a1 b1 c1 a2 b2 c2 determinant.
  unfold line_intersection. fold a1 b1. fold c1. fold a2 b2. fold c2. fold determinant.
  split.
  - intros H. apply Qltb_lt in H. rewrite H. reflexivity.
  - intros H.
    assert (Hnz : ~ determinant == 0).
    { intros H0. rewrite H0 in H. unfold parallel_tolerance in H.
      revert H. apply Qlt_not_le. reflexivity. }
    apply Qltb_ge in H. rewrite H.
    rewrite !float_div_nonzero by exact Hnz. cbn [bind].
    eexists. split; [reflexivity|]. cbn [px py pz].
    split; [|split]; [| |reflexivity].
    + subst determinant. subst c1. field. exact Hnz.
    + subst determinant. subst c2. field. exact Hnz.
Qed.

(** One step of the ray casting returns: the division is made only when the
    two ends of the edge are on different sides of the ray. *)
Lemma crossing_step_returns (x y : Q) (s : bool * Point3D Q) (pi : Point3D Q) :
  exists b, crossing_step x y s pi = Ret (b, pi).
Proof.
  destruct s as [inside pj]. unfold crossing_step.
  destruct (Qltb y (py pi)) eqn:Ei, (Qltb y (py pj)) eqn:Ej; cbn [xorb bind];
    try (eexists; reflexivity).
  - apply Qltb_lt in Ei. apply Qltb_ge in Ej.
    rewrite float_div_nonzero by (intros H0; qlra). cbn [bind]. eexists; reflexivity.
  - apply Qltb_ge in Ei. apply Qltb_lt in Ej.
    rewrite float_div_nonzero by (intros H0; qlra). cbn [bind]. eexists; reflexivity.
Qed.

Lemma crossing_loop_returns (x y : Q) (polygon : list (Point3D Q))
    (s : bool * Point3D Q) :
  exists r, for_each polygon (crossing_step x y) s = Ret r.
Proof.
  revert s. induction polygon as [|pi polygon IH]; intros s; cbn [for_each].
  - eauto.
  - destruct (crossing_step_returns x y s pi) as [b Hb]. rewrite Hb. cbn [bind].
    apply IH.
Qed.

(** X25: [point_in_polygon] returns a boolean for every point and every
    list of vertices: its division by [yj - yi] is guarded by the test that
    the two ends of the edge lie on different sides of the ray, so that no
    horizontal edge (nor a repeated vertex) raises [ZeroDivisionError]; with
    fewer than three vertices the answer is [False]. *)
Theorem point_in_polygon_returns (point : Point3D Q) (polygon : list (Point3D Q)) :
  exists b,
    point_in_polygon point polygon = Ret b
    /\ ((List.length polygon < 3)%nat -> b = false).
Proof.
  unfold point_in_polygon.
  destruct (List.length polygon <? 3)%nat eqn:E.
  - exists false. split; [reflexivity | intros _; reflexivity].
  - destruct (crossing_loop_returns (px point) (py point) polygon
                (false, List.last polygon point)) as [r Hr].
    rewrite Hr. cbn [bind]. exists (fst r). split; [reflexivity|].
    intros H. apply Nat.ltb_ge in E. lia.
Qed.

(** X26: the polygon of the corners of a [Rectangle] has, by
    [calculate_polygon_area], the area |width * height| of the rectangle,
    whichever way round its two points are given. *)
Theorem rectangle_corners_area (r : ColumnEntities.Rectangle) :
  calculate_polygon_area (ColumnEntities.get_corners r)
  == Qabs (ColumnEntities.rectangle_width r * ColumnEntities.rectangle_height r).
Proof.
  destruct r as [[x0 y0 z0] [x1 y1 z1]].
  unfold calculate_polygon_area, ColumnEntities.get_corners,
    ColumnEntities.rectangle_width, ColumnEntities.rectangle_height.
  cbn [List.length Nat.ltb Nat.leb List.last fold_left px py pz
       ColumnEntities.lower_left ColumnEntities.upper_right].
  assert (E : 0 + (x0 + x0) * (y1 - y0) + (x0 + x1) * (y0 - y0)
              + (x1 + x1) * (y0 - y1) + (x1 + x0) * (y1 - y1)
              == (-2 # 1) * ((x1 - x0) * (y1 - y0))) by ring.
  rewrite E, Qabs_Qmult.
  change (Qabs (-2 # 1)) with 2. field.
Qed.

(** X27: the centre of a [Rectangle] of positive width and height is, by
    [point_in_polygon], inside the polygon of its corners. *)
Theorem rectangle_center_inside (r : ColumnEntities.Rectangle) :
  0 < ColumnEntities.rectangle_width r ->
  0 < ColumnEntities.rectangle_height r ->
  point_in_polygon (ColumnEntities.center r) (ColumnEntities.get_corners r) = Ret true.
Proof.
  destruct r as [[x0 y0 z0] [x1 y1 z1]].
  unfold ColumnEntities.rectangle_width, ColumnEntities.rectangle_height,
    point_in_polygon, ColumnEntities.get_corners, ColumnEntities.center.
  cbn [List.length Nat.ltb Nat.leb List.last px py pz
       ColumnEntities.lower_left ColumnEntities.upper_right].
  intros Hw Hh.
  set (cx := (x0 + x1) / 2). set (cy := (y0 + y1) / 2).
  assert (Hcx : cx * 2 == x0 + x1) by (subst cx; field).
  assert (Hcy : cy * 2 == y0 + y1) by (subst cy; field).
  clearbody cx cy.
  assert (L0 : Qltb cy y0 = false) by (apply Qltb_ge; qlra).
  assert (L1 : Qltb cy y1 = true) by (apply Qltb_lt; qlra).
  cbn [for_each]. unfold crossing_step at 1. cbn [px py]. rewrite L0, L1.
  cbn [xorb]. rewrite float_div_nonzero by (intros H0; qlra). cbn [bind].
  assert (R0 : Qltb cx ((x0 - x0) * (cy - y0) / (y1 - y0) + x0) = false).
  { apply Qltb_ge.
    assert (E : (x0 - x0) * (cy - y0) / (y1 - y0) + x0 == x0)
      by (field; intros H0; qlra).
    rewrite E. qlra. }
  rewrite R0.
  unfold crossing_step at 1. cbn [px py]. rewrite L0. cbn [xorb bind].
  unfold crossing_step at 1. cbn [px py]. rewrite L0, L1.
  cbn [xorb]. rewrite float_div_nonzero by (intros H0; qlra). cbn [bind].
  assert (R1 : Qltb cx ((x1 - x1) * (cy - y1) / (y0 - y1) + x1) = true).
  { apply Qltb_lt.
    assert (E : (x1 - x1) * (cy - y1) / (y0 - y1) + x1 == x1)
      by (field; intros H0; qlra).
    rewrite E. qlra. }
  rewrite R1.
  unfold crossing_step at 1. cbn [px py]. rewrite L1. cbn [xorb bind negb fst].
  reflexivity.
Qed.

End GeometryProperties.

(** * Instances of the further properties on the example inputs *)

Section FurtherInstances.
Local Open Scope Q_scope.

Lemma calculate_main_bars_within_cover_witness :
  Forall (fun bar : Q * Q * Q * Q =>
            -200 + 25 <= fst (fst (fst bar)) <= 200 - 25)
         (ColumnCalculator._calculate_main_bars Examples.scenario_floor (-200, 200)
            0 3000 25).
Proof.
  apply (calculate_main_bars_within_cover Examples.scenario_floor (-200) 200 0 3000 25).
  intros E. discriminate E.
Defined.

Lemma layout_of_calculated_geometry_witness :
  exists fuel layout,
    ColumnCalculator.calculate_rebar_layout fuel
      [Examples.scenario_floor; Examples.scenario_floor]
      (ColumnCalculator.calculate_column_geometry
         [Examples.scenario_floor; Examples.scenario_floor]
         Examples.scenario_settings (0, 0, 0))
      Examples.scenario_settings = Ret layout
    /\ List.length (ColumnCalculator.main_bars layout) = 8%nat.
Proof.
  destruct (layout_of_calculated_geometry
              [Examples.scenario_floor; Examples.scenario_floor]
              Examples.scenario_settings (0, 0, 0))
    as (fuel & layout & Hl & Hn).
  - repeat constructor.
  - exists fuel, layout. split; [exact Hl | exact Hn].
Defined.

Lemma circular_section_positions_witness :
  exists positions,
    ColumnCalculator._calculate_section_rebar_positions Examples.rational_math
      Examples.circular_floor = Ret positions
    /\ List.length positions = 8%nat.
Proof.
  destruct (circular_section_positions Examples.rational_math Examples.circular_floor)
    as [_ H].
  - intros E. discriminate E.
  - destruct H as (positions & Hp & Hn & _); [intros E; discriminate E|].
    exists positions. split; [exact Hp | exact Hn].
Defined.

Lemma column_entity_matches_calculator_witness :
  ColumnEntities.get_floor_levels
    (ColumnEntities.add_floor (ColumnEntities.new_column "C1")
       (ColumnEntities.floor Examples.scenario_section))
  = ColumnCalculator.floor_levels
      (ColumnCalculator.calculate_column_geometry [Examples.scenario_floor]
         Examples.scenario_settings (0, 0, 0)).
Proof.
  exact (proj1 (column_entity_matches_calculator
                  (ColumnEntities.add_floor (ColumnEntities.new_column "C1")
                     (ColumnEntities.floor Examples.scenario_section))
                  [Examples.scenario_floor] Examples.scenario_settings
                  eq_refl eq_refl)).
Defined.

Lemma calculate_rebar_positions_resets_witness :
  exists result,
    ColumnEntities.calculate_rebar_positions Examples.rational_math
      Examples.scenario_section 25 = Ret result
    /\ ColumnEntities.calculate_rebar_positions Examples.rational_math result 25
       = Ret result.
Proof.
  destruct (calculate_rebar_positions_resets Examples.rational_math
              Examples.scenario_section
              {| RebarEntities.main_bars := []; RebarEntities.links := [];
                 RebarEntities.main_bars_x := 4; RebarEntities.main_bars_y := 4 |}
              25)
    as (result & H1 & _ & _ & _ & H2);
    try reflexivity; try (intros E; discriminate E).
  exists result. split; [exact H1 | exact H2].
Defined.

Lemma calculate_stirrups_increasing_witness :
  exists fuel l,
    ColumnCalculator._calculate_stirrups fuel Examples.scenario_floor 0 3000 500 = Ret l
    /\ StronglySorted Qlt
         (map (fun s : Q * ColumnCalculator.zone * Q => fst (fst s)) l).
Proof.
  destruct (calculate_stirrups_increasing Examples.scenario_floor 0 3000 500
              eq_refl eq_refl)
    as (fuel & l & Hl & Hs & _).
  exists fuel, l. split; [exact Hl | exact Hs].
Defined.

Lemma calculate_positions_matches_calculator_witness :
  exists fuel self' l,
    RebarEntities.calculate_positions fuel
      {| RebarEntities.sl_diameter := 8; RebarEntities.sl_edge_spacing := 100;
         RebarEntities.sl_mid_spacing := 150; RebarEntities.sl_positions := [0] |}
      0 3000 500 = Ret self'
    /\ ColumnCalculator._calculate_stirrups fuel Examples.scenario_floor 0 3000 500
       = Ret l
    /\ RebarEntities.sl_positions self'
       = map (fun s : Q * ColumnCalculator.zone * Q => fst (fst s)) l.
Proof.
  destruct (calculate_positions_matches_calculator
              {| RebarEntities.sl_diameter := 8; RebarEntities.sl_edge_spacing := 100;
                 RebarEntities.sl_mid_spacing := 150;
                 RebarEntities.sl_positions := [0] |}
              Examples.scenario_floor 0 3000 500 eq_refl eq_refl eq_refl eq_refl)
    as (fuel & self' & l & H1 & H2 & H3 & _).
  exists fuel, self', l. split; [exact H1|]. split; [exact H2 | exact H3].
Defined.

Lemma generated_pattern_in_range_witness :
  exists fuel p',
    StirrupEntities.generate_rectangular_pattern fuel StirrupEntities.new_pattern
      0 3000 500 350 350 0 = Ret p'
    /\ StirrupEntities.get_stirrups_in_range p' 0 (0 + 3000)
       = StirrupEntities.stirrups p'.
Proof.
  destruct (generated_pattern_in_range StirrupEntities.new_pattern 0 3000 500 350 350 0)
    as (fuel & p' & H1 & H2 & _);
    try reflexivity; try (intros E; discriminate E).
  exists fuel, p'. split; [exact H1 | exact H2].
Defined.

Lemma validate_column_data_composition_witness :
  exists r se,
    Validation.call Validation.Deferred
      (fun self => Validation.validate_column_data self ValidationInputs.mismatch_data)
    = Ret r
    /\ Validation._validate_settings Validation.__init__ ∅ = Ret se
    /\ (Validation.is_valid r = true <-> Validation.errors r = []).
Proof.
  destruct (Validation.call Validation.Deferred
              (fun self =>
                 Validation.validate_column_data self ValidationInputs.mismatch_data))
    as [r| |] eqn:E.
  - destruct (validate_column_data_composition Validation.Deferred
                ValidationInputs.mismatch_data r E)
      as (_ & self & se & reports & Hself & Hse & _ & _ & _ & Hv).
    injection Hself as <-.
    exists r, se. split; [reflexivity|]. split; [exact Hse | exact Hv].
  - vm_compute in E. discriminate E.
  - vm_compute in E. discriminate E.
Defined.

Lemma missing_fields_reported_witness :
  exists r,
    Validation.call Validation.Deferred
      (fun self => Validation.validate_column_data self ValidationInputs.mismatch_data)
    = Ret r
    /\ In (Validation.MissingSetting "scale") (Validation.errors r)
    /\ Validation.is_valid r = false.
Proof.
  destruct (Validation.call Validation.Deferred
              (fun self =>
                 Validation.validate_column_data self ValidationInputs.mismatch_data))
    as [r| |] eqn:E.
  - exists r. split; [reflexivity|].
    apply (proj1 (missing_fields_reported Validation.Deferred
                    ValidationInputs.mismatch_data r E) "scale").
    + simpl. tauto.
    + reflexivity.
  - vm_compute in E. discriminate E.
  - vm_compute in E. discriminate E.
Defined.

Lemma rectangle_center_inside_witness :
  GeometryUtils.point_in_polygon
    (ColumnEntities.center
       {| ColumnEntities.lower_left := mkPoint3D 0 0 0;
          ColumnEntities.upper_right := mkPoint3D 400 400 0 |})
    (ColumnEntities.get_corners
       {| ColumnEntities.lower_left := mkPoint3D 0 0 0;
          ColumnEntities.upper_right := mkPoint3D 400 400 0 |})
  = Ret true.
Proof.
  apply rectangle_center_inside; reflexivity.
Defined.

End FurtherInstances.
